(** * rofi: the filter-and-navigate engine of [source/view.c], and drun's matcher

    A shallow embedding of the parts of [source/view.c] and
    [source/dialogs/drun.c] that filter the entry list, rank it, lay it out
    and move the selection, together with the properties the specification
    states about them.

    Conventions.
    - C [unsigned int] values are integers in [0, 2^32); every arithmetic
      operation of the source on them is followed by [u32], its wrap-around.
      C [int] values are wrapped with [s32].
    - C arrays are lists, read with [aget] and written with [aset].
    - C truth values are integers: [FALSE] is 0, [TRUE] is 1 and a condition
      holds when its value is not 0 ([truthy]).
    - Functions that can trap (a division by zero) return [option]. *)

From Stdlib Require Import Ascii.
From stdpp Require Import base numbers list strings sorting.

Local Open Scope Z_scope.

(** ** Machine integers *)

Definition u32 (z : Z) : Z := z mod 2 ^ 32.
Definition s32 (z : Z) : Z := (z + 2 ^ 31) mod 2 ^ 32 - 2 ^ 31.
Definition UINT32_MAX : Z := 2 ^ 32 - 1.

Definition TRUE : Z := 1.
Definition FALSE : Z := 0.
Definition truthy (z : Z) : bool := negb (z =? 0).
Definition of_bool (b : bool) : Z := if b then 1 else 0.

(** glib's [MIN] and [MAX] macros. *)
Definition MIN (a b : Z) : Z := if a <? b then a else b.
Definition MAX (a b : Z) : Z := if a >? b then a else b.

(** ** Arrays

    An access outside the array is undefined in C. The model reads 0 there
    and ignores the write; the theorems below only rely on accesses that are
    in range. *)

Definition aget (l : list Z) (i : Z) : Z :=
  if i <? 0 then 0 else nth (Z.to_nat i) l 0.

Definition aset (l : list Z) (i : Z) (v : Z) : list Z :=
  if i <? 0 then l else <[Z.to_nat i := v]> l.

(** [memmove ( &l[dst], &l[src], sizeof ( unsigned int ) * n )]: the [n]
    elements are read before any is written, so the regions may overlap. *)
Definition memmove (l : list Z) (dst src n : Z) : list Z :=
  let moved := take (Z.to_nat n) (drop (Z.to_nat src) l) in
  take (Z.to_nat dst) l ++ moved ++ drop (Z.to_nat dst + length moved) l.

(** ** The collaborators of the view

    [helper.h] declares the tokenizer, the matcher and the edit distance;
    their bodies live outside the files modelled here, so they are fields of
    an interface. A token array ([char **]) is [None] when the pointer is
    NULL and the list of its strings before the terminating NULL otherwise. *)

Definition tokens_t : Type := option (list string).

Class Helper := {
  tokenize : string -> Z -> tokens_t;
  token_match : tokens_t -> string -> Z -> Z -> Z;
  levenshtein : string -> string -> Z
}.

(** A [Mode] is a table of callbacks, as in the initializer of [drun_mode];
    the private data is captured by the callbacks. *)
Record Mode := {
  _get_num_entries : Z;
  _token_match : tokens_t -> Z -> Z -> Z -> Z;
  _get_completion : Z -> string;
  _is_not_ascii : Z -> Z
}.

(** The accessors of [mode.h] call the callback of the mode. *)
Definition mode_token_match (sw : Mode) (tokens : tokens_t)
    (not_ascii case_sensitive index : Z) : Z :=
  _token_match sw tokens not_ascii case_sensitive index.

Definition mode_get_completion (sw : Mode) (index : Z) : string :=
  _get_completion sw index.

(** The values of the [MenuReturn] enumeration are declared in a header that
    is not part of the modelled files: they are parameters. *)
Class MenuReturn := {
  MENU_OK : Z;
  MENU_CANCEL : Z;
  MENU_NEXT : Z;
  MENU_CUSTOM_INPUT : Z;
  MENU_ENTRY_DELETE : Z;
  MENU_QUICK_SWITCH : Z;
  MENU_PREVIOUS : Z;
  MENU_CUSTOM_ACTION : Z;
  MENU_LOWER_MASK : Z
}.

(** The key-binding actions [view.c] asks about. [CUSTOM n] stands for
    [CUSTOM_1] .. [CUSTOM_19], which the source walks as consecutive
    integers. *)
Inductive KeyBindingAction :=
  | PASTE_PRIMARY | PASTE_SECONDARY | SCREENSHOT | TOGGLE_SORT
  | MODE_PREVIOUS | MODE_NEXT | TOGGLE_CASE_SENSITIVITY | DELETE_ENTRY
  | CUSTOM (n : Z)
  | CANCEL | ROW_UP | ROW_TAB | ROW_DOWN | ROW_LEFT | ROW_RIGHT
  | PAGE_PREV | PAGE_NEXT | ROW_FIRST | ROW_LAST | ROW_SELECT.

Class KeyBindings := {
  abe_test_action : KeyBindingAction -> Z -> Z -> Z
}.

(** The entry box. [view.c] reads its [text] and [cursor] fields and drives
    it through three functions of the textbox widget. *)
Module textbox.
Record t := { text : string; cursor : Z }.
End textbox.

Class TextboxOps := {
  textbox_keypress : textbox.t -> string -> Z -> Z -> Z * textbox.t;
  textbox_text : textbox.t -> string -> textbox.t;
  textbox_cursor_end : textbox.t -> textbox.t
}.

(** The fields of the global [config] that the modelled functions read. *)
Record Settings := {
  case_sensitive : Z;
  levenshtein_sort : Z;
  auto_select : Z;
  menu_columns : Z;
  fixed_num_lines : Z
}.

(** The fields of [RofiViewState] that the modelled functions use. *)
Record RofiViewState := {
  sw : Mode;
  menu_lines : Z;
  max_elements : Z;
  max_rows : Z;
  columns : Z;
  update : Z;
  refilter : Z;
  rchanged : Z;
  text : textbox.t;
  distance : list Z;
  line_map : list Z;
  num_lines : Z;
  selected : Z;
  filtered_lines : Z;
  prev_key : Z;
  quit : Z;
  selected_line : Z;
  retv : Z;
  lines_not_ascii : list Z
}.

(** Field assignments. *)
Definition set_max_elements (v : Z) (s : RofiViewState) : RofiViewState :=
  {| sw := sw s; menu_lines := menu_lines s; max_elements := v;
     max_rows := max_rows s; columns := columns s; update := update s;
     refilter := refilter s; rchanged := rchanged s; text := text s;
     distance := distance s; line_map := line_map s; num_lines := num_lines s;
     selected := selected s; filtered_lines := filtered_lines s;
     prev_key := prev_key s; quit := quit s; selected_line := selected_line s;
     retv := retv s; lines_not_ascii := lines_not_ascii s |}.

Definition set_max_rows (v : Z) (s : RofiViewState) : RofiViewState :=
  {| sw := sw s; menu_lines := menu_lines s; max_elements := max_elements s;
     max_rows := v; columns := columns s; update := update s;
     refilter := refilter s; rchanged := rchanged s; text := text s;
     distance := distance s; line_map := line_map s; num_lines := num_lines s;
     selected := selected s; filtered_lines := filtered_lines s;
     prev_key := prev_key s; quit := quit s; selected_line := selected_line s;
     retv := retv s; lines_not_ascii := lines_not_ascii s |}.

Definition set_columns (v : Z) (s : RofiViewState) : RofiViewState :=
  {| sw := sw s; menu_lines := menu_lines s; max_elements := max_elements s;
     max_rows := max_rows s; columns := v; update := update s;
     refilter := refilter s; rchanged := rchanged s; text := text s;
     distance := distance s; line_map := line_map s; num_lines := num_lines s;
     selected := selected s; filtered_lines := filtered_lines s;
     prev_key := prev_key s; quit := quit s; selected_line := selected_line s;
     retv := retv s; lines_not_ascii := lines_not_ascii s |}.

Definition set_update (v : Z) (s : RofiViewState) : RofiViewState :=
  {| sw := sw s; menu_lines := menu_lines s; max_elements := max_elements s;
     max_rows := max_rows s; columns := columns s; update := v;
     refilter := refilter s; rchanged := rchanged s; text := text s;
     distance := distance s; line_map := line_map s; num_lines := num_lines s;
     selected := selected s; filtered_lines := filtered_lines s;
     prev_key := prev_key s; quit := quit s; selected_line := selected_line s;
     retv := retv s; lines_not_ascii := lines_not_ascii s |}.

Definition set_refilter (v : Z) (s : RofiViewState) : RofiViewState :=
  {| sw := sw s; menu_lines := menu_lines s; max_elements := max_elements s;
     max_rows := max_rows s; columns := columns s; update := update s;
     refilter := v; rchanged := rchanged s; text := text s;
     distance := distance s; line_map := line_map s; num_lines := num_lines s;
     selected := selected s; filtered_lines := filtered_lines s;
     prev_key := prev_key s; quit := quit s; selected_line := selected_line s;
     retv := retv s; lines_not_ascii := lines_not_ascii s |}.

Definition set_rchanged (v : Z) (s : RofiViewState) : RofiViewState :=
  {| sw := sw s; menu_lines := menu_lines s; max_elements := max_elements s;
     max_rows := max_rows s; columns := columns s; update := update s;
     refilter := refilter s; rchanged := v; text := text s;
     distance := distance s; line_map := line_map s; num_lines := num_lines s;
     selected := selected s; filtered_lines := filtered_lines s;
     prev_key := prev_key s; quit := quit s; selected_line := selected_line s;
     retv := retv s; lines_not_ascii := lines_not_ascii s |}.

Definition set_text (v : textbox.t) (s : RofiViewState) : RofiViewState :=
  {| sw := sw s; menu_lines := menu_lines s; max_elements := max_elements s;
     max_rows := max_rows s; columns := columns s; update := update s;
     refilter := refilter s; rchanged := rchanged s; text := v;
     distance := distance s; line_map := line_map s; num_lines := num_lines s;
     selected := selected s; filtered_lines := filtered_lines s;
     prev_key := prev_key s; quit := quit s; selected_line := selected_line s;
     retv := retv s; lines_not_ascii := lines_not_ascii s |}.

Definition set_distance (v : list Z) (s : RofiViewState) : RofiViewState :=
  {| sw := sw s; menu_lines := menu_lines s; max_elements := max_elements s;
     max_rows := max_rows s; columns := columns s; update := update s;
     refilter := refilter s; rchanged := rchanged s; text := text s;
     distance := v; line_map := line_map s; num_lines := num_lines s;
     selected := selected s; filtered_lines := filtered_lines s;
     prev_key := prev_key s; quit := quit s; selected_line := selected_line s;
     retv := retv s; lines_not_ascii := lines_not_ascii s |}.

Definition set_line_map (v : list Z) (s : RofiViewState) : RofiViewState :=
  {| sw := sw s; menu_lines := menu_lines s; max_elements := max_elements s;
     max_rows := max_rows s; columns := columns s; update := update s;
     refilter := refilter s; rchanged := rchanged s; text := text s;
     distance := distance s; line_map := v; num_lines := num_lines s;
     selected := selected s; filtered_lines := filtered_lines s;
     prev_key := prev_key s; quit := quit s; selected_line := selected_line s;
     retv := retv s; lines_not_ascii := lines_not_ascii s |}.

Definition set_selected (v : Z) (s : RofiViewState) : RofiViewState :=
  {| sw := sw s; menu_lines := menu_lines s; max_elements := max_elements s;
     max_rows := max_rows s; columns := columns s; update := update s;
     refilter := refilter s; rchanged := rchanged s; text := text s;
     distance := distance s; line_map := line_map s; num_lines := num_lines s;
     selected := v; filtered_lines := filtered_lines s;
     prev_key := prev_key s; quit := quit s; selected_line := selected_line s;
     retv := retv s; lines_not_ascii := lines_not_ascii s |}.

Definition set_filtered_lines (v : Z) (s : RofiViewState) : RofiViewState :=
  {| sw := sw s; menu_lines := menu_lines s; max_elements := max_elements s;
     max_rows := max_rows s; columns := columns s; update := update s;
     refilter := refilter s; rchanged := rchanged s; text := text s;
     distance := distance s; line_map := line_map s; num_lines := num_lines s;
     selected := selected s; filtered_lines := v;
     prev_key := prev_key s; quit := quit s; selected_line := selected_line s;
     retv := retv s; lines_not_ascii := lines_not_ascii s |}.

Definition set_prev_key (v : Z) (s : RofiViewState) : RofiViewState :=
  {| sw := sw s; menu_lines := menu_lines s; max_elements := max_elements s;
     max_rows := max_rows s; columns := columns s; update := update s;
     refilter := refilter s; rchanged := rchanged s; text := text s;
     distance := distance s; line_map := line_map s; num_lines := num_lines s;
     selected := selected s; filtered_lines := filtered_lines s;
     prev_key := v; quit := quit s; selected_line := selected_line s;
     retv := retv s; lines_not_ascii := lines_not_ascii s |}.

Definition set_quit (v : Z) (s : RofiViewState) : RofiViewState :=
  {| sw := sw s; menu_lines := menu_lines s; max_elements := max_elements s;
     max_rows := max_rows s; columns := columns s; update := update s;
     refilter := refilter s; rchanged := rchanged s; text := text s;
     distance := distance s; line_map := line_map s; num_lines := num_lines s;
     selected := selected s; filtered_lines := filtered_lines s;
     prev_key := prev_key s; quit := v; selected_line := selected_line s;
     retv := retv s; lines_not_ascii := lines_not_ascii s |}.

Definition set_selected_line (v : Z) (s : RofiViewState) : RofiViewState :=
  {| sw := sw s; menu_lines := menu_lines s; max_elements := max_elements s;
     max_rows := max_rows s; columns := columns s; update := update s;
     refilter := refilter s; rchanged := rchanged s; text := text s;
     distance := distance s; line_map := line_map s; num_lines := num_lines s;
     selected := selected s; filtered_lines := filtered_lines s;
     prev_key := prev_key s; quit := quit s; selected_line := v;
     retv := retv s; lines_not_ascii := lines_not_ascii s |}.

Definition set_retv (v : Z) (s : RofiViewState) : RofiViewState :=
  {| sw := sw s; menu_lines := menu_lines s; max_elements := max_elements s;
     max_rows := max_rows s; columns := columns s; update := update s;
     refilter := refilter s; rchanged := rchanged s; text := text s;
     distance := distance s; line_map := line_map s; num_lines := num_lines s;
     selected := selected s; filtered_lines := filtered_lines s;
     prev_key := prev_key s; quit := quit s; selected_line := selected_line s;
     retv := v; lines_not_ascii := lines_not_ascii s |}.

(** ** Navigation helpers ([rofi_view_nav_*]) *)

Definition rofi_view_nav_page_next (state : RofiViewState) : RofiViewState :=
  if filtered_lines state =? 0 then state
  else
    let state := set_selected (u32 (selected state + max_elements state)) state in
    let state :=
      if selected state >=? filtered_lines state
      then set_selected (u32 (filtered_lines state - 1)) state
      else state in
    set_update TRUE state.

Definition rofi_view_nav_page_prev (state : RofiViewState) : RofiViewState :=
  let state :=
    if selected state <? max_elements state
    then set_selected 0 state
    else set_selected (u32 (selected state - max_elements state)) state in
  set_update TRUE state.

(** The two divisions of [rofi_view_nav_right] trap when [max_rows] is 0. *)
Definition rofi_view_nav_right (state : RofiViewState) : option RofiViewState :=
  if filtered_lines state =? 0 then Some state
  else if u32 (selected state + max_rows state) <? filtered_lines state then
    Some (set_update TRUE
            (set_selected (u32 (selected state + max_rows state)) state))
  else if selected state <? u32 (filtered_lines state - 1) then
    if max_rows state =? 0 then None
    else
      let col := s32 (selected state / max_rows state) in
      let ncol := s32 (filtered_lines state / max_rows state) in
      if negb (col =? ncol) then
        Some (set_update TRUE
                (set_selected (u32 (filtered_lines state - 1)) state))
      else Some state
  else Some state.

Definition rofi_view_nav_left (state : RofiViewState) : RofiViewState :=
  if selected state >=? max_rows state then
    set_update TRUE (set_selected (u32 (selected state - max_rows state)) state)
  else state.

Definition rofi_view_nav_up (state : RofiViewState) : RofiViewState :=
  let state :=
    if selected state =? 0 then set_selected (filtered_lines state) state
    else state in
  let state :=
    if selected state >? 0 then set_selected (u32 (selected state - 1)) state
    else state in
  set_update TRUE state.

Definition rofi_view_nav_down (state : RofiViewState) : RofiViewState :=
  if filtered_lines state =? 0 then state
  else
    set_update TRUE
      (set_selected
         (if selected state <? u32 (filtered_lines state - 1)
          then MIN (u32 (filtered_lines state - 1)) (u32 (selected state + 1))
          else 0) state).

Definition rofi_view_nav_first (state : RofiViewState) : RofiViewState :=
  set_update TRUE (set_selected 0 state).

Definition rofi_view_nav_last (state : RofiViewState) : RofiViewState :=
  if filtered_lines state =? 0 then state
  else set_update TRUE (set_selected (u32 (filtered_lines state - 1)) state).

(** ** The filter pass ([filter_elements], [rofi_view_refilter]) *)

(** The fields of [thread_state] that carry data; the pointer to the shared
    view state is the state argument of the functions below, and the mutex,
    the condition variable and the completion counter implement the barrier
    that [join_pool] stands for. *)
Record thread_state := {
  tokens : tokens_t;
  start : Z;
  stop : Z;
  count : Z
}.

Definition set_count (v : Z) (t : thread_state) : thread_state :=
  {| tokens := tokens t; start := start t; stop := stop t; count := v |}.

(** [lev_sort]: both pointers are read as [int] and the result is the [int]
    difference of the two cached distances. *)
Definition lev_sort (distances : list Z) (a b : Z) : Z :=
  s32 (aget distances (s32 a) - aget distances (s32 b)).

(** [g_qsort_with_data] belongs to GLib, which documents it as a stable sort
    and implements it as the merge sort below: the array is cut at [n / 2],
    both halves are sorted, and the merge takes from the first half while
    [compare_func] is not positive. *)
Fixpoint msort_merge (compare_func : Z -> Z -> Z) (b1 : list Z) : list Z -> list Z :=
  fix merge_b2 (b2 : list Z) : list Z :=
    match b1, b2 with
    | [], _ => b2
    | _, [] => b1
    | x1 :: b1', x2 :: b2' =>
        if compare_func x1 x2 <=? 0
        then x1 :: msort_merge compare_func b1' b2
        else x2 :: merge_b2 b2'
    end.

Fixpoint msort_with_tmp (fuel : nat) (compare_func : Z -> Z -> Z) (b : list Z)
    : list Z :=
  match fuel with
  | O => b
  | S fuel' =>
      let n := length b in
      if (n <=? 1)%nat then b
      else
        let n1 := (n / 2)%nat in
        msort_merge compare_func
          (msort_with_tmp fuel' compare_func (take n1 b))
          (msort_with_tmp fuel' compare_func (drop n1 b))
  end.

Definition g_qsort_with_data (pbase : list Z) (total_elems : Z)
    (compare_func : Z -> Z -> Z) : list Z :=
  let n := Z.to_nat total_elems in
  msort_with_tmp n compare_func (take n pbase) ++ drop n pbase.

(** [rofi_view_calculate_rows_columns]; the remainder by [columns] traps
    when the configured column count is 0. *)
Definition rofi_view_calculate_rows_columns (config : Settings)
    (state : RofiViewState) : option RofiViewState :=
  let state := set_columns (menu_columns config) state in
  let state :=
    set_max_elements
      (MIN (u32 (menu_lines state * columns state)) (num_lines state)) state in
  if columns state =? 0 then None
  else
    let state :=
      set_max_rows
        (MIN (menu_lines state)
           (u32 (num_lines state
                 + u32 (columns state - num_lines state mod columns state)
                   mod columns state)
            / columns state)) state in
    let state := set_max_rows (MAX 1 (max_rows state)) state in
    if fixed_num_lines config =? TRUE then
      let state := set_max_elements (u32 (menu_lines state * columns state)) state in
      let state := set_max_rows (menu_lines state) state in
      let state :=
        if num_lines state <? max_elements state then
          let state :=
            set_columns
              (u32 (num_lines state
                    + u32 (max_rows state - num_lines state mod max_rows state)
                      mod max_rows state)
               / max_rows state) state in
          set_max_elements (u32 (menu_lines state * columns state)) state
        else state in
      Some (if columns state =? 0 then set_columns 1 state else state)
    else Some state.

(** Ceiling of a quotient, for the statements about the layout. *)
Definition ceil_div (a b : Z) : Z := (a + b - 1) / b.

Section Filter.
Context `{Helper} `{MenuReturn}.

(** One round of the [for] loop of [filter_elements], for index [i]. *)
Definition filter_elements_body (config : Settings) (t : thread_state)
    (i : Z) (state : RofiViewState) : thread_state * RofiViewState :=
  let match_ :=
    mode_token_match (sw state) (tokens t) (aget (lines_not_ascii state) i)
      (case_sensitive config) i in
  if truthy match_ then
    let state :=
      set_line_map (aset (line_map state) (u32 (start t + count t)) i) state in
    let state :=
      if truthy (levenshtein_sort config) then
        let str := mode_get_completion (sw state) i in
        set_distance
          (aset (distance state) i
             (s32 (levenshtein (textbox.text (text state)) str))) state
      else state in
    (set_count (u32 (count t + 1)) t, state)
  else (t, state).

(** The loop of [filter_elements], entered with loop variable [i]. *)
Fixpoint filter_elements_loop (config : Settings) (fuel : nat)
    (t : thread_state) (i : Z) (state : RofiViewState)
    : thread_state * RofiViewState :=
  match fuel with
  | O => (t, state)
  | S fuel' =>
      if i <? stop t then
        let '(t', state') := filter_elements_body config t i state in
        filter_elements_loop config fuel' t' (u32 (i + 1)) state'
      else (t, state)
  end.

Definition filter_elements_from (config : Settings) (t : thread_state)
    (i : Z) (state : RofiViewState) : thread_state * RofiViewState :=
  filter_elements_loop config (Z.to_nat (stop t - i)) t i state.

Definition filter_elements (config : Settings) (t : thread_state)
    (state : RofiViewState) : thread_state * RofiViewState :=
  filter_elements_from config t (start t) state.

(** *** The thread pool

    The tasks of one pass run concurrently: chunk 0 in the calling thread,
    the others in the pool. A running task is its [thread_state] and the
    current value of its loop variable. A schedule names, round after
    round, the task that performs its next loop round; every interleaving
    of the tasks is the replay of some schedule. *)
Abbreviation pool := (list (thread_state * Z)).

Definition pool_step (config : Settings) (k : nat) (p : pool)
    (state : RofiViewState) : pool * RofiViewState :=
  match p !! k with
  | Some (t, i) =>
      if i <? stop t then
        let '(t', state') := filter_elements_body config t i state in
        (<[k := (t', u32 (i + 1))]> p, state')
      else (p, state)
  | None => (p, state)
  end.

Fixpoint run_schedule (config : Settings) (sched : list nat) (p : pool)
    (state : RofiViewState) : pool * RofiViewState :=
  match sched with
  | [] => (p, state)
  | k :: sched' =>
      let '(p', state') := pool_step config k p state in
      run_schedule config sched' p' state'
  end.

(** The barrier: the caller goes on when every task has left its loop.
    Tasks the schedule left unfinished run to their end here. *)
Fixpoint join_pool (config : Settings) (p : pool) (state : RofiViewState)
    : list thread_state * RofiViewState :=
  match p with
  | [] => ([], state)
  | (t, i) :: p' =>
      let '(t', state') := filter_elements_from config t i state in
      let '(ts, state'') := join_pool config p' state' in
      (t' :: ts, state'')
  end.

(** The [thread_state]s that [rofi_view_refilter] sets up. *)
Definition make_states (tokens : tokens_t) (num_lines nt steps : Z)
    : list thread_state :=
  (fun i => {| tokens := tokens;
               start := u32 (i * steps);
               stop := MIN num_lines (u32 ((i + 1) * steps));
               count := 0 |}) <$> seqZ 0 nt.

(** The compaction loop that follows the barrier. *)
Fixpoint compact (states : list thread_state) (j : Z) (line_map : list Z)
    : Z * list Z :=
  match states with
  | [] => (j, line_map)
  | t :: states' =>
      let line_map :=
        if negb (j =? start t) then memmove line_map j (start t) (count t)
        else line_map in
      compact states' (u32 (j + count t)) line_map
  end.

(** The filter pass proper, from the set-up of the [thread_state]s up to
    and including the compaction, for [nt] chunks of [steps] indices: the
    resulting state and the number [j] of entries kept. *)
Definition filter_chunks (config : Settings) (sched : list nat)
    (state : RofiViewState) (tokens : tokens_t) (nt steps : Z)
    : Z * RofiViewState :=
  let states := make_states tokens (num_lines state) nt steps in
  let '(p, state) :=
    run_schedule config sched ((fun t => (t, start t)) <$> states) state in
  let '(states, state) := join_pool config p state in
  let '(j, lm) := compact states 0 (line_map state) in
  (j, set_line_map lm state).

(** The pass with the token array, the number of chunks and the chunk
    size that [rofi_view_refilter] computes. *)
Definition filter_pass (config : Settings) (sched : list nat)
    (state : RofiViewState) : Z * RofiViewState :=
  let tokens := tokenize (textbox.text (text state)) (case_sensitive config) in
  let nt := MAX 1 (num_lines state / 500) in
  let steps := u32 (num_lines state + nt) / nt in
  filter_chunks config sched state tokens nt steps.

(** The first block of [rofi_view_refilter]: it fills [line_map] and sets
    [filtered_lines]. *)
Definition refilter_line_map (config : Settings) (sched : list nat)
    (state : RofiViewState) : RofiViewState :=
  if 0 <? Z.of_nat (String.length (textbox.text (text state))) then
    let '(j, state) := filter_pass config sched state in
    let state :=
      if truthy (levenshtein_sort config) then
        set_line_map
          (g_qsort_with_data (line_map state) (s32 j)
             (lev_sort (distance state))) state
      else state in
    set_filtered_lines j state
  else
    let state :=
      set_line_map
        (foldl (fun lm i => aset lm i i) (line_map state)
           (seqZ 0 (num_lines state))) state in
    set_filtered_lines (num_lines state) state.

(** [rofi_view_refilter]: the first block, the clamp of the selection, the
    auto-select rule and the three flags. [sched] is the schedule under
    which the pool runs the chunk tasks. The scrollbar, which the source
    also updates, is not part of the model. *)
Definition rofi_view_refilter (config : Settings) (sched : list nat)
    (state : RofiViewState) : RofiViewState :=
  let state := refilter_line_map config sched state in
  let state :=
    if filtered_lines state >? 0 then
      set_selected (MIN (selected state) (u32 (filtered_lines state - 1))) state
    else set_selected 0 state in
  let state :=
    if (auto_select config =? TRUE) && (filtered_lines state =? 1)
       && (num_lines state >? 1) then
      set_quit TRUE
        (set_retv MENU_OK
           (set_selected_line (aget (line_map state) (selected state)) state))
    else state in
  set_update TRUE (set_rchanged TRUE (set_refilter FALSE state)).

(** *** What the pass is compared with

    [entry_matches] is the test [filter_elements] applies to entry [i];
    [single_scan_filter] walks [0, num_lines) once from left to right and
    keeps the indices that pass it. *)
Definition entry_matches (config : Settings) (state : RofiViewState) (i : Z)
    : bool :=
  truthy
    (mode_token_match (sw state)
       (tokenize (textbox.text (text state)) (case_sensitive config))
       (aget (lines_not_ascii state) i) (case_sensitive config) i).

Definition single_scan_filter (config : Settings) (state : RofiViewState)
    : list Z :=
  List.filter (entry_matches config state) (seqZ 0 (num_lines state)).

(** The distance [filter_elements] caches for entry [i]. *)
Definition entry_distance (state : RofiViewState) (i : Z) : Z :=
  s32 (levenshtein (textbox.text (text state)) (mode_get_completion (sw state) i)).

(** The filtered index list: the first [filtered_lines] cells of
    [line_map]. *)
Definition filtered_list (state : RofiViewState) : list Z :=
  take (Z.to_nat (filtered_lines state)) (line_map state).
End Filter.

(** ** Keyboard dispatch ([rofi_view_keyboard_navigation],
    [rofi_view_mainloop_iter]) *)

Definition XKB_KEY_NoSymbol : Z := 0.

Section Dispatch.
Context `{Helper} `{MenuReturn} `{KeyBindings} `{TextboxOps}.

(** Returns the [int] result together with the state; [None] when
    [rofi_view_nav_right] traps. *)
Definition rofi_view_keyboard_navigation (state : RofiViewState)
    (key modstate : Z) : option (Z * RofiViewState) :=
  if truthy (abe_test_action CANCEL modstate key) then
    Some (1, set_quit TRUE (set_retv MENU_CANCEL state))
  else if truthy (abe_test_action ROW_UP modstate key) then
    Some (1, rofi_view_nav_up state)
  else if truthy (abe_test_action ROW_TAB modstate key) then
    if filtered_lines state =? 1 then
      Some (1, set_quit 1
                 (set_selected_line (aget (line_map state) (selected state))
                    (set_retv MENU_OK state)))
    else if (filtered_lines state =? 0) && (key =? prev_key state) then
      Some (1, set_quit TRUE (set_selected_line 0 (set_retv MENU_NEXT state)))
    else Some (1, rofi_view_nav_down state)
  else if truthy (abe_test_action ROW_DOWN modstate key) then
    Some (1, rofi_view_nav_down state)
  else if truthy (abe_test_action ROW_LEFT modstate key) then
    Some (1, rofi_view_nav_left state)
  else if truthy (abe_test_action ROW_RIGHT modstate key) then
    state' ← rofi_view_nav_right state; Some (1, state')
  else if truthy (abe_test_action PAGE_PREV modstate key) then
    Some (1, rofi_view_nav_page_prev state)
  else if truthy (abe_test_action PAGE_NEXT modstate key) then
    Some (1, rofi_view_nav_page_next state)
  else if truthy (abe_test_action ROW_FIRST modstate key) then
    Some (1, rofi_view_nav_first state)
  else if truthy (abe_test_action ROW_LAST modstate key) then
    Some (1, rofi_view_nav_last state)
  else if truthy (abe_test_action ROW_SELECT modstate key) then
    if selected state <? filtered_lines state then
      let str :=
        mode_get_completion (sw state) (aget (line_map state) (selected state)) in
      let tb := textbox_cursor_end (textbox_text (text state) str) in
      Some (1, set_refilter TRUE (set_update TRUE (set_text tb state)))
    else Some (1, state)
  else Some (0, set_prev_key key state).

(** The loop over [CUSTOM_1] .. [CUSTOM_19]; its [break] leaves the loop,
    not the [switch]. *)
Fixpoint custom_loop (actions : list Z) (state : RofiViewState)
    (key modstate : Z) : RofiViewState :=
  match actions with
  | [] => state
  | a :: actions' =>
      if truthy (abe_test_action (CUSTOM a) modstate key) then
        let state := set_selected_line UINT32_MAX state in
        let state :=
          if selected state <? filtered_lines state then
            set_selected_line (aget (line_map state) (selected state)) state
          else state in
        let state :=
          set_retv (Z.lor MENU_QUICK_SWITCH (Z.land (a - 1) MENU_LOWER_MASK))
            state in
        set_quit TRUE state
      else custom_loop actions' state key modstate
  end.

(** The block that hands the key to the entry box; [rc < 0] is an accept,
    [rc == -2] the accept with the auxiliary modifier. *)
Definition entry_box_keypress (state : RofiViewState) (pad : string)
    (modstate key : Z) : RofiViewState :=
  if truthy (quit state) then state
  else
    let '(rc, tb) := textbox_keypress (text state) pad modstate key in
    let state := set_text tb state in
    if rc <? 0 then
      let state := set_selected_line UINT32_MAX state in
      let state :=
        if selected state <? filtered_lines state then
          set_retv MENU_OK
            (set_selected_line (aget (line_map state) (selected state)) state)
        else set_retv MENU_CUSTOM_INPUT state in
      let state :=
        if rc =? -2 then set_retv (Z.lor (retv state) MENU_CUSTOM_ACTION) state
        else state in
      set_quit TRUE state
    else if rc =? 1 then set_update TRUE (set_refilter TRUE state)
    else if rc =? 2 then set_update TRUE state
    else state.

(** [rofi_view_update] draws the window. This definition keeps of it the
    two redraw flags, which are all it changes of the fields of this
    record. The drawing itself, which divides by [max_rows], is
    [rofi_view_draw] below, and [rofi_view_update_draw], which calls it,
    agrees with this definition whenever [max_rows] is not 0. *)
Definition rofi_view_update (state : RofiViewState) : RofiViewState :=
  if truthy (update state) then
    set_update FALSE
      (if max_elements state >? 0 then set_rchanged FALSE state else state)
  else state.

Definition invert (v : Z) : Z := if v =? 0 then 1 else 0.

Definition set_levenshtein_sort (v : Z) (c : Settings) : Settings :=
  {| case_sensitive := case_sensitive c; levenshtein_sort := v;
     auto_select := auto_select c; menu_columns := menu_columns c;
     fixed_num_lines := fixed_num_lines c |}.

Definition set_case_sensitive (v : Z) (c : Settings) : Settings :=
  {| case_sensitive := v; levenshtein_sort := levenshtein_sort c;
     auto_select := auto_select c; menu_columns := menu_columns c;
     fixed_num_lines := fixed_num_lines c |}.

(** The [XCB_KEY_PRESS] case of [rofi_view_mainloop_iter], from the point
    where the key symbol [key], its text [pad] and the modifier state are
    known, up to the [break] of the case. The paste and screenshot
    requests leave the view state as it is. *)
Definition key_press (config : Settings) (state : RofiViewState)
    (key : Z) (pad : string) (modstate : Z)
    : option (Settings * RofiViewState) :=
  if negb (key =? XKB_KEY_NoSymbol) then
    if truthy (abe_test_action SCREENSHOT modstate key) then
      Some (config, state)
    else if truthy (abe_test_action TOGGLE_SORT modstate key) then
      Some (set_levenshtein_sort (invert (levenshtein_sort config)) config,
            set_update TRUE (set_refilter TRUE state))
    else if truthy (abe_test_action MODE_PREVIOUS modstate key) then
      Some (config,
            set_quit TRUE (set_selected_line 0 (set_retv MENU_PREVIOUS state)))
    else if truthy (abe_test_action MODE_NEXT modstate key) then
      Some (config,
            set_quit TRUE (set_selected_line 0 (set_retv MENU_NEXT state)))
    else if truthy (abe_test_action TOGGLE_CASE_SENSITIVITY modstate key) then
      Some (set_case_sensitive (invert (case_sensitive config)) config,
            set_update TRUE (set_refilter TRUE (set_selected_line 0 state)))
    else if truthy (abe_test_action DELETE_ENTRY modstate key)
            && (selected state <? filtered_lines state) then
      Some (config,
            set_quit TRUE
              (set_retv MENU_ENTRY_DELETE
                 (set_selected_line (aget (line_map state) (selected state))
                    state)))
    else
      let state := custom_loop (seqZ 1 19) state key modstate in
      '(handled, state) ← rofi_view_keyboard_navigation state key modstate;
      if truthy handled then Some (config, state)
      else Some (config, entry_box_keypress state pad modstate key)
  else Some (config, entry_box_keypress state pad modstate key).

(** [rofi_view_mainloop_iter] on a key press: the dispatch, the filter
    pass when one was requested, the redraw. *)
Definition rofi_view_mainloop_iter (config : Settings) (sched : list nat)
    (state : RofiViewState) (key : Z) (pad : string) (modstate : Z)
    : option (Settings * RofiViewState) :=
  '(config, state) ← key_press config state key pad modstate;
  let state :=
    if truthy (refilter state) then rofi_view_refilter config sched state
    else state in
  Some (config, rofi_view_update state).
End Dispatch.

(** ** drun's matcher ([drun_token_match]) *)

Record DRunModeEntry := {
  path : string;
  exec : string;
  name : option string;
  generic_name : option string;
  terminal : Z
}.

Record DRunModePrivateData := {
  entry_list : list DRunModeEntry;
  cmd_list_length : Z;
  history_length : Z
}.

Section DRun.
Context `{Helper}.

(** The body of the loop over the tokens, for token [tok]: the three
    guarded tests, in the order of the source. *)
Definition drun_test_token (e : DRunModeEntry) (tok : string)
    (not_ascii case_sensitive : Z) : Z :=
  let ftokens : tokens_t := Some [tok] in
  let test := 0 in
  let test :=
    if negb (truthy test)
       && match name e with
          | Some n => truthy (token_match ftokens n not_ascii case_sensitive)
          | None => false
          end
    then 1 else test in
  let test :=
    if negb (truthy test)
       && match generic_name e with
          | Some gn => truthy (token_match ftokens gn not_ascii case_sensitive)
          | None => false
          end
    then 1 else test in
  let test :=
    if negb (truthy test)
       && truthy (token_match ftokens (exec e) not_ascii case_sensitive)
    then 1 else test in
  test.

(** The [for] loop: it stops at the first token that fails. *)
Fixpoint drun_token_loop (e : DRunModeEntry) (toks : list string)
    (not_ascii case_sensitive : Z) (match_ : Z) : Z :=
  match toks with
  | [] => match_
  | tok :: toks' =>
      if truthy match_ then
        let test := drun_test_token e tok not_ascii case_sensitive in
        let match_ := if test =? 0 then 0 else match_ in
        drun_token_loop e toks' not_ascii case_sensitive match_
      else match_
  end.

(** [None] when [index] is outside [entry_list], where the C code reads
    past the array. *)
Definition drun_token_match (rmpd : DRunModePrivateData) (tokens : tokens_t)
    (not_ascii case_sensitive : Z) (index : Z) : option Z :=
  if index <? 0 then None
  else
    e ← entry_list rmpd !! Z.to_nat index;
    let match_ := 1 in
    match tokens with
    | Some toks => Some (drun_token_loop e toks not_ascii case_sensitive match_)
    | None => Some match_
    end.

(** The text fields of an entry that are present. *)
Definition entry_fields (e : DRunModeEntry) : list string :=
  match name e with Some n => [n] | None => [] end
  ++ match generic_name e with Some gn => [gn] | None => [] end
  ++ [exec e].

(** One token is satisfied by one text field. *)
Definition field_satisfies (tok field : string) (not_ascii case_sensitive : Z)
    : Prop :=
  token_match (Some [tok]) field not_ascii case_sensitive <> 0.
End DRun.

(** ** Predicates used in the statements *)

(** Every field except [selected] and [update] is the same in both states. *)
Definition only_selection_changed (s s' : RofiViewState) : Prop :=
  sw s' = sw s /\ menu_lines s' = menu_lines s
  /\ max_elements s' = max_elements s /\ max_rows s' = max_rows s
  /\ columns s' = columns s /\ refilter s' = refilter s
  /\ rchanged s' = rchanged s /\ text s' = text s
  /\ distance s' = distance s /\ line_map s' = line_map s
  /\ num_lines s' = num_lines s /\ filtered_lines s' = filtered_lines s
  /\ prev_key s' = prev_key s /\ quit s' = quit s
  /\ selected_line s' = selected_line s /\ retv s' = retv s
  /\ lines_not_ascii s' = lines_not_ascii s.

(** Order by cached distance, ties broken by the position in the entry
    source. *)
Definition ranked_before (distances : list Z) (a b : Z) : Prop :=
  aget distances a < aget distances b
  \/ (aget distances a = aget distances b /\ a < b).

(** ** Notions for the correctness of the filter pass *)

(** The test a task holding [tokens] applies to entry [i]. *)
Definition matcher (config : Settings) (tokens : tokens_t)
    (state : RofiViewState) (i : Z) : bool :=
  truthy
    (mode_token_match (sw state) tokens (aget (lines_not_ascii state) i)
       (case_sensitive config) i).

(** The indices of [a, b) that pass [mf], in ascending order. *)
Definition matches (mf : Z -> bool) (a b : Z) : list Z :=
  List.filter mf (seqZ a (b - a)).

(** The end of the range that task [t] walks: the range is empty when
    [stop t] is below [start t]. *)
Definition chunk_end (t : thread_state) : Z := Z.max (start t) (stop t).

(** The filter pass writes [line_map] and [distance] and nothing else. *)
Definition same_except_arrays (s s' : RofiViewState) : Prop :=
  sw s' = sw s /\ menu_lines s' = menu_lines s
  /\ max_elements s' = max_elements s /\ max_rows s' = max_rows s
  /\ columns s' = columns s /\ update s' = update s
  /\ refilter s' = refilter s /\ rchanged s' = rchanged s
  /\ text s' = text s /\ num_lines s' = num_lines s
  /\ selected s' = selected s /\ filtered_lines s' = filtered_lines s
  /\ prev_key s' = prev_key s /\ quit s' = quit s
  /\ selected_line s' = selected_line s /\ retv s' = retv s
  /\ lines_not_ascii s' = lines_not_ascii s.

(** What holds of a running task [(t, i)]: its range lies in the array, the
    loop variable is inside the range, [count t] is the number of matches
    met so far, these matches are packed at the front of the slice of the
    task, and (when ranking is on and the cache has [n] cells) their
    distances are cached. *)
Definition task_ok (mf : Z -> bool) (sorting : bool) (df : Z -> Z) (n : Z)
    (lm dist : list Z) (ti : thread_state * Z) : Prop :=
  0 <= start ti.1 /\ stop ti.1 <= n
  /\ start ti.1 <= ti.2 <= chunk_end ti.1
  /\ count ti.1 = Z.of_nat (length (matches mf (start ti.1) ti.2))
  /\ (forall k, 0 <= k < count ti.1 ->
        aget lm (start ti.1 + k)
        = nth (Z.to_nat k) (matches mf (start ti.1) ti.2) 0)
  /\ (sorting = true -> Z.of_nat (length dist) = n ->
      forall x, start ti.1 <= x < ti.2 -> mf x = true -> aget dist x = df x).

(** The ranges of the tasks follow each other in the array. *)
Definition pool_ordered (p : list (thread_state * Z)) : Prop :=
  forall (k1 k2 : nat) ti1 ti2, (k1 < k2)%nat ->
    p !! k1 = Some ti1 -> p !! k2 = Some ti2 ->
    chunk_end ti1.1 <= start ti2.1.

Section FilterInvariant.
Context `{Helper}.

(** What holds of the pool and the shared arrays at every moment of a
    pass that started in state [s0] with token array [tok]. *)
Definition pool_inv (config : Settings) (tok : tokens_t)
    (s0 : RofiViewState) (p : list (thread_state * Z)) (s : RofiViewState)
    : Prop :=
  same_except_arrays s0 s
  /\ length (line_map s) = length (line_map s0)
  /\ length (distance s) = length (distance s0)
  /\ pool_ordered p
  /\ forall (k : nat) ti, p !! k = Some ti ->
       tokens ti.1 = tok
       /\ task_ok (matcher config tok s0) (truthy (levenshtein_sort config))
            (entry_distance s0) (num_lines s0) (line_map s) (distance s) ti.
End FilterInvariant.

(** What the proofs about the sort speak of: [compare_func] orders the
    elements of [l] as [key] does; the order by key; the test for one key. *)
Definition sort_agrees (compare_func : Z -> Z -> Z) (key : Z -> Z)
    (l : list Z) : Prop :=
  forall a b, In a l -> In b l ->
    (compare_func a b <=? 0) = (key a <=? key b).

Definition key_le (key : Z -> Z) : Z -> Z -> Prop :=
  fun a b => key a <= key b.

Definition key_is (key : Z -> Z) (k : Z) : Z -> bool :=
  fun x => key x =? k.

(** ** Collaborators for running the model

    Instances of the interfaces above, used to evaluate the model on
    concrete inputs. The matcher keeps a text when every token occurs in it;
    the distance is the difference of the two lengths, which is the edit
    distance whenever one text is a prefix of the other. *)

Fixpoint occurs_in (fuel : nat) (tok s : string) : bool :=
  String.prefix tok s
  || match fuel, s with
     | S fuel', String _ s' => occurs_in fuel' tok s'
     | _, _ => false
     end.

Fixpoint split_spaces (s : string) (cur : string) : list string :=
  match s with
  | EmptyString => if String.eqb cur "" then [] else [cur]
  | String c s' =>
      if Ascii.eqb c " "%char
      then (if String.eqb cur "" then [] else [cur]) ++ split_spaces s' ""
      else split_spaces s' (cur ++ String c "")%string
  end.

Definition example_helper : Helper := {|
  tokenize := fun input _ => Some (split_spaces input "");
  token_match := fun tokens input _ _ =>
    match tokens with
    | Some toks =>
        of_bool (forallb (fun tok => occurs_in (String.length input) tok input) toks)
    | None => 1
    end;
  levenshtein := fun needle haystack =>
    Z.abs (Z.of_nat (String.length needle) - Z.of_nat (String.length haystack))
|}.

(** A mode over a table of texts. *)
Definition table_mode (entries : list string) : Mode := {|
  _get_num_entries := Z.of_nat (length entries);
  _token_match := fun tokens not_ascii case_sensitive index =>
    token_match (Helper := example_helper) tokens
      (nth (Z.to_nat index) entries ""%string) not_ascii case_sensitive;
  _get_completion := fun index => nth (Z.to_nat index) entries ""%string;
  _is_not_ascii := fun _ => 0
|}.

(** A mode without texts, whose entry [i] matches when [i] is a multiple of
    7: large enough tables to have several chunks. *)
Definition sevens_mode (n : Z) : Mode := {|
  _get_num_entries := n;
  _token_match := fun _ _ _ index => of_bool (index mod 7 =? 0);
  _get_completion := fun _ => ""%string;
  _is_not_ascii := fun _ => 0
|}.

(** The values of [MenuReturn] in rofi's header. *)
Definition rofi_menu_return : MenuReturn := {|
  MENU_OK := 0x00010000;
  MENU_CANCEL := 0x00020000;
  MENU_NEXT := 0x00040000;
  MENU_CUSTOM_INPUT := 0x00080000;
  MENU_ENTRY_DELETE := 0x00100000;
  MENU_QUICK_SWITCH := 0x00200000;
  MENU_PREVIOUS := 0x00400000;
  MENU_CUSTOM_ACTION := 0x10000000;
  MENU_LOWER_MASK := 0x0000FFFF
|}.

Definition XKB_KEY_Tab : Z := 0xff09.
Definition XKB_KEY_Return : Z := 0xff0d.
Definition XKB_KEY_Escape : Z := 0xff1b.

(** Bindings: Escape cancels, Tab is the row-tab key, nothing else is
    bound. *)
Definition example_bindings : KeyBindings := {|
  abe_test_action := fun action modstate key =>
    match action with
    | CANCEL => of_bool (key =? XKB_KEY_Escape)
    | ROW_TAB => of_bool ((key =? XKB_KEY_Tab) && (modstate =? 0))
    | _ => 0
    end
|}.

(** An entry box in which Return accepts (with the auxiliary modifier when
    bit 0 of the modifier state is set) and any other text is appended. *)
Definition example_textbox : TextboxOps := {|
  textbox_keypress := fun tb pad modstate key =>
    if key =? XKB_KEY_Return then
      (if Z.testbit modstate 0 then -2 else -1, tb)
    else if String.eqb pad "" then (0, tb)
    else (1, {| textbox.text := (textbox.text tb ++ pad)%string;
                textbox.cursor := textbox.cursor tb + 1 |});
  textbox_text := fun tb s =>
    {| textbox.text := s; textbox.cursor := textbox.cursor tb |};
  textbox_cursor_end := fun tb =>
    {| textbox.text := textbox.text tb;
       textbox.cursor := Z.of_nat (String.length (textbox.text tb)) |}
|}.

Definition example_config : Settings := {|
  case_sensitive := 0; levenshtein_sort := 0; auto_select := 0;
  menu_columns := 1; fixed_num_lines := 0
|}.

(** A view of mode [m] with query [query], as [rofi_view_create] leaves it
    before its first filter pass, in a window of fifteen lines. *)
Definition example_state (m : Mode) (query : string) : RofiViewState := {|
  sw := m; menu_lines := 15; max_elements := 15; max_rows := 15; columns := 1;
  update := TRUE; refilter := TRUE; rchanged := TRUE;
  text := {| textbox.text := query; textbox.cursor := 0 |};
  distance := replicate (Z.to_nat (_get_num_entries m)) 0;
  line_map := replicate (Z.to_nat (_get_num_entries m)) 0;
  num_lines := _get_num_entries m; selected := 0; filtered_lines := 0;
  prev_key := 0; quit := FALSE; selected_line := UINT32_MAX;
  retv := MENU_CANCEL (MenuReturn := rofi_menu_return);
  lines_not_ascii := replicate (Z.to_nat (_get_num_entries m)) 0
|}.

(** A view with six candidates laid out in columns of three rows: the
    selection, at index 3, is in the second and last column. *)
Definition six_in_two_columns : RofiViewState :=
  set_max_rows 3
    (set_selected 3
       (set_filtered_lines 6 (example_state (sevens_mode 6) "")%string)).

(** A view over a hundred entries of which ten are candidates, in a window
    of fifteen lines and one column. *)
Definition hundred_entries : RofiViewState :=
  set_filtered_lines 10 (example_state (sevens_mode 100) "q")%string.

(** The view after the query "zz" has been typed over three entries none of
    which contains it: no candidate is left and the last key recorded is
    [z]. *)
Definition XKB_KEY_z : Z := 0x7a.

Definition no_match_state : RofiViewState :=
  set_prev_key XKB_KEY_z
    (rofi_view_update
       (rofi_view_refilter (H := example_helper) (H0 := rofi_menu_return)
          example_config []
          (example_state
             (table_mode ["firefox"; "file-manager"; "finder"]%string)
             "zz"%string))).

(** ** Scrolling ([rofi_scroll_per_page], [rofi_scroll_continious])

    The paged scroll keeps two more fields of [RofiViewState]: they are
    gathered in a record of their own, next to the view state. *)
Record Paging := {
  last_offset : Z;
  cur_page : Z
}.

(** [rofi_scroll_per_page]: the offset of the visible window, the view
    state and the paging fields. [offset] and [page] are [int]s in the
    source; the handle of the scrollbar is not part of the model. *)
Definition rofi_scroll_per_page (state : RofiViewState) (paging : Paging)
    : Z * RofiViewState * Paging :=
  if (u32 (selected state - last_offset paging) <? max_elements state)
     && (selected state >=? last_offset paging) then
    let offset := s32 (last_offset paging) in
    (u32 offset, state, paging)
  else
    let page :=
      if max_elements state >? 0
      then s32 (selected state / max_elements state) else 0 in
    let offset := s32 (u32 (u32 page * max_elements state)) in
    let paging :=
      {| last_offset := u32 offset; cur_page := cur_page paging |} in
    if negb (page =? cur_page paging) then
      (u32 offset, set_rchanged TRUE state,
       {| last_offset := last_offset paging; cur_page := page |})
    else (u32 offset, state, paging).

(** [rofi_scroll_continious]: the offset and the view state. *)
Definition rofi_scroll_continious (state : RofiViewState)
    : Z * RofiViewState :=
  let middle :=
    u32 (menu_lines state - of_bool (Z.land (menu_lines state) 1 =? 0)) / 2 in
  let offset := 0 in
  let offset :=
    if selected state >? middle then
      if selected state
         <? u32 (filtered_lines state - u32 (menu_lines state - middle))
      then u32 (selected state - middle)
      else if filtered_lines state >? menu_lines state
           then u32 (filtered_lines state - menu_lines state)
           else offset
    else offset in
  (offset, set_rchanged TRUE state).

(** ** Selecting by source index ([rofi_view_set_selected_line]) *)

(** The [for] loop, entered with loop variable [i]; its [break] is the
    branch that does not recur. *)
Fixpoint find_selected_line (fuel : nat) (i : Z) (state : RofiViewState)
    : RofiViewState :=
  match fuel with
  | O => state
  | S fuel' =>
      if (selected_line state <? UINT32_MAX) && negb (truthy (selected state))
         && (i <? filtered_lines state) then
        if aget (line_map state) i =? selected_line state
        then set_selected i state
        else find_selected_line fuel' (u32 (i + 1)) state
      else state
  end.

Definition rofi_view_set_selected_line (state : RofiViewState)
    (selected_line : Z) : RofiViewState :=
  let state := set_selected_line selected_line state in
  let state := set_selected 0 state in
  let state :=
    find_selected_line (Z.to_nat (filtered_lines state)) 0 state in
  set_update TRUE state.

(** ** Pasting ([rofi_view_paste])

    A C string is a [string] without NUL; reading it at its length gives
    the terminating NUL, and writing NUL at [dl] cuts it there. *)
Definition c_char_at (text : string) (i : Z) : ascii :=
  match String.get (Z.to_nat i) text with
  | Some c => c
  | None => Ascii.zero
  end.

(** The loop announced as "Strip new line". *)
Fixpoint paste_strip_loop (fuel : nat) (text : string) (dl : Z) : string * Z :=
  match fuel with
  | O => (text, dl)
  | S fuel' =>
      if (dl >? 0) && Ascii.eqb (c_char_at text dl) "010"%char then
        paste_strip_loop fuel' (String.substring 0 (Z.to_nat dl) text)
          (u32 (dl - 1))
      else (text, dl)
  end.

(** The property of the selection notify event: none, the UTF-8 string
    atom, or another atom. *)
Inductive selection_property :=
  | XCB_ATOM_NONE | UTF8_STRING | OTHER_ATOM.

Class TextboxInsert := {
  textbox_insert : textbox.t -> Z -> string -> Z -> textbox.t;
  textbox_cursor : textbox.t -> Z -> textbox.t
}.

(** [window_text] is what [window_get_text_prop] returns, [None] for
    NULL. *)
Definition rofi_view_paste `{TextboxInsert} (state : RofiViewState)
    (property : selection_property) (window_text : option string)
    : RofiViewState :=
  let entry := text state in
  match property with
  | XCB_ATOM_NONE => state
  | UTF8_STRING =>
      match window_text with
      | Some text =>
          if negb (Ascii.eqb (c_char_at text 0) Ascii.zero) then
            let dl := u32 (Z.of_nat (String.length text)) in
            let '(text, dl) :=
              paste_strip_loop (String.length text) text dl in
            let tb := textbox_insert entry (textbox.cursor entry) text dl in
            let tb := textbox_cursor tb (s32 (textbox.cursor tb + dl)) in
            set_refilter TRUE (set_update TRUE (set_text tb state))
          else state
      | None => state
      end
  | OTHER_ATOM => state
  end.

(** ** Placing the window ([calculate_window_position])

    The fields of the view state and of [config] that the function uses.
    The work area and the position are [int]s; the size of the window is
    unsigned (the source prints [state->h] with [%u]), so a difference
    with it is computed on [unsigned int]. *)
Inductive WindowLocation :=
  | WL_CENTER | WL_NORTH_WEST | WL_NORTH | WL_NORTH_EAST | WL_EAST
  | WL_EAST_SOUTH | WL_SOUTH | WL_SOUTH_WEST | WL_WEST.

Module workarea.
Record t := { x : Z; y : Z; w : Z; h : Z }.
End workarea.

Module window.
Record t := { mon : workarea.t; x : Z; y : Z; w : Z; h : Z }.
End window.

Record PositionSettings := {
  fullscreen : Z;
  location : WindowLocation;
  x_offset : Z;
  y_offset : Z
}.

Definition window_set_x (v : Z) (s : window.t) : window.t :=
  {| window.mon := window.mon s; window.x := v; window.y := window.y s;
     window.w := window.w s; window.h := window.h s |}.

Definition window_set_y (v : Z) (s : window.t) : window.t :=
  {| window.mon := window.mon s; window.x := window.x s; window.y := v;
     window.w := window.w s; window.h := window.h s |}.

(** The four assignments the cases of the [switch] are made of. *)
Definition to_west (s : window.t) : window.t :=
  window_set_x (workarea.x (window.mon s)) s.

Definition to_north (s : window.t) : window.t :=
  window_set_y (workarea.y (window.mon s)) s.

Definition to_east (s : window.t) : window.t :=
  window_set_x
    (s32 (u32 (s32 (workarea.x (window.mon s) + workarea.w (window.mon s))
               - window.w s))) s.

Definition to_south (s : window.t) : window.t :=
  window_set_y
    (s32 (u32 (s32 (workarea.y (window.mon s) + workarea.h (window.mon s))
               - window.h s))) s.

Definition calculate_window_position (config : PositionSettings)
    (state : window.t) : window.t :=
  if truthy (fullscreen config) then
    window_set_y (workarea.y (window.mon state))
      (window_set_x (workarea.x (window.mon state)) state)
  else
    let state :=
      window_set_y
        (s32 (u32 (workarea.y (window.mon state)
                   + u32 (workarea.h (window.mon state) - window.h state) / 2)))
        state in
    let state :=
      window_set_x
        (s32 (u32 (workarea.x (window.mon state)
                   + u32 (workarea.w (window.mon state) - window.w state) / 2)))
        state in
    let state :=
      match location config with
      | WL_NORTH_WEST => to_north (to_west state)
      | WL_NORTH => to_north state
      | WL_NORTH_EAST => to_east (to_north state)
      | WL_EAST => to_east state
      | WL_EAST_SOUTH => to_south (to_east state)
      | WL_SOUTH => to_south state
      | WL_SOUTH_WEST => to_west (to_south state)
      | WL_WEST => to_west state
      | WL_CENTER => state
      end in
    let state := window_set_x (s32 (window.x state + x_offset config)) state in
    window_set_y (s32 (window.y state + y_offset config)) state.

(** ** Drawing the rows ([rofi_view_draw])

    What the function does to box [i] of the window: the row it shows,
    its font, and, when the boxes are laid out again, the column and the
    row of the grid it is moved to (the factors of [ex] and [ey]). The
    flags of [mode_get_display_value], the pixel sizes and the scrollbar
    are not part of the model. *)
Module drawn.
Record t := {
  box : Z;
  line : Z;
  highlight : bool;
  alt : bool;
  cell : option (Z * Z)
}.
End drawn.

(** The two [for] loops over the boxes, entered with loop variable [i];
    [moved] tells the first, which also moves the boxes, from the second.
    [max_rows] is not 0 here. *)
Fixpoint draw_boxes (fuel : nat) (moved : bool) (i : Z)
    (state : RofiViewState) (offset max_elements : Z) : list drawn.t :=
  match fuel with
  | O => []
  | S fuel' =>
      if (i <? max_elements) && (u32 (i + offset) <? filtered_lines state)
      then
        {| drawn.box := i;
           drawn.line := aget (line_map state) (u32 (i + offset));
           drawn.highlight := u32 (i + offset) =? selected state;
           drawn.alt := negb (Z.land (i mod max_rows state) 1 =? 0);
           drawn.cell :=
             if moved then Some (i / max_rows state, i mod max_rows state)
             else None |}
        :: draw_boxes fuel' moved (u32 (i + 1)) state offset max_elements
      else []
  end.

(** [rofi_view_draw]: the boxes drawn, the view state and the paging
    fields; [None] when [max_rows] is 0, where the count of the columns
    divides by it. [scroll_method] is [config.scroll_method]. *)
Definition rofi_view_draw (scroll_method : Z) (state : RofiViewState)
    (paging : Paging) : option (list drawn.t * RofiViewState * Paging) :=
  let '(offset, state, paging) :=
    if scroll_method =? 1 then
      let '(offset, state) := rofi_scroll_continious state in
      (offset, state, paging)
    else rofi_scroll_per_page state paging in
  let a_lines :=
    MIN (u32 (filtered_lines state - offset)) (max_elements state) in
  if max_rows state =? 0 then None
  else
    let columns :=
      MIN (u32 (a_lines
                + u32 (max_rows state - a_lines mod max_rows state)
                  mod max_rows state)
           / max_rows state) (columns state) in
    let max_elements := MIN a_lines (u32 (max_rows state * columns)) in
    if truthy (rchanged state) then
      Some (draw_boxes (Z.to_nat max_elements) true 0 state offset max_elements,
            set_rchanged FALSE state, paging)
    else
      Some (draw_boxes (Z.to_nat max_elements) false 0 state offset
              max_elements,
            state, paging).

(** ** The redraw with its drawing ([rofi_view_update],
    [rofi_view_mainloop_iter])

    [rofi_view_update] with the call of [rofi_view_draw]: nothing when no
    redraw is requested; otherwise the rows are drawn when the window has
    at least one box, and [update] is cleared. The result is the boxes
    drawn, the view state and the paging fields, [None] when the draw
    traps. The painting of the background, of the border, of the entry box
    and of the separators is not part of the model. *)
Definition rofi_view_update_draw (scroll_method : Z) (state : RofiViewState)
    (paging : Paging) : option (list drawn.t * RofiViewState * Paging) :=
  if negb (truthy (update state)) then Some ([], state, paging)
  else if max_elements state >? 0 then
    '(boxes, state, paging) ← rofi_view_draw scroll_method state paging;
    Some (boxes, set_update FALSE state, paging)
  else Some ([], set_update FALSE state, paging).

Section Redraw.
Context `{Helper} `{MenuReturn} `{KeyBindings} `{TextboxOps}.

(** [rofi_view_mainloop_iter] on a key press, with that redraw. *)
Definition rofi_view_mainloop_iter_draw (config : Settings)
    (sched : list nat) (scroll_method : Z) (state : RofiViewState)
    (paging : Paging) (key : Z) (pad : string) (modstate : Z)
    : option (Settings * RofiViewState * Paging) :=
  '(config, state) ← key_press config state key pad modstate;
  let state :=
    if truthy (refilter state) then rofi_view_refilter config sched state
    else state in
  '(_, state, paging) ← rofi_view_update_draw scroll_method state paging;
  Some (config, state, paging).
End Redraw.

(** ** The pointer ([rofi_view_mouse_navigation])

    Two more fields of [RofiViewState], and what the widgets answer for
    the position of the event: [scrollbar_hit] is the result of
    [scrollbar_clicked] when there is a scrollbar and the event lies on
    it, [modi_hit i] and [box_hit i] are [widget_intersect] on the [i]-th
    button of the side bar and on the [i]-th box. *)
Record Pointer := {
  last_button_press : Z;
  skip_absorb : Z
}.

(** The loop over the buttons of the side bar: the first one hit. *)
Fixpoint find_modi (fuel : nat) (i : Z) (sidebar_mode num_modi : Z)
    (modi_hit : Z -> bool) : option Z :=
  match fuel with
  | O => None
  | S fuel' =>
      if (sidebar_mode =? TRUE) && (i <? num_modi) then
        if modi_hit i then Some i
        else find_modi fuel' (u32 (i + 1)) sidebar_mode num_modi modi_hit
      else None
  end.

(** The loop over the boxes: the first one hit. *)
Fixpoint find_box (fuel : nat) (i : Z) (max_elements : Z)
    (box_hit : Z -> bool) : option Z :=
  match fuel with
  | O => None
  | S fuel' =>
      if i <? max_elements then
        if box_hit i then Some i
        else find_box fuel' (u32 (i + 1)) max_elements box_hit
      else None
  end.

Section Mouse.
Context `{MenuReturn}.

(** [rofi_view_mouse_navigation], for a button press with button [detail]
    at time [time]; [None] when the move to the right traps. *)
Definition rofi_view_mouse_navigation (sidebar_mode num_modi : Z)
    (state : RofiViewState) (paging : Paging) (pointer : Pointer)
    (detail time : Z) (scrollbar_hit : option Z)
    (modi_hit box_hit : Z -> bool) : option (RofiViewState * Pointer) :=
  if detail >? 3 then
    if detail =? 4 then Some (rofi_view_nav_up state, pointer)
    else if detail =? 5 then Some (rofi_view_nav_down state, pointer)
    else if detail =? 6 then Some (rofi_view_nav_left state, pointer)
    else if detail =? 7 then
      state' ← rofi_view_nav_right state; Some (state', pointer)
    else Some (state, pointer)
  else
    match scrollbar_hit with
    | Some clicked =>
        Some (set_update TRUE (set_selected clicked state), pointer)
    | None =>
        match find_modi (Z.to_nat num_modi) 0 sidebar_mode num_modi modi_hit with
        | Some i =>
            Some (set_quit TRUE
                    (set_retv
                       (Z.lor MENU_QUICK_SWITCH (Z.land i MENU_LOWER_MASK))
                       (set_selected_line 0 state)),
                  {| last_button_press := last_button_press pointer;
                     skip_absorb := TRUE |})
        | None =>
            match find_box (Z.to_nat (max_elements state)) 0
                    (max_elements state) box_hit with
            | Some i =>
                if u32 (last_offset paging + i) >=? filtered_lines state
                then Some (state, pointer)
                else
                  let state :=
                    set_selected (u32 (last_offset paging + i)) state in
                  let state := set_update TRUE state in
                  if u32 (time - last_button_press pointer) <? 200 then
                    let state := set_retv MENU_OK state in
                    let state :=
                      set_selected_line
                        (aget (line_map state) (selected state)) state in
                    let state := set_quit TRUE state in
                    Some (state,
                          {| last_button_press := time; skip_absorb := TRUE |})
                  else
                    Some (state,
                          {| last_button_press := time;
                             skip_absorb := skip_absorb pointer |})
            | None => Some (state, pointer)
            end
        end
    end.
End Mouse.

(** ** Marking the entries that are not ASCII ([check_is_ascii],
    [rofi_view_create])

    [rofi_view_create] fills [lines_not_ascii] with the same pool of chunk
    tasks as the filter pass, in chunks of 5000. The tasks are modelled
    as there: a running task is its [thread_state] and its loop variable,
    a schedule names the task that performs its next loop round. Of a
    [thread_state] the task reads [start] and [stop] only. *)
Definition set_lines_not_ascii (v : list Z) (s : RofiViewState)
    : RofiViewState :=
  {| sw := sw s; menu_lines := menu_lines s; max_elements := max_elements s;
     max_rows := max_rows s; columns := columns s; update := update s;
     refilter := refilter s; rchanged := rchanged s; text := text s;
     distance := distance s; line_map := line_map s; num_lines := num_lines s;
     selected := selected s; filtered_lines := filtered_lines s;
     prev_key := prev_key s; quit := quit s; selected_line := selected_line s;
     retv := retv s; lines_not_ascii := v |}.

Definition set_num_lines (v : Z) (s : RofiViewState) : RofiViewState :=
  {| sw := sw s; menu_lines := menu_lines s; max_elements := max_elements s;
     max_rows := max_rows s; columns := columns s; update := update s;
     refilter := refilter s; rchanged := rchanged s; text := text s;
     distance := distance s; line_map := line_map s; num_lines := v;
     selected := selected s; filtered_lines := filtered_lines s;
     prev_key := prev_key s; quit := quit s; selected_line := selected_line s;
     retv := retv s; lines_not_ascii := lines_not_ascii s |}.

Definition mode_get_num_entries (sw : Mode) : Z := _get_num_entries sw.

Definition mode_is_not_ascii (sw : Mode) (index : Z) : Z :=
  _is_not_ascii sw index.

(** One round of the [for] loop of [check_is_ascii], for index [i]. *)
Definition check_is_ascii_body (i : Z) (state : RofiViewState)
    : RofiViewState :=
  set_lines_not_ascii
    (aset (lines_not_ascii state) i (mode_is_not_ascii (sw state) i)) state.

Fixpoint check_is_ascii_loop (fuel : nat) (t : thread_state) (i : Z)
    (state : RofiViewState) : RofiViewState :=
  match fuel with
  | O => state
  | S fuel' =>
      if i <? stop t then
        check_is_ascii_loop fuel' t (u32 (i + 1)) (check_is_ascii_body i state)
      else state
  end.

Definition check_is_ascii_from (t : thread_state) (i : Z)
    (state : RofiViewState) : RofiViewState :=
  check_is_ascii_loop (Z.to_nat (stop t - i)) t i state.

Definition check_is_ascii (t : thread_state) (state : RofiViewState)
    : RofiViewState :=
  check_is_ascii_from t (start t) state.

Definition ascii_step (k : nat) (p : list (thread_state * Z))
    (state : RofiViewState) : list (thread_state * Z) * RofiViewState :=
  match p !! k with
  | Some (t, i) =>
      if i <? stop t
      then (<[k := (t, u32 (i + 1))]> p, check_is_ascii_body i state)
      else (p, state)
  | None => (p, state)
  end.

Fixpoint ascii_schedule (sched : list nat) (p : list (thread_state * Z))
    (state : RofiViewState) : list (thread_state * Z) * RofiViewState :=
  match sched with
  | [] => (p, state)
  | k :: sched' =>
      let '(p', state') := ascii_step k p state in
      ascii_schedule sched' p' state'
  end.

(** The barrier: tasks the schedule left unfinished run to their end. *)
Fixpoint ascii_join (p : list (thread_state * Z)) (state : RofiViewState)
    : RofiViewState :=
  match p with
  | [] => state
  | (t, i) :: p' => ascii_join p' (check_is_ascii_from t i state)
  end.

(** The [thread_state]s as the loop of [rofi_view_create] sets them up;
    [tokens] and [count], which it leaves unset, are never read. *)
Definition ascii_states (num_lines nt steps : Z) : list thread_state :=
  (fun i => {| tokens := None;
               start := u32 (i * steps);
               stop := MIN (u32 ((i + 1) * steps)) num_lines;
               count := 0 |}) <$> seqZ 0 nt.

Definition ascii_chunks (sched : list nat) (state : RofiViewState)
    (nt steps : Z) : RofiViewState :=
  let states := ascii_states (num_lines state) nt steps in
  let '(p, state) :=
    ascii_schedule sched ((fun t => (t, start t)) <$> states) state in
  ascii_join p state.

(** The part of [rofi_view_create] from the request for the number of
    lines to the end of the pass. *)
Definition rofi_view_create_lines_not_ascii (sched : list nat)
    (state : RofiViewState) : RofiViewState :=
  let state := set_num_lines (mode_get_num_entries (sw state)) state in
  let state :=
    set_lines_not_ascii (replicate (Z.to_nat (num_lines state)) 0) state in
  if num_lines state >? 0 then
    let nt := MAX 1 (num_lines state / 5000) in
    let steps := u32 (num_lines state + nt) / nt in
    ascii_chunks sched state nt steps
  else state.

(** Cell [c] of [lines_not_ascii] holds what the mode says of entry [c]. *)
Definition ascii_marked (s : RofiViewState) (c : Z) : Prop :=
  aget (lines_not_ascii s) c = mode_is_not_ascii (sw s) c.

(** The state the tasks work on: the mode is fixed, the array has [n]
    cells and nothing but the array differs from the state [s0] the pass
    started in. *)
Definition ascii_state_ok (n : Z) (s0 s : RofiViewState) : Prop :=
  sw s = sw s0 /\ Z.of_nat (length (lines_not_ascii s)) = n
  /\ same_except_arrays (set_lines_not_ascii (lines_not_ascii s0) s) s0
  /\ line_map s = line_map s0 /\ distance s = distance s0.

(** What holds of a running task of the pass: its range lies in the
    array and the cells it has passed are marked. *)
Definition ascii_task_ok (n : Z) (s : RofiViewState) (ti : thread_state * Z)
    : Prop :=
  0 <= start ti.1 <= ti.2 /\ stop ti.1 <= n
  /\ forall c, start ti.1 <= c < ti.2 -> c < stop ti.1 -> ascii_marked s c.

(** ** drun: launching and deleting ([exec_cmd_entry], [drun_mode_result]) *)

(** The loop of [exec_cmd_entry] announced as "strip % arguments", on the
    copy of [e->exec]. The [for] loop is the recursion with [in_code]
    clear, the inner [while] the recursion with [in_code] set; where the
    [while] stops on a space, the increment of the [for] steps over it. *)
Fixpoint strip_arguments (in_code : bool) (str : string) : string :=
  match str with
  | EmptyString => EmptyString
  | String c str' =>
      if in_code then
        if Ascii.eqb c " "%char
        then String c (strip_arguments false str')
        else String " "%char (strip_arguments true str')
      else
        if Ascii.eqb c "%"%char
        then String " "%char (strip_arguments true str')
        else String c (strip_arguments false str')
  end.

(** [memmove] on an array of entries. *)
Definition memmove_entries (l : list DRunModeEntry) (dst src n : Z)
    : list DRunModeEntry :=
  let moved := take (Z.to_nat n) (drop (Z.to_nat src) l) in
  take (Z.to_nat dst) l ++ moved ++ drop (Z.to_nat dst + length moved) l.

(** The values of [ModeMode]; its header is not part of the sources at
    hand. *)
Class ModeMode := {
  MODE_EXIT : Z;
  NEXT_DIALOG : Z;
  RELOAD_DIALOG : Z;
  PREVIOUS_DIALOG : Z
}.

(** What [drun_mode_result] asks of the outside: to launch an entry, to
    run a command line, to drop an entry from the history file. *)
Inductive DRunCall :=
  | exec_cmd_entry (e : DRunModeEntry)
  | exec_cmd (cmd : string) (run_in_term : Z)
  | delete_entry_history (e : DRunModeEntry).

Section DRunResult.
Context `{MenuReturn} `{ModeMode}.

(** [drun_mode_result]: the next mode, the private data and the calls
    made, in order; [None] when [entry_list] is read outside its cells.
    [input] is [*input], [None] for NULL. *)
Definition drun_mode_result (rmpd : DRunModePrivateData) (mretv : Z)
    (input : option string) (selected_line : Z)
    : option (Z * DRunModePrivateData * list DRunCall) :=
  let retv := MODE_EXIT in
  let run_in_term :=
    of_bool (Z.land mretv MENU_CUSTOM_ACTION =? MENU_CUSTOM_ACTION) in
  if truthy (Z.land mretv MENU_NEXT) then
    Some (NEXT_DIALOG, rmpd, [])
  else if truthy (Z.land mretv MENU_PREVIOUS) then
    Some (PREVIOUS_DIALOG, rmpd, [])
  else if truthy (Z.land mretv MENU_QUICK_SWITCH) then
    Some (Z.land mretv MENU_LOWER_MASK, rmpd, [])
  else if truthy (Z.land mretv MENU_OK) then
    match entry_list rmpd !! Z.to_nat selected_line with
    | Some e => Some (retv, rmpd, [exec_cmd_entry e])
    | None => None
    end
  else if truthy (Z.land mretv MENU_CUSTOM_INPUT)
          && match input with
             | Some cmd => negb (Ascii.eqb (c_char_at cmd 0) Ascii.zero)
             | None => false
             end then
    match input with
    | Some cmd => Some (retv, rmpd, [exec_cmd cmd run_in_term])
    | None => Some (retv, rmpd, [])
    end
  else if truthy (Z.land mretv MENU_ENTRY_DELETE)
          && (selected_line <? cmd_list_length rmpd) then
    if selected_line <? history_length rmpd then
      match entry_list rmpd !! Z.to_nat selected_line with
      | Some e =>
          let entries :=
            memmove_entries (entry_list rmpd) selected_line
              (selected_line + 1)
              (u32 (cmd_list_length rmpd - selected_line - 1)) in
          Some (RELOAD_DIALOG,
                {| entry_list := entries;
                   cmd_list_length := u32 (cmd_list_length rmpd - 1);
                   history_length := history_length rmpd |},
                [delete_entry_history e])
      | None => None
      end
    else Some (RELOAD_DIALOG, rmpd, [])
  else Some (retv, rmpd, []).

End DRunResult.

(** The private data as the mode keeps it: [cmd_list_length] cells, the
    first [history_length] of them from the history. *)
Definition drun_data_ok (rmpd : DRunModePrivateData) : Prop :=
  cmd_list_length rmpd = Z.of_nat (length (entry_list rmpd))
  /\ 0 <= history_length rmpd <= cmd_list_length rmpd
  /\ cmd_list_length rmpd < 2 ^ 32.

(** The actions [rofi_view_keyboard_navigation] tests, in its order. *)
Definition navigation_actions : list KeyBindingAction :=
  [CANCEL; ROW_UP; ROW_TAB; ROW_DOWN; ROW_LEFT; ROW_RIGHT; PAGE_PREV;
   PAGE_NEXT; ROW_FIRST; ROW_LAST; ROW_SELECT].

(** The actions the key-press case tests before the custom ones. *)
Definition early_actions : list KeyBindingAction :=
  [SCREENSHOT; TOGGLE_SORT; MODE_PREVIOUS; MODE_NEXT;
   TOGGLE_CASE_SENSITIVITY; DELETE_ENTRY].

(** Whether character [c] occurs in [s]. *)
Fixpoint occurs (c : ascii) (s : string) : bool :=
  match s with
  | EmptyString => false
  | String c' s' => Ascii.eqb c' c || occurs c s'
  end.

(** [n] spaces. *)
Fixpoint spaces (n : nat) : string :=
  match n with
  | O => EmptyString
  | S n' => String " "%char (spaces n')
  end.

(** What box [i] shows when the window starts at row [offset] of the
    filtered list, for the statements about [rofi_view_draw]. *)
Definition drawn_box (moved : bool) (state : RofiViewState) (offset i : Z)
    : drawn.t :=
  {| drawn.box := i;
     drawn.line := aget (line_map state) (offset + i);
     drawn.highlight := offset + i =? selected state;
     drawn.alt := Z.odd (i mod max_rows state);
     drawn.cell :=
       if moved then Some (i / max_rows state, i mod max_rows state)
       else None |}.

(** Inputs on which the statements below are exercised. *)

(** A thousand entries, cut into two chunks, with a non-empty query. *)
Definition thousand_entries : RofiViewState :=
  example_state (sevens_mode 1000) "q"%string.

(** Four entries at distances 2, 2, 1 and 3 from the query "fi", and a
    fifth that does not match it. *)
Definition ranked_entries : RofiViewState :=
  example_state
    (table_mode ["fire"; "file"; "fin"; "first"; "abc"]%string) "fi"%string.

Definition ranking_config : Settings :=
  set_levenshtein_sort 1 example_config.

(** Three entries, all matching "fi", with a selection left out of range. *)
Definition three_entries : RofiViewState :=
  set_selected 7
    (example_state
       (table_mode ["firefox"; "file-manager"; "finder"]%string) "fi"%string).

(** The same entries with the query "fire", which one of them matches. *)
Definition one_match : RofiViewState :=
  example_state
    (table_mode ["firefox"; "file-manager"; "finder"]%string) "fire"%string.

Definition auto_select_config : Settings := {|
  case_sensitive := 0; levenshtein_sort := 0; auto_select := TRUE;
  menu_columns := 1; fixed_num_lines := 0
|}.

(** The view on "fire" after its filter pass and redraw. *)
Definition one_candidate : RofiViewState :=
  rofi_view_update
    (rofi_view_refilter (H := example_helper) (H0 := rofi_menu_return)
       example_config [] one_match).

Definition firefox_entry : DRunModeEntry := {|
  path := "/usr/share/applications/firefox.desktop";
  exec := "firefox %u";
  name := Some "Firefox"%string;
  generic_name := Some "Web Browser"%string;
  terminal := 0
|}.

Definition one_desktop_file : DRunModePrivateData := {|
  entry_list := [firefox_entry]; cmd_list_length := 1; history_length := 0
|}.

(** The three entries after the filter pass on "fi": all are candidates. *)
Definition three_candidates : RofiViewState :=
  rofi_view_refilter (H := example_helper) (H0 := rofi_menu_return)
    example_config [] three_entries.

(** The three entries before anything is typed. *)
Definition empty_query : RofiViewState :=
  example_state
    (table_mode ["firefox"; "file-manager"; "finder"]%string) ""%string.

(** Six candidates on a grid of three rows and two columns, the selection
    on the fourth, and the paging fields as [rofi_view_create] sets them. *)
Definition six_on_a_grid : RofiViewState :=
  set_max_elements 6 (set_columns 2 six_in_two_columns).

Definition no_page_yet : Paging := {| last_offset := 0; cur_page := -1 |}.

Definition no_press_yet : Pointer :=
  {| last_button_press := 0; skip_absorb := FALSE |}.

(** Bindings in which the digit [n] is the custom action [n]. *)
Definition XKB_KEY_0 : Z := 0x30.

Definition digit_bindings : KeyBindings := {|
  abe_test_action := fun action modstate key =>
    match action with
    | CUSTOM n => of_bool (key =? XKB_KEY_0 + n)
    | _ => 0
    end
|}.

(** An entry box that inserts at the given position. *)
Definition example_insert : TextboxInsert := {|
  textbox_insert := fun tb pos str slen =>
    {| textbox.text :=
         (String.substring 0 (Z.to_nat pos) (textbox.text tb)
          +:+ String.substring 0 (Z.to_nat slen) str
          +:+ String.substring (Z.to_nat pos)
                (String.length (textbox.text tb) - Z.to_nat pos)
                (textbox.text tb))%string;
       textbox.cursor := textbox.cursor tb |};
  textbox_cursor := fun tb pos =>
    {| textbox.text := textbox.text tb; textbox.cursor := pos |}
|}.

(** A pasted line that ends in a new line. *)
Definition pasted_line : string := String "l" (String "s" (String "010" "")).

Definition rofi_mode_mode : ModeMode := {|
  MODE_EXIT := 1000; NEXT_DIALOG := 1001; RELOAD_DIALOG := 1002;
  PREVIOUS_DIALOG := 1003
|}.

Definition gimp_entry : DRunModeEntry := {|
  path := "/usr/share/applications/gimp.desktop";
  exec := "gimp-2.8 %U";
  name := Some "GIMP"%string;
  generic_name := None;
  terminal := 0
|}.

(** Two entries, the first of them from the history. *)
Definition two_desktop_files : DRunModePrivateData := {|
  entry_list := [firefox_entry; gimp_entry];
  cmd_list_length := 2; history_length := 1
|}.

(** A window of 800 by 600 on a monitor of 1920 by 1080, to be placed in
    the upper right corner. *)
Definition small_window : window.t := {|
  window.mon :=
    {| workarea.x := 0; workarea.y := 0; workarea.w := 1920;
       workarea.h := 1080 |};
  window.x := 0; window.y := 0; window.w := 800; window.h := 600
|}.

Definition north_east : PositionSettings := {|
  fullscreen := 0; location := WL_NORTH_EAST; x_offset := 0; y_offset := 0
|}.

(** * Properties *)

(** ** Machine arithmetic *)

Lemma u32_range z : 0 <= u32 z < 2 ^ 32.
Proof. unfold u32. apply Z.mod_pos_bound. lia. Qed.

Lemma u32_small z : 0 <= z < 2 ^ 32 -> u32 z = z.
Proof. intros Hz. unfold u32. apply Z.mod_small. lia. Qed.

Lemma s32_small z : - 2 ^ 31 <= z < 2 ^ 31 -> s32 z = z.
Proof. intros Hz. unfold s32. rewrite Z.mod_small; lia. Qed.

Lemma MIN_spec a b : MIN a b = Z.min a b.
Proof. unfold MIN. destruct (Z.ltb_spec a b); lia. Qed.

Lemma MAX_spec a b : MAX a b = Z.max a b.
Proof. unfold MAX. rewrite Z.gtb_ltb. destruct (Z.ltb_spec b a); lia. Qed.

(** ** Navigation *)

Lemma only_selection_changed_set s v u :
  only_selection_changed s (set_update u (set_selected v s)).
Proof. repeat split. Qed.

Lemma only_selection_changed_refl s : only_selection_changed s s.
Proof. repeat split. Qed.

Lemma only_selection_changed_update s u :
  only_selection_changed s (set_update u s).
Proof. repeat split. Qed.

Create HintDb nav.

#[local] Hint Resolve only_selection_changed_set only_selection_changed_refl
  only_selection_changed_update : nav.

Ltac nav_cases :=
  repeat match goal with
         | |- context [if ?c then _ else _] => destruct c
         end;
  auto with nav; repeat split.

(** C10. Each of the eight selection moves (up, down, left, right,
    page-prev, page-next, first, last) leaves every field of the view state
    other than [selected] and [update] as it was: the query text, [line_map],
    [filtered_lines], [num_lines], [max_rows], [columns] and [max_elements]
    in particular. The move to the right is the only one that can trap, and
    it does so only when [max_rows] is 0. *)
Theorem nav_frame (state : RofiViewState) :
  only_selection_changed state (rofi_view_nav_up state)
  /\ only_selection_changed state (rofi_view_nav_down state)
  /\ only_selection_changed state (rofi_view_nav_left state)
  /\ match rofi_view_nav_right state with
     | Some state' => only_selection_changed state state'
     | None => max_rows state = 0
     end
  /\ only_selection_changed state (rofi_view_nav_page_prev state)
  /\ only_selection_changed state (rofi_view_nav_page_next state)
  /\ only_selection_changed state (rofi_view_nav_first state)
  /\ only_selection_changed state (rofi_view_nav_last state).
Proof.
  refine (conj _ (conj _ (conj _ (conj _ (conj _ (conj _ (conj _ _))))))).
  - unfold rofi_view_nav_up. nav_cases.
  - unfold rofi_view_nav_down. nav_cases.
  - unfold rofi_view_nav_left. nav_cases.
  - unfold rofi_view_nav_right.
    destruct (filtered_lines state =? 0); auto with nav.
    destruct (_ <? _); auto with nav.
    destruct (_ <? _); auto with nav.
    destruct (Z.eqb_spec (max_rows state) 0); auto.
    destruct (negb _); auto with nav.
  - unfold rofi_view_nav_page_prev. nav_cases.
  - unfold rofi_view_nav_page_next. nav_cases.
  - unfold rofi_view_nav_first. auto with nav.
  - unfold rofi_view_nav_last. nav_cases.
Qed.

Lemma s32_inj a b :
  0 <= a < 2 ^ 32 -> 0 <= b < 2 ^ 32 -> s32 a = s32 b -> a = b.
Proof.
  unfold s32. intros Ha Hb Heq.
  destruct (Z.lt_ge_cases a (2 ^ 31)), (Z.lt_ge_cases b (2 ^ 31)).
  - rewrite !Z.mod_small in Heq by lia. lia.
  - rewrite (Z.mod_small (a + _)) in Heq by lia.
    replace (b + 2 ^ 31) with (b - 2 ^ 31 + 1 * 2 ^ 32) in Heq by lia.
    rewrite Z.mod_add, Z.mod_small in Heq by lia. lia.
  - rewrite (Z.mod_small (b + _)) in Heq by lia.
    replace (a + 2 ^ 31) with (a - 2 ^ 31 + 1 * 2 ^ 32) in Heq by lia.
    rewrite Z.mod_add, Z.mod_small in Heq by lia. lia.
  - replace (a + 2 ^ 31) with (a - 2 ^ 31 + 1 * 2 ^ 32) in Heq by lia.
    replace (b + 2 ^ 31) with (b - 2 ^ 31 + 1 * 2 ^ 32) in Heq by lia.
    rewrite !Z.mod_add, !Z.mod_small in Heq by lia. lia.
Qed.

(** What the move to the right does on a selection in range: it adds a
    column when that stays inside the list; otherwise it goes to the last
    entry when [selected / max_rows] differs from
    [filtered_lines / max_rows], and stays put when they agree. It never
    wraps and never leaves the list. *)
Lemma nav_right_behaviour (state : RofiViewState) :
  0 < filtered_lines state < 2 ^ 32 -> 1 <= max_rows state ->
  0 <= selected state < filtered_lines state ->
  selected state + max_rows state < 2 ^ 32 ->
  exists state',
    rofi_view_nav_right state = Some state'
    /\ selected state <= selected state' < filtered_lines state
    /\ selected state'
       = if selected state + max_rows state <? filtered_lines state
         then selected state + max_rows state
         else if (selected state <? filtered_lines state - 1)
                 && negb (selected state / max_rows state
                          =? filtered_lines state / max_rows state)
              then filtered_lines state - 1
              else selected state.
Proof.
  intros Hf Hr Hs Hov. unfold rofi_view_nav_right.
  destruct (Z.eqb_spec (filtered_lines state) 0); [lia|].
  rewrite (u32_small (selected state + max_rows state)) by lia.
  rewrite (u32_small (filtered_lines state - 1)) by lia.
  destruct (Z.ltb_spec (selected state + max_rows state) (filtered_lines state)).
  { eexists. split; [reflexivity|]. cbn. lia. }
  destruct (Z.ltb_spec (selected state) (filtered_lines state - 1)); cbn [andb].
  - destruct (Z.eqb_spec (max_rows state) 0); [lia|].
    assert (Hq1 : 0 <= selected state / max_rows state < 2 ^ 32).
    { split; [apply Z.div_pos; lia|].
      apply Z.div_lt_upper_bound; nia. }
    assert (Hq2 : 0 <= filtered_lines state / max_rows state < 2 ^ 32).
    { split; [apply Z.div_pos; lia|].
      apply Z.div_lt_upper_bound; nia. }
    destruct (Z.eqb_spec (selected state / max_rows state)
                (filtered_lines state / max_rows state)) as [Heq|Hne].
    + rewrite Heq, Z.eqb_refl. cbn [negb].
      eexists. split; [reflexivity|]. lia.
    + destruct (Z.eqb_spec (s32 (selected state / max_rows state))
                  (s32 (filtered_lines state / max_rows state))) as [Heq|_].
      { apply s32_inj in Heq; [done|lia|lia]. }
      cbn [negb]. eexists. split; [reflexivity|]. cbn. lia.
  - eexists. split; [reflexivity|]. lia.
Qed.

(** C4, on the code. With 6 candidates in columns of 3 rows and the
    selection at index 3, the selection already is in the last occupied
    column (indices 3 to 5) and [3 + 3 < 6] fails, yet the move to the right
    puts the selection on index 5: the column count is computed as
    [filtered_lines / max_rows], which is one more than the index of the
    last column when the last column is full. *)
Theorem nav_right_full_last_column :
  filtered_lines six_in_two_columns = 6
  /\ max_rows six_in_two_columns = 3
  /\ selected six_in_two_columns = 3
  /\ selected six_in_two_columns / max_rows six_in_two_columns
     = (filtered_lines six_in_two_columns - 1) / max_rows six_in_two_columns
  /\ (selected <$> rofi_view_nav_right six_in_two_columns) = Some 5.
Proof. repeat split. Qed.

(** ** Arrays *)

Lemma aset_length l i v : length (aset l i v) = length l.
Proof. unfold aset. destruct (i <? 0); [done|]. apply length_insert. Qed.

Lemma aget_aset_eq l i v :
  0 <= i < Z.of_nat (length l) -> aget (aset l i v) i = v.
Proof.
  intros Hi. unfold aget, aset.
  destruct (Z.ltb_spec i 0); [lia|].
  rewrite nth_lookup, list_lookup_insert_eq; [done|lia].
Qed.

Lemma aget_aset_ne l i v q : q <> i -> aget (aset l i v) q = aget l q.
Proof.
  intros Hne. unfold aget, aset.
  destruct (Z.ltb_spec q 0); [done|].
  destruct (Z.ltb_spec i 0); [done|].
  rewrite !nth_lookup, list_lookup_insert_ne; [done|lia].
Qed.

Lemma memmove_length l dst src n :
  0 <= dst <= src -> length (memmove l dst src n) = length l.
Proof.
  intros Hd. unfold memmove. cbn zeta.
  rewrite !length_app, length_take, length_drop, length_take, length_drop. lia.
Qed.

Lemma memmove_zero l dst src : memmove l dst src 0 = l.
Proof.
  unfold memmove. cbn. rewrite Nat.add_0_r. apply take_drop.
Qed.

Lemma aget_memmove l dst src n q :
  0 <= dst <= src -> 0 <= n -> src + n <= Z.of_nat (length l) ->
  aget (memmove l dst src n) q
  = if (dst <=? q) && (q <? dst + n) then aget l (src + (q - dst)) else aget l q.
Proof.
  intros Hd Hn Hs. unfold aget, memmove. cbn zeta.
  assert (Hm : length (take (Z.to_nat n) (drop (Z.to_nat src) l)) = Z.to_nat n).
  { rewrite length_take, length_drop. lia. }
  rewrite Hm.
  destruct (Z.ltb_spec q 0) as [Hq|Hq].
  { destruct (Z.leb_spec dst q); [lia|]. cbn. destruct (Z.ltb_spec q 0); [done|lia]. }
  rewrite !nth_lookup.
  destruct (Z.leb_spec dst q) as [H1|H1]; cbn [andb].
  - rewrite lookup_app_r by (rewrite length_take; lia).
    rewrite length_take, Nat.min_l by lia.
    destruct (Z.ltb_spec q (dst + n)) as [H2|H2].
    + destruct (Z.ltb_spec (src + (q - dst)) 0); [lia|].
      rewrite lookup_app_l by lia.
      rewrite lookup_take_lt by lia. rewrite lookup_drop.
      do 2 f_equal. lia.
    + rewrite lookup_app_r by lia. rewrite Hm, lookup_drop.
      do 2 f_equal. lia.
  - rewrite lookup_app_l by (rewrite length_take; lia).
    rewrite lookup_take_lt by lia. done.
Qed.

(** ** Matches of a range *)

Lemma matches_nil mf a b : b <= a -> matches mf a b = [].
Proof. intros Hb. unfold matches. rewrite seqZ_nil by lia. done. Qed.

Lemma matches_app mf a b c :
  a <= b <= c -> matches mf a c = matches mf a b ++ matches mf b c.
Proof.
  intros Hb. unfold matches.
  replace (c - a) with ((b - a) + (c - b)) by lia.
  rewrite seqZ_app by lia. rewrite List.filter_app.
  do 3 f_equal. lia.
Qed.

Lemma matches_one mf i : matches mf i (i + 1) = if mf i then [i] else [].
Proof.
  unfold matches. replace (i + 1 - i) with 1 by lia.
  rewrite seqZ_cons by lia. rewrite seqZ_nil by lia. done.
Qed.

Lemma matches_snoc mf a i :
  a <= i -> matches mf a (i + 1) = matches mf a i ++ (if mf i then [i] else []).
Proof.
  intros Ha. rewrite (matches_app mf a i (i + 1)) by lia.
  by rewrite matches_one.
Qed.

Lemma matches_length mf a b :
  a <= b -> Z.of_nat (length (matches mf a b)) <= b - a.
Proof.
  intros Hab. unfold matches.
  pose proof (List.filter_length_le mf (seqZ a (b - a))) as Hl.
  rewrite length_seqZ in Hl. lia.
Qed.

Lemma In_matches mf a b x :
  In x (matches mf a b) <-> (a <= x < b /\ mf x = true).
Proof.
  unfold matches. rewrite List.filter_In, <- list_elem_of_In, elem_of_seqZ.
  intuition lia.
Qed.

Lemma matches_sorted mf a b : StronglySorted Z.lt (matches mf a b).
Proof.
  unfold matches. remember (b - a) as n eqn:Hn. clear Hn.
  destruct (Z.le_gt_cases n 0) as [Hle|Hgt].
  { rewrite seqZ_nil by done. constructor. }
  rewrite <- (Z2Nat.id n) by lia. generalize (Z.to_nat n) as k. clear.
  intros k. revert a. induction k as [|k IH]; intros a.
  { cbn. constructor. }
  rewrite seqZ_cons by lia. cbn [List.filter].
  replace (Z.pred (Z.of_nat (S k))) with (Z.of_nat k) by lia.
  destruct (mf a); [|apply IH].
  constructor; [apply IH|].
  apply Forall_forall. intros x Hx.
  apply list_elem_of_In, List.filter_In in Hx as [Hx _].
  apply list_elem_of_In, elem_of_seqZ in Hx. lia.
Qed.

(** ** The frame of the filter pass *)

Lemma same_except_arrays_refl s : same_except_arrays s s.
Proof. repeat split. Qed.

Lemma same_except_arrays_trans s1 s2 s3 :
  same_except_arrays s1 s2 -> same_except_arrays s2 s3 ->
  same_except_arrays s1 s3.
Proof. unfold same_except_arrays. intros H12 H23. intuition congruence. Qed.

Lemma same_except_arrays_line_map s s' lm :
  same_except_arrays s s' -> same_except_arrays s (set_line_map lm s').
Proof. unfold same_except_arrays. cbn. tauto. Qed.

Lemma same_except_arrays_distance s s' d :
  same_except_arrays s s' -> same_except_arrays s (set_distance d s').
Proof. unfold same_except_arrays. cbn. tauto. Qed.

Lemma matcher_frame config tok s s' :
  same_except_arrays s s' -> matcher config tok s' = matcher config tok s.
Proof.
  intros Hf. unfold matcher.
  destruct Hf as (-> & _ & _ & _ & _ & _ & _ & _ & _ & _ & _ & _ & _ & _ & _ & _ & ->).
  done.
Qed.

Section FilterProofs.
Context `{Helper}.

Lemma entry_distance_frame s s' :
  same_except_arrays s s' -> entry_distance s' = entry_distance s.
Proof.
  intros Hf. unfold entry_distance.
  destruct Hf as (-> & _ & _ & _ & _ & _ & _ & _ & -> & _). done.
Qed.

(** What one round of the loop does, in terms of the state the pass
    started from. *)
Lemma filter_elements_body_spec config s0 s t i :
  same_except_arrays s0 s ->
  filter_elements_body config t i s
  = if matcher config (tokens t) s0 i then
      (set_count (u32 (count t + 1)) t,
       let s1 := set_line_map (aset (line_map s) (u32 (start t + count t)) i) s in
       if truthy (levenshtein_sort config)
       then set_distance (aset (distance s1) i (entry_distance s0 i)) s1
       else s1)
    else (t, s).
Proof.
  intros Hf. unfold filter_elements_body.
  rewrite <- (matcher_frame config (tokens t) s0 s Hf).
  unfold matcher at 1.
  destruct (truthy (mode_token_match _ _ _ _ _)); [|done].
  destruct (truthy (levenshtein_sort config)); [|done].
  rewrite <- (entry_distance_frame s0 s Hf). done.
Qed.

Lemma filter_elements_body_frame config s0 s t i :
  same_except_arrays s0 s ->
  same_except_arrays s0 (filter_elements_body config t i s).2
  /\ start (filter_elements_body config t i s).1 = start t
  /\ stop (filter_elements_body config t i s).1 = stop t
  /\ tokens (filter_elements_body config t i s).1 = tokens t.
Proof.
  intros Hf. rewrite (filter_elements_body_spec config s0 s t i Hf).
  destruct (matcher config (tokens t) s0 i); [|done].
  cbn [fst snd]. split; [|done].
  destruct (truthy (levenshtein_sort config)).
  - by apply same_except_arrays_distance, same_except_arrays_line_map.
  - by apply same_except_arrays_line_map.
Qed.
End FilterProofs.

(** ** One task *)

Lemma task_ok_count_bound mf sorting df n lm dist ti :
  task_ok mf sorting df n lm dist ti -> 0 <= count ti.1 <= ti.2 - start ti.1.
Proof.
  intros (_ & _ & Hi & Hc & _).
  pose proof (matches_length mf (start ti.1) ti.2). lia.
Qed.

(** A task is not disturbed by writes outside its range. *)
Lemma task_ok_other mf sorting df n lm dist lm' dist' ti :
  task_ok mf sorting df n lm dist ti ->
  (forall q, start ti.1 <= q < chunk_end ti.1 -> aget lm' q = aget lm q) ->
  (forall q, start ti.1 <= q < chunk_end ti.1 -> aget dist' q = aget dist q) ->
  length dist' = length dist ->
  task_ok mf sorting df n lm' dist' ti.
Proof.
  intros Hok Hlm Hdist Hlen.
  pose proof (task_ok_count_bound _ _ _ _ _ _ _ Hok) as Hcb.
  destruct Hok as (H0 & Hs & Hi & Hc & Hreg & Hd).
  repeat split; try done; try lia.
  - intros k Hk. rewrite Hlm by lia. by apply Hreg.
  - intros Hsort Hn x Hx Hm. rewrite Hdist by lia.
    apply Hd; try done. by rewrite <- Hlen.
Qed.

(** The round of a task on an entry that does not match. *)
Lemma task_ok_step_nomatch mf sorting df n lm dist t i :
  task_ok mf sorting df n lm dist (t, i) -> i < stop t -> mf i = false ->
  task_ok mf sorting df n lm dist (t, i + 1).
Proof.
  intros (H0 & Hs & Hi & Hc & Hreg & Hd) Hlt Hm. cbn [fst snd] in *.
  assert (Hsnoc : matches mf (start t) (i + 1) = matches mf (start t) i).
  { rewrite matches_snoc by lia. rewrite Hm. apply app_nil_r. }
  unfold task_ok. cbn [fst snd]. rewrite Hsnoc.
  repeat split; try done; try (unfold chunk_end in *; lia).
  intros Hsort Hn x Hx Hmx.
  destruct (decide (x = i)) as [->|Hne]; [congruence|].
  apply Hd; try done. lia.
Qed.

(** The round of a task on an entry that matches: the index is written
    behind the matches found so far, inside the slice of the task. *)
Lemma task_ok_step_match mf sorting df n lm dist t i :
  task_ok mf sorting df n lm dist (t, i) -> i < stop t -> mf i = true ->
  Z.of_nat (length lm) = n ->
  task_ok mf sorting df n (aset lm (start t + count t) i)
    (if sorting then aset dist i (df i) else dist)
    (set_count (count t + 1) t, i + 1).
Proof.
  intros Hok Hlt Hm Hlen.
  pose proof (task_ok_count_bound _ _ _ _ _ _ _ Hok) as Hcb.
  destruct Hok as (H0 & Hs & Hi & Hc & Hreg & Hd). cbn [fst snd] in *.
  assert (Hsnoc : matches mf (start t) (i + 1) = matches mf (start t) i ++ [i]).
  { rewrite matches_snoc by lia. by rewrite Hm. }
  unfold task_ok. cbn [fst snd start stop count set_count]. rewrite Hsnoc.
  repeat split; try done; try (unfold chunk_end in *; cbn; lia).
  - rewrite length_app. cbn. lia.
  - intros k Hk. destruct (decide (k = count t)) as [->|Hne].
    + rewrite aget_aset_eq by lia.
      rewrite app_nth2 by lia.
      replace (Z.to_nat (count t) - length (matches mf (start t) i))%nat
        with 0%nat by lia.
      done.
    + rewrite aget_aset_ne by lia.
      rewrite app_nth1 by lia. apply Hreg. lia.
  - intros Hsort Hn x Hx Hmx. subst sorting.
    rewrite aset_length in Hn.
    destruct (decide (x = i)) as [->|Hne].
    + apply aget_aset_eq. lia.
    + rewrite aget_aset_ne by done. apply Hd; try done. lia.
Qed.

(** ** The pool *)

Lemma pool_ordered_insert p k t i t' i' :
  pool_ordered p -> p !! k = Some (t, i) ->
  start t' = start t -> stop t' = stop t ->
  pool_ordered (<[k := (t', i')]> p).
Proof.
  intros Ho Hk Hst Hsp k1 k2 ti1 ti2 Hlt H1 H2.
  apply list_lookup_insert_Some in H1, H2.
  assert (Hce : chunk_end t' = chunk_end t) by (unfold chunk_end; congruence).
  destruct H1 as [(<- & <- & _)|(Hne1 & H1)], H2 as [(<- & <- & _)|(Hne2 & H2)];
    cbn [fst snd].
  - lia.
  - rewrite Hce. apply (Ho k k2 (t, i) ti2 Hlt Hk H2).
  - rewrite Hst. apply (Ho k1 k ti1 (t, i) Hlt H1 Hk).
  - by apply (Ho k1 k2).
Qed.

Section PoolProofs.
Context `{Helper}.
Variables (config : Settings) (tok : tokens_t) (s0 : RofiViewState).
Hypothesis Hn : 0 <= num_lines s0 < 2 ^ 32.
Hypothesis Hlm : Z.of_nat (length (line_map s0)) = num_lines s0.

(** A loop round of any task keeps the invariant: the task writes inside
    its own slice only. *)
Lemma pool_step_inv k p s :
  pool_inv config tok s0 p s ->
  pool_inv config tok s0 (pool_step config k p s).1 (pool_step config k p s).2.
Proof.
  intros Hinv. unfold pool_step.
  destruct (p !! k) as [[t i]|] eqn:Hk; [|exact Hinv].
  destruct (Z.ltb_spec i (stop t)) as [Hlt|Hge]; [|exact Hinv].
  destruct Hinv as (Hf & Hl & Hd & Ho & Ht).
  destruct (Ht k (t, i) Hk) as [Htok Hok]. cbn [fst snd] in Htok.
  pose proof (task_ok_count_bound _ _ _ _ _ _ _ Hok) as Hcb.
  pose proof Hok as (H0 & Hs & Hi & _). cbn [fst snd] in *.
  assert (Hce : chunk_end t = stop t) by (unfold chunk_end; lia).
  rewrite (filter_elements_body_spec config s0 s t i Hf), Htok.
  rewrite !u32_small by lia.
  assert (Hothers : forall k' ti, k <> k' -> p !! k' = Some ti ->
            forall q, start ti.1 <= q < chunk_end ti.1 ->
              q < start t \/ stop t <= q).
  { intros k' ti Hne Hk' q Hq.
    destruct (Nat.lt_total k k') as [Hlt'|[?|Hlt']]; [|done|].
    - pose proof (Ho k k' (t, i) ti Hlt' Hk Hk') as Hle. cbn in Hle. lia.
    - pose proof (Ho k' k ti (t, i) Hlt' Hk' Hk) as Hle. cbn in Hle. lia. }
  destruct (matcher config tok s0 i) eqn:Hm; cbn [fst snd].
  - (* the entry matches *)
    set (lm' := aset (line_map s) (start t + count t) i).
    set (s1 := set_line_map lm' s).
    assert (Hfin : exists dist',
               (if truthy (levenshtein_sort config)
                then set_distance (aset (distance s1) i (entry_distance s0 i)) s1
                else s1) = set_distance dist' s1
               /\ dist' = (if truthy (levenshtein_sort config)
                           then aset (distance s) i (entry_distance s0 i)
                           else distance s)).
    { destruct (truthy (levenshtein_sort config)); eexists; split; reflexivity. }
    destruct Hfin as (dist' & -> & Hdist').
    assert (Hdl : length dist' = length (distance s)).
    { subst dist'. destruct (truthy _); [apply aset_length|done]. }
    split; [by apply same_except_arrays_distance, same_except_arrays_line_map|].
    cbn [line_map distance set_distance set_line_map s1].
    split; [subst lm'; rewrite aset_length; done|].
    split; [congruence|].
    split; [by eapply pool_ordered_insert|].
    intros k' ti Hk'. apply list_lookup_insert_Some in Hk'.
    destruct Hk' as [(<- & <- & _)|(Hne & Hk')]; cbn [fst snd].
    + split; [done|]. subst lm' dist'.
      apply task_ok_step_match; try done. lia.
    + destruct (Ht k' ti Hk') as [Htok' Hok']. split; [done|].
      eapply task_ok_other; [exact Hok'| | |done].
      * intros q Hq. subst lm'. apply aget_aset_ne.
        destruct (Hothers k' ti Hne Hk' q Hq); lia.
      * intros q Hq. subst dist'.
        destruct (truthy (levenshtein_sort config)); [|done].
        apply aget_aset_ne. destruct (Hothers k' ti Hne Hk' q Hq); lia.
  - (* the entry does not match *)
    split; [done|]. split; [done|]. split; [done|].
    split; [by eapply pool_ordered_insert|].
    intros k' ti Hk'. apply list_lookup_insert_Some in Hk'.
    destruct Hk' as [(<- & <- & _)|(Hne & Hk')]; cbn [fst snd].
    + split; [done|]. by apply task_ok_step_nomatch.
    + exact (Ht k' ti Hk').
Qed.

Lemma run_schedule_inv sched p s :
  pool_inv config tok s0 p s ->
  pool_inv config tok s0 (run_schedule config sched p s).1
    (run_schedule config sched p s).2.
Proof.
  revert p s. induction sched as [|k sched IH]; intros p s Hinv; [done|].
  cbn [run_schedule].
  pose proof (pool_step_inv k p s Hinv) as Hstep.
  destruct (pool_step config k p s) as [p' s']. by apply IH.
Qed.
End PoolProofs.

(** ** The barrier *)

Lemma insert_middle {A} (pre post : list A) (x y : A) :
  <[length pre := y]> (pre ++ x :: post) = pre ++ y :: post.
Proof. induction pre as [|z pre IH]; simpl; [done|]. by f_equal. Qed.

Section JoinProofs.
Context `{Helper}.
Variable config : Settings.

Lemma run_schedule_app sched1 sched2 p s :
  run_schedule config (sched1 ++ sched2) p s
  = run_schedule config sched2 (run_schedule config sched1 p s).1
      (run_schedule config sched1 p s).2.
Proof.
  revert p s. induction sched1 as [|k sched1 IH]; intros p s; [done|].
  cbn [app run_schedule]. destruct (pool_step config k p s) as [p' s'].
  apply IH.
Qed.

Lemma filter_elements_body_stop t i s :
  stop (filter_elements_body config t i s).1 = stop t.
Proof.
  unfold filter_elements_body. by destruct (truthy _).
Qed.

(** The loop of one task is a schedule that names this task only. *)
Lemma loop_as_schedule fuel : forall t i s pre post,
  exists i',
    run_schedule config (replicate fuel (length pre)) (pre ++ (t, i) :: post) s
    = (pre ++ ((filter_elements_loop config fuel t i s).1, i') :: post,
       (filter_elements_loop config fuel t i s).2)
    /\ (0 <= i -> stop t < 2 ^ 32 -> stop t <= i + Z.of_nat fuel ->
        stop (filter_elements_loop config fuel t i s).1 <= i').
Proof.
  induction fuel as [|fuel IH]; intros t i s pre post.
  { exists i. split; [done|]. cbn. lia. }
  cbn [replicate run_schedule filter_elements_loop]. unfold pool_step.
  rewrite list_lookup_middle by done.
  destruct (Z.ltb_spec i (stop t)) as [Hlt|Hge].
  - pose proof (filter_elements_body_stop t i s) as Hstop.
    destruct (filter_elements_body config t i s) as [t' s'].
    cbn [fst] in Hstop.
    rewrite insert_middle.
    destruct (IH t' (u32 (i + 1)) s' pre post) as (i' & Hrun & Hdone).
    exists i'. split; [done|].
    intros H0 H32 Hfuel. rewrite (u32_small (i + 1)) in * by lia.
    apply Hdone; lia.
  - destruct (IH t i s pre post) as (i' & Hrun & Hdone).
    assert (Hloop : filter_elements_loop config fuel t i s = (t, s)).
    { destruct fuel; [done|]. cbn. destruct (Z.ltb_spec i (stop t)); [lia|done]. }
    rewrite Hloop in Hrun, Hdone. cbn [fst snd] in *.
    exists i'. split; [done|]. intros. apply Hdone; lia.
Qed.

(** A task the schedule never named runs [filter_elements] in one go. *)
Lemma join_pool_unscheduled t p s :
  join_pool config ((t, start t) :: p) s
  = let '(t', s') := filter_elements config t s in
    let '(ts, s'') := join_pool config p s' in
    (t' :: ts, s'').
Proof. reflexivity. Qed.

(** Joining the pool is the replay of one more schedule, after which
    every task has left its loop. *)
Lemma join_as_schedule rest : forall pre s,
  Forall (fun ti => 0 <= ti.2 /\ stop ti.1 < 2 ^ 32) rest ->
  exists sched p',
    run_schedule config sched (pre ++ rest) s
    = (pre ++ p', (join_pool config rest s).2)
    /\ p'.*1 = (join_pool config rest s).1
    /\ Forall (fun ti => stop ti.1 <= ti.2) p'.
Proof.
  induction rest as [|[t i] rest IH]; intros pre s Hrange.
  { exists [], []. by rewrite app_nil_r. }
  apply Forall_cons in Hrange as [[H0 H32] Hrange]. cbn [fst snd] in *.
  cbn [join_pool]. unfold filter_elements_from.
  destruct (loop_as_schedule (Z.to_nat (stop t - i)) t i s pre rest)
    as (i' & Hrun & Hdone).
  destruct (filter_elements_loop config (Z.to_nat (stop t - i)) t i s)
    as [t' s'] eqn:Hloop.
  cbn [fst snd] in *.
  destruct (IH (pre ++ [(t', i')]) s' Hrange) as (sched & p' & Hrun' & Hfst & Hall).
  destruct (join_pool config rest s') as [ts s''] eqn:Hjoin.
  cbn [fst snd] in *.
  exists (replicate (Z.to_nat (stop t - i)) (length pre) ++ sched), ((t', i') :: p').
  split; [|split].
  - rewrite run_schedule_app, Hrun. cbn [fst snd].
    rewrite (cons_middle (t', i') pre rest), app_assoc, Hrun'.
    by rewrite <- app_assoc.
  - cbn. by rewrite Hfst.
  - constructor; [|done]. cbn [fst snd]. apply Hdone; lia.
Qed.
End JoinProofs.

(** ** The compaction *)

Lemma pool_ordered_sorted (p : list (thread_state * Z)) :
  pool_ordered p ->
  StronglySorted (fun t1 t2 => chunk_end t1 <= start t2) p.*1.
Proof.
  induction p as [|ti p IH]; intros Ho; [constructor|].
  cbn. constructor.
  - apply IH. intros k1 k2 ti1 ti2 Hlt H1 H2.
    apply (Ho (S k1) (S k2) ti1 ti2); [lia|done|done].
  - apply Forall_forall. intros t2 Ht2.
    apply list_elem_of_fmap in Ht2 as (ti2 & -> & Hin).
    apply list_elem_of_lookup in Hin as [k Hk].
    apply (Ho 0%nat (S k) ti ti2); [lia|done|done].
Qed.

(** What the compaction needs of a finished task: its matches are packed
    at the front of its slice. *)
Lemma compact_spec mf n : forall ts j lm acc,
  Z.of_nat (length lm) = n -> n < 2 ^ 32 ->
  0 <= j <= n -> j = Z.of_nat (length acc) ->
  (forall q, 0 <= q < j -> aget lm q = nth (Z.to_nat q) acc 0) ->
  StronglySorted (fun t1 t2 => chunk_end t1 <= start t2) ts ->
  Forall (fun t =>
            j <= start t /\ 0 <= start t /\ stop t <= n
            /\ count t = Z.of_nat (length (matches mf (start t) (chunk_end t)))
            /\ forall k, 0 <= k < count t ->
                 aget lm (start t + k)
                 = nth (Z.to_nat k) (matches mf (start t) (chunk_end t)) 0) ts ->
  let R := acc ++ concat ((fun t => matches mf (start t) (chunk_end t)) <$> ts) in
  (compact ts j lm).1 = Z.of_nat (length R)
  /\ length (compact ts j lm).2 = length lm
  /\ forall q, 0 <= q < Z.of_nat (length R) ->
       aget (compact ts j lm).2 q = nth (Z.to_nat q) R 0.
Proof.
  induction ts as [|t ts IH]; intros j lm acc Hlen H32 Hj Hacc Hpre Hsort Hall R.
  { subst R. cbn. rewrite app_nil_r. repeat split; try lia.
    intros q Hq. apply Hpre. lia. }
  apply Forall_cons in Hall as [(Hjs & H0 & Hstop & Hc & Hreg) Hall].
  apply StronglySorted_inv in Hsort as [Hsort Hhd].
  set (M := matches mf (start t) (chunk_end t)) in *.
  assert (Hcb : count t <= chunk_end t - start t).
  { rewrite Hc. apply matches_length. unfold chunk_end. lia. }
  assert (Hcn : 0 < count t -> chunk_end t <= n) by (unfold chunk_end in *; lia).
  cbn [compact].
  set (lm1 := if negb (j =? start t) then memmove lm j (start t) (count t) else lm).
  assert (Hlen1 : length lm1 = length lm).
  { subst lm1. destruct (negb _); [|done]. apply memmove_length. lia. }
  assert (Hget1 : forall q,
             aget lm1 q
             = if (j <=? q) && (q <? j + count t)
               then aget lm (start t + (q - j)) else aget lm q).
  { intros q. subst lm1. destruct (Z.eqb_spec j (start t)) as [->|Hne]; cbn [negb].
    - destruct (_ && _); [f_equal; lia|done].
    - destruct (decide (count t = 0)) as [Hz|Hnz].
      + rewrite Hz, memmove_zero.
        destruct (Z.leb_spec j q), (Z.ltb_spec q (j + 0)); cbn [andb]; try done; lia.
      + apply aget_memmove; lia. }
  clearbody lm1.
  assert (Hj1 : u32 (j + count t) = j + count t).
  { apply u32_small. destruct (decide (count t = 0)); lia. }
  rewrite Hj1.
  destruct (IH (j + count t) lm1 (acc ++ M)) as (Hfst & Hlen' & Hget);
    try done; try lia.
  - rewrite length_app. lia.
  - intros q Hq. rewrite Hget1.
    destruct (Z.leb_spec j q) as [Hle|Hlt]; cbn [andb].
    + destruct (Z.ltb_spec q (j + count t)); [|lia].
      rewrite app_nth2 by lia. rewrite Hreg by lia. f_equal. lia.
    + rewrite app_nth1 by lia. apply Hpre. lia.
  - rewrite Forall_forall in Hall, Hhd. apply Forall_forall. intros t2 Ht2.
    destruct (Hall t2 Ht2) as (Hjs2 & H02 & Hstop2 & Hc2 & Hreg2).
    pose proof (Hhd t2 Ht2) as Hord.
    repeat split; try done; try lia.
    intros k Hk. rewrite Hget1.
    destruct (Z.leb_spec j (start t2 + k)), (Z.ltb_spec (start t2 + k) (j + count t));
      cbn [andb]; try lia; by apply Hreg2.
  - subst R. cbn [fmap list_fmap concat]. rewrite app_assoc.
    split; [done|]. split; [congruence|done].
Qed.

Lemma take_of_aget (lm R : list Z) :
  (length R <= length lm)%nat ->
  (forall q, 0 <= q < Z.of_nat (length R) -> aget lm q = nth (Z.to_nat q) R 0) ->
  take (length R) lm = R.
Proof.
  intros Hlen Hget. apply list_eq. intros i.
  destruct (decide (i < length R)%nat) as [Hlt|Hge].
  - rewrite lookup_take_lt by done.
    specialize (Hget (Z.of_nat i) ltac:(lia)).
    unfold aget in Hget. destruct (Z.ltb_spec (Z.of_nat i) 0); [lia|].
    rewrite Nat2Z.id in Hget.
    destruct (nth_lookup_or_length lm i 0) as [->|?]; [|lia].
    destruct (nth_lookup_or_length R i 0) as [->|?]; [|lia].
    by rewrite Hget.
  - rewrite !lookup_ge_None_2; [done|lia|rewrite length_take; lia].
Qed.

(** ** The chunks of [rofi_view_refilter] *)

Section ChunkProofs.
Context `{Helper}.
Variables (tok : tokens_t) (n steps : Z).
Hypothesis Hn : 0 <= n < 2 ^ 32.
Hypothesis Hsteps : 1 <= steps.

Lemma lookup_make_states (nt : Z) (k : nat) t :
  nt * steps < 2 ^ 32 ->
  make_states tok n nt steps !! k = Some t ->
  Z.of_nat k < nt /\ tokens t = tok /\ count t = 0
  /\ start t = Z.of_nat k * steps
  /\ stop t = Z.min n ((Z.of_nat k + 1) * steps).
Proof.
  intros Hov Hk. unfold make_states in Hk.
  rewrite list_lookup_fmap in Hk.
  destruct (seqZ 0 nt !! k) as [i|] eqn:Hi; [|done].
  apply lookup_seqZ in Hi as [-> Hlt]. cbn in Hk. injection Hk as <-.
  cbn [tokens count start stop]. rewrite MIN_spec.
  rewrite !u32_small by nia.
  repeat split; try done; lia.
Qed.

Lemma make_states_ordered nt :
  nt * steps < 2 ^ 32 ->
  pool_ordered ((fun t => (t, start t)) <$> make_states tok n nt steps).
Proof.
  intros Hov k1 k2 ti1 ti2 Hlt H1 H2.
  rewrite list_lookup_fmap in H1, H2.
  destruct (make_states tok n nt steps !! k1) as [t1|] eqn:E1; [|done].
  destruct (make_states tok n nt steps !! k2) as [t2|] eqn:E2; [|done].
  cbn in H1, H2. injection H1 as <-. injection H2 as <-. cbn [fst].
  apply lookup_make_states in E1 as (_ & _ & _ & Hs1 & He1); [|done].
  apply lookup_make_states in E2 as (_ & _ & _ & Hs2 & He2); [|done].
  unfold chunk_end. nia.
Qed.

Lemma make_states_task_ok mf sorting df lm dist nt k ti :
  nt * steps < 2 ^ 32 ->
  ((fun t => (t, start t)) <$> make_states tok n nt steps) !! k = Some ti ->
  tokens ti.1 = tok /\ task_ok mf sorting df n lm dist ti.
Proof.
  intros Hov Hk. rewrite list_lookup_fmap in Hk.
  destruct (make_states tok n nt steps !! k) as [t|] eqn:E; [|done].
  cbn in Hk. injection Hk as <-. cbn [fst snd].
  apply lookup_make_states in E as (_ & Htok & Hc & Hs & He); [|done].
  split; [done|]. unfold task_ok, chunk_end. cbn [fst snd].
  rewrite (matches_nil mf (start t) (start t)) by lia.
  repeat split; try done; try lia.
Qed.

(** The ranges of the chunks, one after the other, are [0, n) cut at the
    end of the last chunk. *)
Lemma make_states_cover mf (m : nat) :
  Z.of_nat m * steps < 2 ^ 32 ->
  concat ((fun t => matches mf (start t) (chunk_end t))
            <$> make_states tok n (Z.of_nat m) steps)
  = matches mf 0 (Z.min n (Z.of_nat m * steps)).
Proof.
  induction m as [|m IH]; intros Hov.
  { cbn. by rewrite matches_nil by lia. }
  unfold make_states in *. rewrite seqZ_S, fmap_app, fmap_app, concat_app.
  rewrite IH by nia. cbn [fmap list_fmap concat start stop].
  rewrite app_nil_r, MIN_spec, !u32_small by nia. unfold chunk_end at 1.
  cbn [start stop]. rewrite Z.add_0_l.
  destruct (Z.le_gt_cases (Z.of_nat m * steps) n) as [Hle|Hgt].
  - rewrite (Z.min_r n (Z.of_nat m * steps)) by done.
    rewrite Z.max_r by nia.
    rewrite <- matches_app by nia. f_equal. nia.
  - rewrite (matches_nil mf (Z.of_nat m * steps)) by nia.
    rewrite app_nil_r. f_equal. nia.
Qed.
End ChunkProofs.

(** The number of chunks and their size, as [rofi_view_refilter] computes
    them, cover the array when the sum does not wrap. *)
Lemma chunk_sizes n :
  0 <= n -> n + MAX 1 (n / 500) < 2 ^ 32 ->
  let nt := MAX 1 (n / 500) in
  let steps := u32 (n + nt) / nt in
  1 <= nt /\ 1 <= steps /\ n <= nt * steps < 2 ^ 32.
Proof.
  intros Hn Hov nt steps. subst steps.
  assert (Hnt : 1 <= nt) by (subst nt; rewrite MAX_spec; lia).
  fold nt in Hov. rewrite u32_small by lia.
  pose proof (Z.mul_div_le (n + nt) nt ltac:(lia)).
  pose proof (Z.mul_succ_div_gt (n + nt) nt ltac:(lia)).
  assert (1 <= (n + nt) / nt) by (apply Z.div_le_lower_bound; lia).
  lia.
Qed.

(** The tasks keep their ranges. *)
Section ShapeProofs.
Context `{Helper}.
Variable config : Settings.

Lemma filter_elements_body_start t i s :
  start (filter_elements_body config t i s).1 = start t.
Proof. unfold filter_elements_body. by destruct (truthy _). Qed.

Lemma pool_step_shape k p s :
  (fun ti => (start ti.1, stop ti.1)) <$> (pool_step config k p s).1
  = (fun ti => (start ti.1, stop ti.1)) <$> p.
Proof.
  unfold pool_step. destruct (p !! k) as [[t i]|] eqn:Hk; [|done].
  destruct (i <? stop t); [|done].
  pose proof (filter_elements_body_start t i s) as Hst.
  pose proof (filter_elements_body_stop config t i s) as Hsp.
  destruct (filter_elements_body config t i s) as [t' s']. cbn [fst snd] in *.
  rewrite list_fmap_insert. apply list_insert_id.
  rewrite list_lookup_fmap, Hk. cbn. congruence.
Qed.

Lemma run_schedule_shape sched : forall p s,
  (fun ti => (start ti.1, stop ti.1)) <$> (run_schedule config sched p s).1
  = (fun ti => (start ti.1, stop ti.1)) <$> p.
Proof.
  induction sched as [|k sched IH]; intros p s; [done|].
  cbn [run_schedule].
  pose proof (pool_step_shape k p s) as Hstep.
  destruct (pool_step config k p s) as [p' s']. cbn [fst] in Hstep.
  by rewrite IH.
Qed.
End ShapeProofs.

(** ** The filter pass as a whole *)

Lemma single_scan_filter_matches `{Helper} config state :
  single_scan_filter config state
  = matches
      (matcher config
         (tokenize (textbox.text (text state)) (case_sensitive config)) state)
      0 (num_lines state).
Proof. unfold single_scan_filter, matches. by rewrite Z.sub_0_r. Qed.

Section PassProofs.
Context `{Helper}.
Variables (config : Settings) (sched : list nat) (state : RofiViewState).
Hypothesis Hn : 0 <= num_lines state < 2 ^ 32.
Hypothesis Hlm : Z.of_nat (length (line_map state)) = num_lines state.

(** Whatever the schedule and whatever the cut into chunks, as long as
    the chunks cover the array, the pass leaves in [line_map] the matching
    indices in ascending order, returns their number, caches the distance
    of every entry it kept, and touches nothing but the two arrays. *)
Lemma filter_chunks_spec tok nt steps :
  1 <= steps -> 0 <= nt -> num_lines state <= nt * steps < 2 ^ 32 ->
  let mf := matcher config tok state in
  let scan := matches mf 0 (num_lines state) in
  let res := filter_chunks config sched state tok nt steps in
  res.1 = Z.of_nat (length scan)
  /\ take (length scan) (line_map res.2) = scan
  /\ same_except_arrays state res.2
  /\ length (line_map res.2) = length (line_map state)
  /\ length (distance res.2) = length (distance state)
  /\ (truthy (levenshtein_sort config) = true ->
      Z.of_nat (length (distance state)) = num_lines state ->
      forall x, In x scan -> aget (distance res.2) x = entry_distance state x).
Proof.
  intros Hsteps Hnt Hcov mf scan res. subst scan res.
  unfold filter_chunks.
  set (states := make_states tok (num_lines state) nt steps).
  set (p0 := (fun t => (t, start t)) <$> states).
  assert (Hinv0 : pool_inv config tok state p0 state).
  { split; [apply same_except_arrays_refl|]. split; [done|]. split; [done|].
    split; [apply make_states_ordered; lia|].
    intros k ti Hk.
    eapply make_states_task_ok; [..|exact Hk]; lia. }
  pose proof (run_schedule_inv config tok state Hn Hlm sched p0 state Hinv0)
    as Hinv1.
  pose proof (run_schedule_shape config sched p0 state) as Hshape1.
  destruct (run_schedule config sched p0 state) as [p1 s1]. cbn [fst snd] in *.
  destruct (join_as_schedule config p1 [] s1) as (sched2 & p2 & Hrun2 & Hfst & Hdone).
  { apply Forall_lookup. intros k ti Hk.
    destruct Hinv1 as (_ & _ & _ & _ & Ht).
    destruct (Ht k ti Hk) as [_ (H0 & Hs & Hi & _)]. lia. }
  pose proof (run_schedule_inv config tok state Hn Hlm sched2 p1 s1 Hinv1)
    as Hinv2.
  pose proof (run_schedule_shape config sched2 p1 s1) as Hshape2.
  cbn [app] in Hrun2. rewrite Hrun2 in Hinv2, Hshape2.
  destruct (join_pool config p1 s1) as [ts s2]. cbn [fst snd] in *. subst ts.
  destruct Hinv2 as (Hf & Hl & Hd & Ho & Ht).
  assert (Hfinal : forall k ti, p2 !! k = Some ti ->
            ti.2 = chunk_end ti.1
            /\ task_ok mf (truthy (levenshtein_sort config)) (entry_distance state)
                 (num_lines state) (line_map s2) (distance s2) ti).
  { intros k ti Hk. destruct (Ht k ti Hk) as [_ Hok]. split; [|done].
    pose proof (Forall_lookup_1 _ _ _ _ Hdone Hk) as Hstop. cbn in Hstop.
    destruct Hok as (_ & _ & Hi & _). unfold chunk_end in *. lia. }
  assert (Hconcat :
            concat ((fun t => matches mf (start t) (chunk_end t)) <$> p2.*1)
            = matches mf 0 (num_lines state)).
  { transitivity
      (concat ((fun t => matches mf (start t) (chunk_end t)) <$> states)).
    - f_equal.
      transitivity ((fun ab : Z * Z => matches mf ab.1 (Z.max ab.1 ab.2))
                      <$> ((fun ti : thread_state * Z => (start ti.1, stop ti.1)) <$> p2)).
      { rewrite <- !list_fmap_compose. done. }
      rewrite Hshape2, Hshape1. subst p0.
      rewrite <- !list_fmap_compose. done.
    - subst states. rewrite <- (Z2Nat.id nt) by lia.
      rewrite make_states_cover by (try done; lia).
      f_equal. lia. }
  destruct (compact_spec mf (num_lines state) p2.*1 0 (line_map s2) [])
    as (Hj & Hlen & Hget); try done; try lia.
  - by apply pool_ordered_sorted.
  - apply Forall_fmap, Forall_lookup. intros k ti Hk. cbn.
    destruct (Hfinal k ti Hk) as [Hend (H0 & Hs & Hi & Hc & Hreg & _)].
    rewrite <- Hend. repeat split; try done.
  - cbn [app] in Hj, Hget. rewrite Hconcat in Hj, Hget.
    destruct (compact p2.*1 0 (line_map s2)) as [j lm']. cbn [fst snd] in *.
    cbn [line_map distance set_line_map].
    split; [done|]. split.
    { apply take_of_aget; [|done].
      pose proof (matches_length mf 0 (num_lines state) ltac:(lia)). lia. }
    split; [by apply same_except_arrays_line_map|].
    split; [congruence|]. split; [done|].
    intros Hsort Hdl x Hx.
    rewrite <- Hconcat in Hx. apply in_concat in Hx as (M & HM & Hx).
    apply list_elem_of_In, list_elem_of_fmap in HM as (t & -> & Ht2).
    apply list_elem_of_fmap in Ht2 as (ti & -> & Hti).
    apply list_elem_of_lookup in Hti as [k Hk].
    destruct (Hfinal k ti Hk) as [Hend (_ & _ & _ & _ & _ & Hdist)].
    apply In_matches in Hx as [Hx Hm].
    apply Hdist; try done; [congruence|lia].
Qed.

Hypothesis Hov : num_lines state + MAX 1 (num_lines state / 500) < 2 ^ 32.

(** The same for the chunks of [rofi_view_refilter]. *)
Lemma filter_pass_spec :
  let scan := single_scan_filter config state in
  let res := filter_pass config sched state in
  res.1 = Z.of_nat (length scan)
  /\ take (length scan) (line_map res.2) = scan
  /\ same_except_arrays state res.2
  /\ length (line_map res.2) = length (line_map state)
  /\ length (distance res.2) = length (distance state)
  /\ (truthy (levenshtein_sort config) = true ->
      Z.of_nat (length (distance state)) = num_lines state ->
      forall x, In x scan -> aget (distance res.2) x = entry_distance state x).
Proof.
  intros scan res. subst scan res. rewrite single_scan_filter_matches.
  unfold filter_pass.
  destruct (chunk_sizes (num_lines state) ltac:(lia) Hov) as (Hnt & Hsteps & Hcov).
  apply filter_chunks_spec; lia.
Qed.
End PassProofs.

(** ** The merge sort of [g_qsort_with_data] *)

Lemma filter_none (f : Z -> bool) (l : list Z) :
  (forall y, In y l -> f y = false) -> List.filter f l = [].
Proof.
  induction l as [|x l IH]; intros Hf; [done|].
  cbn. rewrite (Hf x) by (by left). apply IH. intros y Hy. apply Hf. by right.
Qed.

Section SortProofs.
Variables (compare_func : Z -> Z -> Z) (key : Z -> Z).

Local Abbreviation agrees := (sort_agrees compare_func key).
Local Abbreviation by_key := (key_le key).
Local Abbreviation with_key := (key_is key).

Lemma msort_merge_nil_r b1 : msort_merge compare_func b1 [] = b1.
Proof. by destruct b1. Qed.

Lemma msort_merge_perm b1 : forall b2,
  msort_merge compare_func b1 b2 ≡ₚ b1 ++ b2.
Proof.
  induction b1 as [|x1 b1 IH1]; intros b2; [by destruct b2|].
  induction b2 as [|x2 b2 IH2]; [by rewrite app_nil_r|].
  cbn [msort_merge]. destruct (compare_func x1 x2 <=? 0).
  - cbn. by rewrite IH1.
  - change (x2 :: msort_merge compare_func (x1 :: b1) b2 ≡ₚ (x1 :: b1) ++ x2 :: b2).
    rewrite IH2. by rewrite Permutation_middle.
Qed.

Lemma msort_merge_sorted b1 : forall b2,
  agrees (b1 ++ b2) ->
  StronglySorted by_key b1 -> StronglySorted by_key b2 ->
  StronglySorted by_key (msort_merge compare_func b1 b2).
Proof.
  induction b1 as [|x1 b1 IH1]; intros b2; [by destruct b2|].
  induction b2 as [|x2 b2 IH2]; intros Hag Hs1 Hs2; [done|].
  cbn [msort_merge].
  assert (Hx : (compare_func x1 x2 <=? 0) = (key x1 <=? key x2)).
  { apply Hag; apply in_or_app; [left|right]; by left. }
  rewrite Hx.
  pose proof (StronglySorted_inv Hs1) as [Hs1' Hall1].
  pose proof (StronglySorted_inv Hs2) as [Hs2' Hall2].
  destruct (Z.leb_spec (key x1) (key x2)) as [Hle|Hgt].
  - constructor.
    + apply IH1; [|done|done].
      intros a b Ha Hb. apply Hag; by right.
    + apply Forall_forall. intros y Hy.
      apply list_elem_of_In in Hy.
      apply (Permutation_in _ (msort_merge_perm b1 (x2 :: b2))) in Hy.
      apply in_app_or in Hy as [Hy|[<-|Hy]].
      * rewrite Forall_forall in Hall1. by apply Hall1, list_elem_of_In.
      * done.
      * rewrite Forall_forall in Hall2. unfold key_le in *.
        specialize (Hall2 y (proj2 (list_elem_of_In _ _) Hy)). lia.
  - change (StronglySorted by_key
              (x2 :: msort_merge compare_func (x1 :: b1) b2)).
    constructor.
    + apply IH2; [|done|done].
      intros a b Ha Hb. apply Hag.
      * apply in_app_or in Ha as [Ha|Ha]; apply in_or_app; [by left|right; by right].
      * apply in_app_or in Hb as [Hb|Hb]; apply in_or_app; [by left|right; by right].
    + apply Forall_forall. intros y Hy.
      apply list_elem_of_In in Hy.
      apply (Permutation_in _ (msort_merge_perm (x1 :: b1) b2)) in Hy.
      apply in_app_or in Hy as [[<-|Hy]|Hy].
      * unfold key_le. lia.
      * rewrite Forall_forall in Hall1. unfold key_le in *.
        specialize (Hall1 y (proj2 (list_elem_of_In _ _) Hy)). lia.
      * rewrite Forall_forall in Hall2. by apply Hall2, list_elem_of_In.
Qed.

(** The merge takes from the first half on a tie, so the elements of one
    key come out in the order first half, second half. *)
Lemma msort_merge_stable k b1 : forall b2,
  agrees (b1 ++ b2) -> StronglySorted by_key b1 ->
  List.filter (with_key k) (msort_merge compare_func b1 b2)
  = List.filter (with_key k) b1 ++ List.filter (with_key k) b2.
Proof.
  induction b1 as [|x1 b1 IH1]; intros b2; [by destruct b2|].
  induction b2 as [|x2 b2 IH2]; intros Hag Hs1; [by rewrite app_nil_r|].
  cbn [msort_merge].
  assert (Hx : (compare_func x1 x2 <=? 0) = (key x1 <=? key x2)).
  { apply Hag; apply in_or_app; [left|right]; by left. }
  rewrite Hx.
  pose proof (StronglySorted_inv Hs1) as [Hs1' Hall1].
  destruct (Z.leb_spec (key x1) (key x2)) as [Hle|Hgt].
  - cbn [List.filter]. rewrite IH1; [|intros a b Ha Hb; apply Hag; by right|done].
    by destruct (with_key k x1).
  - change (List.filter (with_key k)
              (x2 :: msort_merge compare_func (x1 :: b1) b2)
            = List.filter (with_key k) (x1 :: b1)
              ++ List.filter (with_key k) (x2 :: b2)).
    assert (Hag2 : agrees ((x1 :: b1) ++ b2)).
    { intros a b Ha Hb. apply Hag.
      - apply in_app_or in Ha as [Ha|Ha]; apply in_or_app; [by left|right; by right].
      - apply in_app_or in Hb as [Hb|Hb]; apply in_or_app; [by left|right; by right]. }
    specialize (IH2 Hag2 Hs1).
    set (l1 := x1 :: b1) in *. cbn [List.filter]. rewrite IH2.
    destruct (with_key k x2) eqn:Hk; [|done].
    assert (Hnone : List.filter (with_key k) l1 = []).
    { apply filter_none. intros y Hy. unfold key_is in *.
      apply Z.eqb_eq in Hk. apply Z.eqb_neq. subst l1.
      destruct Hy as [<-|Hy]; [lia|].
      rewrite Forall_forall in Hall1. unfold key_le in Hall1.
      specialize (Hall1 y (proj2 (list_elem_of_In _ _) Hy)). lia. }
    by rewrite Hnone.
Qed.

Lemma msort_with_tmp_perm fuel : forall b,
  msort_with_tmp fuel compare_func b ≡ₚ b.
Proof.
  induction fuel as [|fuel IH]; intros b; [done|].
  cbn [msort_with_tmp]. destruct (length b <=? 1)%nat; [done|].
  rewrite msort_merge_perm, !IH. by rewrite take_drop.
Qed.

Lemma msort_with_tmp_spec fuel : forall b,
  (length b <= fuel)%nat -> agrees b ->
  StronglySorted by_key (msort_with_tmp fuel compare_func b)
  /\ forall k, List.filter (with_key k) (msort_with_tmp fuel compare_func b)
               = List.filter (with_key k) b.
Proof.
  induction fuel as [|fuel IH]; intros b Hlen Hag.
  { destruct b; [|cbn in Hlen; lia]. split; [constructor|done]. }
  cbn [msort_with_tmp]. destruct (Nat.leb_spec (length b) 1) as [Hle|Hgt].
  { split; [|done]. destruct b as [|x [|y b]]; [constructor| |cbn in Hle; lia].
    constructor; [constructor|constructor]. }
  set (n1 := (length b / 2)%nat).
  assert (Hn1 : (1 <= n1 < length b)%nat).
  { subst n1. split.
    - apply Nat.div_le_lower_bound; lia.
    - apply Nat.div_lt; lia. }
  assert (Hin1 : forall a, In a (take n1 b) -> In a b).
  { intros a Ha. rewrite <- (take_drop n1 b). apply in_or_app. by left. }
  assert (Hin2 : forall a, In a (drop n1 b) -> In a b).
  { intros a Ha. rewrite <- (take_drop n1 b). apply in_or_app. by right. }
  destruct (IH (take n1 b)) as [Hs1 Hf1].
  { rewrite length_take. lia. }
  { intros a c Ha Hc. apply Hag; by apply Hin1. }
  destruct (IH (drop n1 b)) as [Hs2 Hf2].
  { rewrite length_drop. lia. }
  { intros a c Ha Hc. apply Hag; by apply Hin2. }
  assert (Hag' : agrees (msort_with_tmp fuel compare_func (take n1 b)
                         ++ msort_with_tmp fuel compare_func (drop n1 b))).
  { intros a c Ha Hc. apply Hag.
    - apply (Permutation_in (l' := take n1 b ++ drop n1 b)) in Ha;
        [by rewrite take_drop in Ha|].
      by rewrite !msort_with_tmp_perm.
    - apply (Permutation_in (l' := take n1 b ++ drop n1 b)) in Hc;
        [by rewrite take_drop in Hc|].
      by rewrite !msort_with_tmp_perm. }
  split.
  - by apply msort_merge_sorted.
  - intros k. rewrite msort_merge_stable by done.
    rewrite Hf1, Hf2, <- List.filter_app. by rewrite take_drop.
Qed.

(** A list sorted by key in which the elements of each key ascend is
    sorted by key first and by value second. *)
Lemma by_key_then_value (l : list Z) :
  StronglySorted by_key l ->
  (forall k, StronglySorted Z.lt (List.filter (with_key k) l)) ->
  StronglySorted
    (fun a b => key a < key b \/ (key a = key b /\ a < b)) l.
Proof.
  induction l as [|x l IH]; intros Hs Hk; [constructor|].
  apply StronglySorted_inv in Hs as [Hs Hall].
  constructor.
  - apply IH; [done|]. intros k. specialize (Hk k). cbn [List.filter] in Hk.
    destruct (with_key k x); [|done]. by apply StronglySorted_inv in Hk as [? _].
  - apply Forall_forall. intros y Hy.
    rewrite Forall_forall in Hall. pose proof (Hall y Hy) as Hle.
    unfold key_le in Hle.
    destruct (decide (key x = key y)) as [Heq|Hne]; [right|left; lia].
    split; [done|]. specialize (Hk (key x)). cbn [List.filter] in Hk.
    unfold key_is at 1 in Hk. rewrite Z.eqb_refl in Hk.
    apply StronglySorted_inv in Hk as [_ Hlt].
    rewrite Forall_forall in Hlt. apply Hlt.
    apply list_elem_of_In, List.filter_In. split; [by apply list_elem_of_In|].
    unfold key_is. apply Z.eqb_eq. lia.
Qed.
End SortProofs.

(** ** [rofi_view_refilter] *)

Lemma compact_range ts : forall j lm,
  0 <= j < 2 ^ 32 -> 0 <= (compact ts j lm).1 < 2 ^ 32.
Proof.
  induction ts as [|t ts IH]; intros j lm Hj; [done|].
  cbn [compact]. apply IH, u32_range.
Qed.

Section RefilterProofs.
Context `{Helper} `{MenuReturn}.
Variables (config : Settings) (sched : list nat).

Lemma pool_step_frame s0 k p s :
  same_except_arrays s0 s -> same_except_arrays s0 (pool_step config k p s).2.
Proof.
  intros Hf. unfold pool_step. destruct (p !! k) as [[t i]|]; [|done].
  destruct (i <? stop t); [|done].
  pose proof (filter_elements_body_frame config s0 s t i Hf) as [Hb _].
  by destruct (filter_elements_body config t i s).
Qed.

Lemma run_schedule_frame s0 sch : forall p s,
  same_except_arrays s0 s ->
  same_except_arrays s0 (run_schedule config sch p s).2.
Proof.
  induction sch as [|k sch IH]; intros p s Hf; [done|].
  cbn [run_schedule]. pose proof (pool_step_frame s0 k p s Hf) as Hstep.
  destruct (pool_step config k p s). by apply IH.
Qed.

Lemma filter_elements_loop_frame s0 fuel : forall t i s,
  same_except_arrays s0 s ->
  same_except_arrays s0 (filter_elements_loop config fuel t i s).2.
Proof.
  induction fuel as [|fuel IH]; intros t i s Hf; [done|].
  cbn [filter_elements_loop]. destruct (i <? stop t); [|done].
  pose proof (filter_elements_body_frame config s0 s t i Hf) as [Hb _].
  destruct (filter_elements_body config t i s). by apply IH.
Qed.

Lemma join_pool_frame s0 p : forall s,
  same_except_arrays s0 s -> same_except_arrays s0 (join_pool config p s).2.
Proof.
  induction p as [|[t i] p IH]; intros s Hf; [done|].
  cbn [join_pool]. unfold filter_elements_from.
  pose proof (filter_elements_loop_frame s0 (Z.to_nat (stop t - i)) t i s Hf) as Hl.
  destruct (filter_elements_loop config (Z.to_nat (stop t - i)) t i s) as [t' s'].
  specialize (IH s' Hl). by destruct (join_pool config p s').
Qed.

(** Without any assumption on the state: the pass changes the two arrays
    only and returns an [unsigned int]. *)
Lemma filter_chunks_frame state tok nt steps :
  same_except_arrays state (filter_chunks config sched state tok nt steps).2
  /\ 0 <= (filter_chunks config sched state tok nt steps).1 < 2 ^ 32.
Proof.
  unfold filter_chunks.
  pose proof (run_schedule_frame state sched
                ((fun t => (t, start t)) <$> make_states tok (num_lines state) nt steps)
                state (same_except_arrays_refl state)) as H1.
  destruct (run_schedule config sched _ state) as [p1 s1].
  pose proof (join_pool_frame state p1 s1 H1) as H2.
  destruct (join_pool config p1 s1) as [ts s2].
  pose proof (compact_range ts 0 (line_map s2) ltac:(lia)) as H3.
  destruct (compact ts 0 (line_map s2)) as [j lm]. cbn [fst snd] in *.
  split; [by apply same_except_arrays_line_map|done].
Qed.

(** The first block of [rofi_view_refilter] leaves the selection and the
    outcome fields alone. *)
Lemma refilter_line_map_frame state :
  let mid := refilter_line_map config sched state in
  selected mid = selected state /\ num_lines mid = num_lines state
  /\ quit mid = quit state /\ retv mid = retv state
  /\ selected_line mid = selected_line state /\ text mid = text state
  /\ (0 <= num_lines state < 2 ^ 32 -> 0 <= filtered_lines mid < 2 ^ 32).
Proof.
  unfold refilter_line_map.
  destruct (0 <? Z.of_nat (String.length (textbox.text (text state)))).
  - unfold filter_pass.
    match goal with
    | |- context [filter_chunks config sched state ?tok ?nt ?steps] =>
        pose proof (filter_chunks_frame state tok nt steps) as [Hf Hj];
        destruct (filter_chunks config sched state tok nt steps) as [j s]
    end.
    cbn [fst snd] in *. cbv zeta.
    destruct Hf as (_ & _ & _ & _ & _ & _ & _ & _ & ? & ? & ? & _ & _ & ? & ? & ? & _).
    destruct (truthy (levenshtein_sort config)); cbn; repeat split; try done; lia.
  - cbn. repeat split; try done; lia.
Qed.

(** The rest of [rofi_view_refilter], field by field. *)
Lemma refilter_fields state :
  let mid := refilter_line_map config sched state in
  let state' := rofi_view_refilter config sched state in
  let sel :=
    if filtered_lines mid >? 0
    then MIN (selected mid) (u32 (filtered_lines mid - 1)) else 0 in
  let auto :=
    (auto_select config =? TRUE) && (filtered_lines mid =? 1)
    && (num_lines mid >? 1) in
  line_map state' = line_map mid /\ distance state' = distance mid
  /\ filtered_lines state' = filtered_lines mid
  /\ selected state' = sel
  /\ quit state' = (if auto then TRUE else quit mid)
  /\ retv state' = (if auto then MENU_OK else retv mid)
  /\ selected_line state'
     = (if auto then aget (line_map mid) sel else selected_line mid).
Proof.
  intros mid state' sel auto. subst state' sel auto.
  unfold rofi_view_refilter. fold mid. cbv zeta.
  destruct (filtered_lines mid >? 0);
    cbn [filtered_lines num_lines set_selected];
    destruct (_ && _); repeat split.
Qed.
End RefilterProofs.

(** C3. After every call of [rofi_view_refilter] the selection is the
    one it was before, clamped into the new list: it is
    [min(selected, filtered_lines - 1)] when there are candidates and 0 when
    there are none. So a selection that is still in range is kept, one that
    is past the end goes to the last candidate, and in both cases it lies in
    [0, filtered_lines - 1]; this holds whatever the selection was. The
    function has no failure path: it either leaves the outcome fields as
    they were or, when the auto-select rule fires on a single candidate,
    records an accept. *)
Theorem refilter_clamps_selection `{Helper} `{MenuReturn}
    (config : Settings) (sched : list nat) (state : RofiViewState) :
  0 <= selected state -> 0 <= num_lines state < 2 ^ 32 ->
  let state' := rofi_view_refilter config sched state in
  selected state'
  = (if 0 <? filtered_lines state'
     then Z.min (selected state) (filtered_lines state' - 1) else 0)
  /\ (selected state < filtered_lines state' -> selected state' = selected state)
  /\ (0 < filtered_lines state' -> filtered_lines state' <= selected state ->
      selected state' = filtered_lines state' - 1)
  /\ (0 < filtered_lines state' ->
      0 <= selected state' <= filtered_lines state' - 1)
  /\ (filtered_lines state' = 0 -> selected state' = 0)
  /\ 0 <= filtered_lines state'
  /\ ((retv state' = retv state /\ quit state' = quit state)
      \/ (retv state' = MENU_OK /\ quit state' = TRUE
          /\ filtered_lines state' = 1)).
Proof.
  intros Hsel Hn state'. subst state'.
  destruct (refilter_fields config sched state)
    as (_ & _ & Hfl & Hs & Hq & Hr & _).
  destruct (refilter_line_map_frame config sched state)
    as (Hsel' & Hnl & Hq' & Hr' & _ & _ & Hrange).
  specialize (Hrange Hn).
  set (mid := refilter_line_map config sched state) in *.
  rewrite Hfl, Hs, Hq, Hr, Hsel', Hq', Hr'. clear Hfl Hs Hq Hr.
  rewrite MIN_spec.
  split; [|split; [|split; [|split; [|split; [|split]]]]].
  - destruct (Z.gtb_spec (filtered_lines mid) 0);
      destruct (Z.ltb_spec 0 (filtered_lines mid)); try lia.
    by rewrite u32_small by lia.
  - intros Hin. destruct (Z.gtb_spec (filtered_lines mid) 0); [|lia].
    rewrite u32_small by lia. lia.
  - intros Hpos Hout. destruct (Z.gtb_spec (filtered_lines mid) 0); [|lia].
    rewrite u32_small by lia. lia.
  - intros Hpos. destruct (Z.gtb_spec (filtered_lines mid) 0); [|lia].
    rewrite u32_small by lia. lia.
  - intros Hz. destruct (Z.gtb_spec (filtered_lines mid) 0); [lia|done].
  - lia.
  - destruct (Z.eqb_spec (filtered_lines mid) 1) as [H1|H1].
    + destruct ((auto_select config =? TRUE) && true && _); [right|left]; done.
    + rewrite andb_false_r. by left.
Qed.

Lemma filter_sublist (f : Z -> bool) (l : list Z) : List.filter f l `sublist_of` l.
Proof.
  induction l as [|x l IH]; [constructor|].
  cbn. destruct (f x); by constructor.
Qed.

Lemma filter_StronglySorted (R : Z -> Z -> Prop) (f : Z -> bool) (l : list Z) :
  StronglySorted R l -> StronglySorted R (List.filter f l).
Proof.
  induction 1 as [|x l Hs IH Hall]; [constructor|].
  cbn. destruct (f x); [|done]. constructor; [done|].
  apply Forall_forall. intros y Hy. rewrite Forall_forall in Hall.
  apply Hall. apply list_elem_of_In, List.filter_In in Hy as [Hy _].
  by apply list_elem_of_In.
Qed.

Lemma single_scan_filter_range `{Helper} config state x :
  In x (single_scan_filter config state) ->
  0 <= x < num_lines state /\ entry_matches config state x = true.
Proof.
  rewrite single_scan_filter_matches. intros Hx.
  apply In_matches in Hx. done.
Qed.

Section RefilterResult.
Context `{Helper} `{MenuReturn}.
Variables (config : Settings) (sched : list nat) (state : RofiViewState).
Hypothesis Htext : 0 < Z.of_nat (String.length (textbox.text (text state))).
Hypothesis Hn : 0 <= num_lines state.
Hypothesis Hov : num_lines state + MAX 1 (num_lines state / 500) < 2 ^ 32.
Hypothesis Hlm : Z.of_nat (length (line_map state)) = num_lines state.

(** The first block of [rofi_view_refilter] on a non-empty query. *)
Lemma refilter_line_map_nonempty :
  let scan := single_scan_filter config state in
  let mid := refilter_line_map config sched state in
  filtered_lines mid = Z.of_nat (length scan)
  /\ ((truthy (levenshtein_sort config) = true ->
       Z.of_nat (length scan) < 2 ^ 31) ->
      take (length scan) (line_map mid)
      = (if truthy (levenshtein_sort config)
         then msort_with_tmp (length scan) (lev_sort (distance mid)) scan
         else scan))
  /\ (truthy (levenshtein_sort config) = true ->
      Z.of_nat (length (distance state)) = num_lines state ->
      forall x, In x scan -> aget (distance mid) x = entry_distance state x).
Proof.
  intros scan mid. subst mid. unfold refilter_line_map.
  destruct (Z.ltb_spec 0 (Z.of_nat (String.length (textbox.text (text state)))));
    [|lia].
  assert (Hrange : 0 <= num_lines state < 2 ^ 32).
  { pose proof (chunk_sizes _ Hn Hov). cbv zeta in *. lia. }
  destruct (filter_pass_spec config sched state Hrange Hlm Hov)
    as (Hj & Htake & _ & _ & _ & Hdist).
  fold scan in Hj, Htake, Hdist.
  destruct (filter_pass config sched state) as [j s]. cbn [fst snd] in *.
  cbv zeta. destruct (truthy (levenshtein_sort config));
    cbn [filtered_lines line_map distance set_filtered_lines set_line_map].
  - split; [done|]. split; [|done]. intros Hsmall.
    unfold g_qsort_with_data. rewrite s32_small by lia.
    rewrite Hj, Nat2Z.id, Htake.
    apply take_app_length'.
    by rewrite (Permutation_length (msort_with_tmp_perm _ _ _)).
  - done.
Qed.
End RefilterResult.

(** C1. On a non-empty query, whatever the order in which the chunk tasks
    run and interleave, the filter pass (every task packing its matches at
    the front of its slice of [line_map], then the compaction by [memmove]
    in chunk order) leaves in [line_map] exactly the list that one scan of
    [0, num_lines) from left to right keeps. The same holds for every other
    cut of the array into chunks that covers it. With ranking off, the
    filtered index list that [rofi_view_refilter] returns is that list, which
    ascends strictly and is a subsequence of [0, num_lines). The sizes are
    those for which the chunk arithmetic does not wrap. *)
Theorem refilter_equals_single_scan `{Helper} `{MenuReturn}
    (config : Settings) (sched : list nat) (state : RofiViewState) :
  0 < Z.of_nat (String.length (textbox.text (text state))) ->
  0 <= num_lines state ->
  num_lines state + MAX 1 (num_lines state / 500) < 2 ^ 32 ->
  Z.of_nat (length (line_map state)) = num_lines state ->
  let scan := single_scan_filter config state in
  let pass := filter_pass config sched state in
  take (Z.to_nat pass.1) (line_map pass.2) = scan
  /\ (forall sched' nt steps,
        1 <= steps -> 0 <= nt -> num_lines state <= nt * steps < 2 ^ 32 ->
        let tok := tokenize (textbox.text (text state)) (case_sensitive config) in
        let res := filter_chunks config sched' state tok nt steps in
        take (Z.to_nat res.1) (line_map res.2) = scan)
  /\ (truthy (levenshtein_sort config) = false ->
      filtered_list (rofi_view_refilter config sched state) = scan)
  /\ StronglySorted Z.lt scan
  /\ scan `sublist_of` seqZ 0 (num_lines state).
Proof.
  intros Htext Hn Hov Hlm scan pass. subst pass.
  assert (Hrange : 0 <= num_lines state < 2 ^ 32).
  { pose proof (chunk_sizes _ Hn Hov). cbv zeta in *. lia. }
  split; [|split; [|split; [|split]]].
  - destruct (filter_pass_spec config sched state Hrange Hlm Hov) as (Hj & Htake & _).
    fold scan in Hj, Htake. by rewrite Hj, Nat2Z.id.
  - intros sched' nt steps Hsteps Hnt Hcov tok res. subst res.
    destruct (filter_chunks_spec config sched' state Hrange Hlm tok nt steps
                Hsteps Hnt Hcov) as (Hj & Htake & _).
    rewrite Hj, Nat2Z.id, Htake. subst scan.
    by rewrite single_scan_filter_matches.
  - intros Hoff.
    destruct (refilter_fields config sched state) as (Hl & _ & Hfl & _).
    destruct (refilter_line_map_nonempty config sched state Htext Hn Hov Hlm)
      as (Hfl' & Htake & _).
    unfold filtered_list. rewrite Hl, Hfl, Hfl', Nat2Z.id, Htake.
    + by rewrite Hoff.
    + by rewrite Hoff.
  - subst scan. rewrite single_scan_filter_matches. apply matches_sorted.
  - apply filter_sublist.
Qed.

(** On indices below 2^31 whose cached distances are non-negative [int]s,
    [lev_sort] compares the cached distances. *)
Lemma lev_sort_agrees (dist : list Z) (a b : Z) :
  0 <= a < 2 ^ 31 -> 0 <= b < 2 ^ 31 ->
  0 <= aget dist a < 2 ^ 31 -> 0 <= aget dist b < 2 ^ 31 ->
  (lev_sort dist a b <=? 0) = (aget dist a <=? aget dist b).
Proof.
  intros Ha Hb Hda Hdb. unfold lev_sort.
  rewrite (s32_small a), (s32_small b) by lia.
  rewrite s32_small by lia.
  destruct (Z.leb_spec (aget dist a - aget dist b) 0),
    (Z.leb_spec (aget dist a) (aget dist b)); try done; lia.
Qed.

(** C2. With ranking on, after a filter pass on a non-empty query the
    filtered index list is ordered by ascending cached distance, and entries
    of equal distance stand in the order of the entry source: every entry of
    the list is ranked before all those behind it. The list holds the same
    entries as the single scan, and the cached distance of each is the edit
    distance between the query and its completion text. The sizes and
    distances are those that fit the [int]s [lev_sort] computes with. *)
Theorem refilter_ranks_by_distance `{Helper} `{MenuReturn}
    (config : Settings) (sched : list nat) (state : RofiViewState) :
  truthy (levenshtein_sort config) = true ->
  0 < Z.of_nat (String.length (textbox.text (text state))) ->
  0 <= num_lines state < 2 ^ 31 ->
  Z.of_nat (length (line_map state)) = num_lines state ->
  Z.of_nat (length (distance state)) = num_lines state ->
  (forall i, 0 <= i < num_lines state ->
     0 <= levenshtein (textbox.text (text state))
            (mode_get_completion (sw state) i) < 2 ^ 31) ->
  let state' := rofi_view_refilter config sched state in
  StronglySorted (ranked_before (distance state')) (filtered_list state')
  /\ filtered_list state' ≡ₚ single_scan_filter config state
  /\ Forall (fun i =>
               aget (distance state') i
               = levenshtein (textbox.text (text state))
                   (mode_get_completion (sw state) i))
       (filtered_list state').
Proof.
  intros Hon Htext Hn Hlm Hdl Hlev state'. subst state'.
  assert (Hov : num_lines state + MAX 1 (num_lines state / 500) < 2 ^ 32).
  { rewrite MAX_spec.
    pose proof (Z.div_le_upper_bound (num_lines state) 500 (num_lines state)
                  ltac:(lia) ltac:(lia)). lia. }
  set (scan := single_scan_filter config state).
  assert (Hscan : forall x, In x scan -> 0 <= x < num_lines state).
  { intros x Hx. by apply single_scan_filter_range in Hx as [? _]. }
  assert (Hlen : Z.of_nat (length scan) <= num_lines state).
  { subst scan. rewrite single_scan_filter_matches.
    pose proof (matches_length
                  (matcher config
                     (tokenize (textbox.text (text state)) (case_sensitive config))
                     state) 0 (num_lines state)). lia. }
  destruct (refilter_fields config sched state) as (Hl & Hd & Hfl & _).
  destruct (refilter_line_map_nonempty config sched state Htext
              ltac:(lia) Hov Hlm) as (Hfl' & Htake & Hdist).
  fold scan in Hfl', Htake, Hdist. specialize (Hdist Hon Hdl).
  specialize (Htake ltac:(lia)).
  set (mid := refilter_line_map config sched state) in *.
  unfold filtered_list. rewrite Hl, Hd, Hfl, Hfl', Nat2Z.id, Htake, Hon.
  set (dist := distance mid) in *.
  assert (Hcached : forall x, In x scan ->
            aget dist x
            = levenshtein (textbox.text (text state))
                (mode_get_completion (sw state) x)).
  { intros x Hx. rewrite (Hdist x Hx). unfold entry_distance.
    apply s32_small. specialize (Hlev x (Hscan x Hx)). lia. }
  assert (Hag : forall a b, In a scan -> In b scan ->
            (lev_sort dist a b <=? 0) = (aget dist a <=? aget dist b)).
  { intros a b Ha Hb. apply lev_sort_agrees.
    - specialize (Hscan a Ha). lia.
    - specialize (Hscan b Hb). lia.
    - rewrite (Hcached a Ha). by apply Hlev, Hscan.
    - rewrite (Hcached b Hb). by apply Hlev, Hscan. }
  destruct (msort_with_tmp_spec (lev_sort dist) (aget dist) (length scan) scan
              ltac:(lia) Hag) as [Hsorted Hstable].
  pose proof (msort_with_tmp_perm (lev_sort dist) (length scan) scan) as Hperm.
  split; [|split].
  - apply by_key_then_value; [done|].
    intros k. rewrite Hstable. apply filter_StronglySorted.
    subst scan. rewrite single_scan_filter_matches. apply matches_sorted.
  - done.
  - apply Forall_forall. intros x Hx. apply Hcached.
    apply list_elem_of_In in Hx. by apply (Permutation_in _ Hperm).
Qed.

(** C7. When auto-select is configured, the entry source has more than one
    entry and the filter pass leaves exactly one candidate, the call of
    [rofi_view_refilter] itself ends the session: [quit] is set, the outcome
    is [MENU_OK], the selection is 0 and [selected_line] is
    [line_map[selected]], the index of the one entry that matches. *)
Theorem auto_select_accepts `{Helper} `{MenuReturn}
    (config : Settings) (sched : list nat) (state : RofiViewState) :
  auto_select config = TRUE ->
  1 < num_lines state ->
  num_lines state + MAX 1 (num_lines state / 500) < 2 ^ 32 ->
  Z.of_nat (length (line_map state)) = num_lines state ->
  0 <= selected state ->
  let state' := rofi_view_refilter config sched state in
  filtered_lines state' = 1 ->
  quit state' = TRUE /\ retv state' = MENU_OK
  /\ selected state' = 0
  /\ selected_line state' = aget (line_map state') (selected state')
  /\ single_scan_filter config state = [selected_line state'].
Proof.
  intros Hauto Hn Hov Hlm Hsel state' Hone. subst state'.
  destruct (refilter_fields config sched state)
    as (Hl & _ & Hfl & Hs & Hq & Hr & Hsl).
  destruct (refilter_line_map_frame config sched state)
    as (Hsel' & Hnl & _).
  rewrite Hfl in Hone.
  assert (Htext : 0 < Z.of_nat (String.length (textbox.text (text state)))).
  { destruct (0 <? Z.of_nat (String.length (textbox.text (text state)))) eqn:E;
      [by apply Z.ltb_lt|].
    unfold refilter_line_map in Hone. rewrite E in Hone. cbn in Hone. lia. }
  destruct (refilter_line_map_nonempty config sched state Htext
              ltac:(lia) Hov Hlm) as (Hfl' & Htake & _).
  rewrite Hone in Hfl'. specialize (Htake ltac:(lia)).
  set (mid := refilter_line_map config sched state) in *.
  set (scan := single_scan_filter config state) in *.
  rewrite Hone, Hnl, Hauto, Hsel' in *.
  assert (Hauto' : (TRUE =? TRUE) && (1 =? 1) && (num_lines state >? 1) = true).
  { destruct (Z.gtb_spec (num_lines state) 1); [done|lia]. }
  rewrite Hauto' in *.
  assert (Hsel0 : selected (rofi_view_refilter config sched state) = 0).
  { rewrite Hs. change (1 >? 0) with true. cbv iota.
    change (u32 (1 - 1)) with 0. rewrite MIN_spec. lia. }
  rewrite Hsel0 in *. rewrite <- Hs in Hsl.
  clearbody scan.
  destruct scan as [|x [|y rest]]; [cbn in Hfl'; lia| |cbn in Hfl'; lia].
  assert (Hx : take 1 (line_map mid) = [x]).
  { cbn [length] in Htake. rewrite Htake. by destruct (truthy _). }
  assert (Hget : aget (line_map mid) 0 = x).
  { destruct (line_map mid) as [|z lm]; [done|]. cbn in Hx. by injection Hx. }
  repeat split; try done.
  - by rewrite Hl.
  - by rewrite Hsl, Hget.
Qed.

(** ** The layout *)

(** The padded quotient of the source is the ceiling of the quotient. *)
Lemma padded_div_ceil a b :
  0 <= a -> 0 < b -> (a + (b - a mod b) mod b) / b = ceil_div a b.
Proof.
  intros Ha Hb. unfold ceil_div.
  pose proof (Z.mod_pos_bound a b Hb) as Hr.
  pose proof (Z.div_mod a b ltac:(lia)) as Hdm.
  destruct (decide (a mod b = 0)) as [Hz|Hnz].
  - rewrite Hz, Z.sub_0_r, Z.mod_same, Z.add_0_r by lia.
    apply (Z.div_unique _ _ _ (b - 1)); lia.
  - rewrite (Z.mod_small (b - a mod b)) by lia.
    transitivity (a / b + 1).
    + symmetry. apply (Z.div_unique _ _ _ 0); lia.
    + apply (Z.div_unique _ _ _ (a mod b - 1)); lia.
Qed.

(** C5, as stated, fails: with a hundred entries of which ten are
    candidates, one column and a window of fifteen lines, the layout has
    fifteen rows. That is neither the ten that
    [max(1, ceil(filtered_lines / columns))] gives nor the hundred that the
    same formula gives on the number of entries. *)
Lemma layout_rows_counterexample :
  fixed_num_lines example_config <> TRUE
  /\ filtered_lines hundred_entries = 10
  /\ num_lines hundred_entries = 100
  /\ exists state',
       rofi_view_calculate_rows_columns example_config hundred_entries
       = Some state'
       /\ max_rows state' = 15
       /\ Z.max 1 (ceil_div (filtered_lines state') (columns state')) = 10
       /\ Z.max 1 (ceil_div (num_lines state') (columns state')) = 100
       /\ max_rows state'
          <> Z.max 1 (ceil_div (filtered_lines state') (columns state')).
Proof.
  split; [done|]. split; [done|]. split; [done|].
  eexists. split; [reflexivity|]. done.
Qed.

(** C5, amended. For at least one configured column and sizes that do not
    wrap, the layout computation succeeds. When the number of lines is not
    fixed, [columns] is the configured count and [max_rows] is
    [max(1, min(menu_lines, ceil(num_lines / columns)))]: the ceiling is
    taken of the number of entries of the source, not of the filtered count,
    and is capped by the lines of the window. When the number of lines is
    fixed, [max_rows] is [menu_lines], and [columns] is
    [max(1, ceil(num_lines / menu_lines))] if the entries do not fill the
    configured columns and the configured count otherwise. *)
Theorem layout_rows_columns (config : Settings) (state : RofiViewState) :
  1 <= menu_columns config < 2 ^ 31 ->
  0 <= menu_lines state < 2 ^ 31 ->
  0 <= num_lines state < 2 ^ 31 ->
  menu_lines state * menu_columns config < 2 ^ 32 ->
  exists state',
    rofi_view_calculate_rows_columns config state = Some state'
    /\ (fixed_num_lines config <> TRUE ->
        columns state' = menu_columns config
        /\ max_rows state'
           = Z.max 1 (Z.min (menu_lines state)
                        (ceil_div (num_lines state) (menu_columns config))))
    /\ (fixed_num_lines config = TRUE ->
        max_rows state' = menu_lines state
        /\ columns state'
           = if num_lines state <? menu_lines state * menu_columns config
             then Z.max 1 (ceil_div (num_lines state) (menu_lines state))
             else menu_columns config).
Proof.
  intros Hc Hl Hn Hprod. unfold rofi_view_calculate_rows_columns.
  cbn [columns menu_lines num_lines max_rows max_elements
       set_columns set_max_elements set_max_rows].
  destruct (Z.eqb_spec (menu_columns config) 0) as [?|_]; [lia|].
  assert (Hpad : forall b, 0 < b < 2 ^ 31 ->
            u32 (num_lines state + u32 (b - num_lines state mod b) mod b) / b
            = ceil_div (num_lines state) b).
  { intros b Hb.
    pose proof (Z.mod_pos_bound (num_lines state) b ltac:(lia)) as Hr.
    rewrite (u32_small (b - _)) by lia.
    pose proof (Z.mod_pos_bound (b - num_lines state mod b) b ltac:(lia)) as Hp.
    rewrite u32_small by lia. apply padded_div_ceil; lia. }
  rewrite (Hpad (menu_columns config)) by lia.
  rewrite (u32_small (menu_lines state * menu_columns config)) by nia.
  destruct (Z.eqb_spec (fixed_num_lines config) TRUE) as [Hfix|Hfix].
  - destruct (Z.ltb_spec (num_lines state)
                (menu_lines state * menu_columns config)) as [Hlt|Hge];
      cbn [columns menu_lines num_lines max_rows max_elements
           set_columns set_max_elements set_max_rows].
    + assert (Hml : 0 < menu_lines state) by nia.
      rewrite (Hpad (menu_lines state)) by lia.
      assert (Hceil : 0 <= ceil_div (num_lines state) (menu_lines state)).
      { unfold ceil_div. apply Z.div_pos; lia. }
      destruct (Z.eqb_spec (ceil_div (num_lines state) (menu_lines state)) 0)
        as [Hz|Hnz]; eexists; (split; [reflexivity|]);
        (split; [done|]); intros _; cbn; split; try done; lia.
    + destruct (Z.eqb_spec (menu_columns config) 0); [lia|].
      eexists. split; [reflexivity|]. split; [done|]. intros _. done.
  - eexists. split; [reflexivity|]. split; [|done]. intros _.
    cbn. split; [done|]. rewrite MAX_spec, MIN_spec. done.
Qed.

(** ** drun's matcher *)

Section DRunProofs.
Context `{Helper}.
Variables (e : DRunModeEntry) (not_ascii case_sensitive : Z).

Lemma truthy_true z : truthy z = true <-> z <> 0.
Proof. unfold truthy. destruct (Z.eqb_spec z 0); cbn; split; done. Qed.

(** The three guarded tests succeed when some present field satisfies
    the token. *)
Lemma drun_test_token_spec tok :
  (drun_test_token e tok not_ascii case_sensitive = 0
   \/ drun_test_token e tok not_ascii case_sensitive = 1)
  /\ (drun_test_token e tok not_ascii case_sensitive <> 0 <->
      exists field, field ∈ entry_fields e
                    /\ field_satisfies tok field not_ascii case_sensitive).
Proof.
  assert (Hfields : (exists field, field ∈ entry_fields e
                       /\ field_satisfies tok field not_ascii case_sensitive)
            <-> (match name e with
                 | Some n => field_satisfies tok n not_ascii case_sensitive
                 | None => False
                 end
                 \/ match generic_name e with
                    | Some gn => field_satisfies tok gn not_ascii case_sensitive
                    | None => False
                    end
                 \/ field_satisfies tok (exec e) not_ascii case_sensitive)).
  { unfold entry_fields. split.
    - intros (f & Hin & Hs).
      apply elem_of_app in Hin as [Hin|Hin];
        [|apply elem_of_app in Hin as [Hin|Hin]].
      + destruct (name e); [|by apply elem_of_nil in Hin].
        apply list_elem_of_singleton in Hin as ->. by left.
      + destruct (generic_name e); [|by apply elem_of_nil in Hin].
        apply list_elem_of_singleton in Hin as ->. right. by left.
      + apply list_elem_of_singleton in Hin as ->. right. by right.
    - intros [Hn|[Hg|Hx]].
      + destruct (name e) as [n|]; [|done]. exists n. split; [|done].
        apply elem_of_app. left. by apply list_elem_of_singleton.
      + destruct (generic_name e) as [gn|]; [|done]. exists gn. split; [|done].
        apply elem_of_app. right. apply elem_of_app. left.
        by apply list_elem_of_singleton.
      + exists (exec e). split; [|done].
        apply elem_of_app. right. apply elem_of_app. right.
        by apply list_elem_of_singleton. }
  rewrite Hfields. unfold drun_test_token, field_satisfies.
  change (truthy 0) with false. cbn [negb andb].
  destruct (name e) as [n|], (generic_name e) as [gn|];
    repeat match goal with
           | |- context [truthy ?z] =>
               let E := fresh "E" in
               destruct (truthy z) eqn:E;
               [apply truthy_true in E
               |apply not_true_iff_false in E; rewrite truthy_true in E]
           end;
    cbn; (split; [auto|]); intuition lia.
Qed.

Lemma drun_token_loop_zero toks :
  drun_token_loop e toks not_ascii case_sensitive 0 = 0.
Proof. by destruct toks. Qed.

(** The loop keeps [match] at 1 as long as every token met is satisfied
    by some field. *)
Lemma drun_token_loop_spec toks :
  (drun_token_loop e toks not_ascii case_sensitive 1 = 0
   \/ drun_token_loop e toks not_ascii case_sensitive 1 = 1)
  /\ (drun_token_loop e toks not_ascii case_sensitive 1 <> 0 <->
      Forall (fun tok =>
                exists field, field ∈ entry_fields e
                  /\ field_satisfies tok field not_ascii case_sensitive) toks).
Proof.
  induction toks as [|tok toks IH]; [split; [by right|done]|].
  cbn [drun_token_loop]. change (truthy 1) with true. cbv iota.
  destruct (drun_test_token_spec tok) as [Hval Htest].
  destruct (Z.eqb_spec (drun_test_token e tok not_ascii case_sensitive) 0)
    as [Hz|Hnz].
  - rewrite drun_token_loop_zero. split; [by left|]. split; [done|].
    intros Hall. apply Forall_cons in Hall as [Htok _].
    apply Htest in Htok. done.
  - destruct IH as [IHval IH]. split; [done|]. rewrite IH, Forall_cons.
    split; [|tauto]. intros Hall. split; [|done]. by apply Htest.
Qed.
End DRunProofs.

(** C9. For an entry of the list and any token array, [drun_token_match]
    returns 0 or 1, and it returns 1 exactly when every token is satisfied
    by at least one of the text fields of the entry that are present (name,
    generic name, executable), each token by a field of its own choice. A
    NULL token array and an empty one match every entry. *)
Theorem drun_token_match_spec `{Helper} (rmpd : DRunModePrivateData)
    (tokens : tokens_t) (not_ascii case_sensitive index : Z)
    (e : DRunModeEntry) :
  0 <= index ->
  entry_list rmpd !! Z.to_nat index = Some e ->
  exists match_,
    drun_token_match rmpd tokens not_ascii case_sensitive index = Some match_
    /\ (match_ = 0 \/ match_ = 1)
    /\ (match_ = 1 <->
        match tokens with
        | Some toks =>
            Forall (fun tok =>
                      exists field, field ∈ entry_fields e
                        /\ field_satisfies tok field not_ascii case_sensitive)
              toks
        | None => True
        end)
    /\ (tokens = None \/ tokens = Some [] -> match_ = 1).
Proof.
  intros Hindex He. unfold drun_token_match.
  destruct (Z.ltb_spec index 0); [lia|]. rewrite He. cbn.
  destruct tokens as [toks|].
  - eexists. split; [reflexivity|].
    destruct (drun_token_loop_spec e not_ascii case_sensitive toks) as [Hval Hiff].
    split; [done|]. split.
    + rewrite <- Hiff. destruct Hval as [-> | ->]; split; done.
    + intros [?|Hnil]; [done|]. by injection Hnil as ->.
  - eexists. split; [reflexivity|]. split; [by right|]. done.
Qed.

(** ** Keyboard dispatch *)

Section DispatchProofs.
Context `{Helper} `{MenuReturn} `{KeyBindings} `{TextboxOps}.

Lemma custom_loop_no_action actions state key modstate :
  (forall a, abe_test_action a modstate key = 0) ->
  custom_loop actions state key modstate = state.
Proof.
  intros Hno. induction actions as [|a actions IH]; [done|].
  cbn [custom_loop]. by rewrite Hno.
Qed.

Lemma keyboard_navigation_no_action state key modstate :
  (forall a, abe_test_action a modstate key = 0) ->
  rofi_view_keyboard_navigation state key modstate
  = Some (0, set_prev_key key state).
Proof.
  intros Hno. unfold rofi_view_keyboard_navigation. by rewrite !Hno.
Qed.

(** A key that no binding claims reaches the entry box. *)
Lemma key_press_no_action config state key pad modstate :
  (forall a, abe_test_action a modstate key = 0) ->
  exists state0,
    (state0 = state \/ state0 = set_prev_key key state)
    /\ key_press config state key pad modstate
       = Some (config, entry_box_keypress state0 pad modstate key).
Proof.
  intros Hno. unfold key_press.
  destruct (negb (key =? XKB_KEY_NoSymbol)).
  - rewrite !Hno. cbn [truthy Z.eqb negb andb].
    rewrite custom_loop_no_action by done.
    rewrite keyboard_navigation_no_action by done. cbn.
    exists (set_prev_key key state). split; [by right|done].
  - exists state. split; [by left|done].
Qed.

(** The row-tab key pressed while no candidate is left and the recorded
    key is another one: the key is consumed, nothing changes and the key
    is not recorded, so the next press of it finds the same state. *)
Lemma row_tab_not_recorded state key modstate :
  abe_test_action CANCEL modstate key = 0 ->
  abe_test_action ROW_UP modstate key = 0 ->
  abe_test_action ROW_TAB modstate key <> 0 ->
  filtered_lines state = 0 -> key <> prev_key state ->
  rofi_view_keyboard_navigation state key modstate = Some (1, state).
Proof.
  intros Hc Hu Ht Hf Hk. unfold rofi_view_keyboard_navigation.
  rewrite Hc, Hu. cbn [truthy Z.eqb negb].
  apply truthy_true in Ht. rewrite Ht, Hf. cbn [Z.eqb andb].
  destruct (Z.eqb_spec key (prev_key state)); [done|].
  unfold rofi_view_nav_down. by rewrite Hf.
Qed.

(** The test of the row-tab rule as it is written: no candidate left and
    the key equal to the recorded one end the session with [MENU_NEXT]. *)
Lemma row_tab_on_recorded_key state key modstate :
  abe_test_action CANCEL modstate key = 0 ->
  abe_test_action ROW_UP modstate key = 0 ->
  abe_test_action ROW_TAB modstate key <> 0 ->
  filtered_lines state = 0 -> key = prev_key state ->
  exists state',
    rofi_view_keyboard_navigation state key modstate = Some (1, state')
    /\ retv state' = MENU_NEXT /\ quit state' = TRUE
    /\ selected_line state' = 0.
Proof.
  intros Hc Hu Ht Hf Hk. unfold rofi_view_keyboard_navigation.
  rewrite Hc, Hu. cbn [truthy Z.eqb negb].
  apply truthy_true in Ht. rewrite Ht, Hf, Hk. cbn [Z.eqb andb].
  rewrite Z.eqb_refl. eexists. split; [reflexivity|]. done.
Qed.
End DispatchProofs.

(** C8. An accept ([rc < 0] from the entry box) on a key that no binding
    claims, in a running session with no filter pass pending, ends the
    session. With a valid selection ([selected < filtered_lines]) the outcome
    is [MENU_OK] and [selected_line] is the source index
    [line_map[selected]]; otherwise the outcome is [MENU_CUSTOM_INPUT], with
    no index ([UINT32_MAX]) and the query text as the entry box holds it. In
    both cases [MENU_CUSTOM_ACTION] is or-ed in exactly when the accept is
    the variant with the auxiliary modifier ([rc == -2]); when the flag is a
    bit of its own, it is set in the custom-text outcome if and only if
    [rc == -2]. There is no failing case. *)
Theorem accept_outcome `{Helper} `{MenuReturn} `{KeyBindings} `{TextboxOps}
    (config : Settings) (sched : list nat) (state : RofiViewState)
    (key : Z) (pad : string) (modstate rc : Z) (tb : textbox.t) :
  (forall a, abe_test_action a modstate key = 0) ->
  quit state = FALSE -> refilter state = FALSE ->
  textbox_keypress (text state) pad modstate key = (rc, tb) -> rc < 0 ->
  exists state',
    rofi_view_mainloop_iter config sched state key pad modstate
    = Some (config, state')
    /\ quit state' = TRUE /\ text state' = tb
    /\ (if selected state <? filtered_lines state
        then selected_line state' = aget (line_map state) (selected state)
             /\ retv state'
                = (if rc =? -2 then Z.lor MENU_OK MENU_CUSTOM_ACTION else MENU_OK)
        else selected_line state' = UINT32_MAX
             /\ retv state'
                = (if rc =? -2 then Z.lor MENU_CUSTOM_INPUT MENU_CUSTOM_ACTION
                   else MENU_CUSTOM_INPUT)
             /\ (Z.land MENU_CUSTOM_INPUT MENU_CUSTOM_ACTION = 0 ->
                 MENU_CUSTOM_ACTION <> 0 ->
                 (Z.land (retv state') MENU_CUSTOM_ACTION <> 0 <-> rc = -2))).
Proof.
  intros Hno Hquit Hrefilter Hkp Hrc. unfold rofi_view_mainloop_iter.
  destruct (key_press_no_action config state key pad modstate Hno)
    as (state0 & Hstate0 & ->).
  cbn [mbind option_bind].
  assert (Hsame : quit state0 = quit state /\ refilter state0 = refilter state
                  /\ text state0 = text state /\ selected state0 = selected state
                  /\ filtered_lines state0 = filtered_lines state
                  /\ line_map state0 = line_map state).
  { by destruct Hstate0 as [-> | ->]. }
  destruct Hsame as (Hq & Hr & Ht & Hs & Hf & Hl).
  unfold entry_box_keypress.
  rewrite Hq, Hquit, Ht, Hkp. change (truthy FALSE) with false. cbv iota.
  destruct (Z.ltb_spec rc 0); [|lia].
  cbn [selected filtered_lines line_map retv set_text set_selected_line set_retv].
  rewrite Hs, Hf, Hl.
  assert (Hflag : forall base,
            Z.land base MENU_CUSTOM_ACTION = 0 -> MENU_CUSTOM_ACTION <> 0 ->
            Z.land (if rc =? -2 then Z.lor base MENU_CUSTOM_ACTION else base)
              MENU_CUSTOM_ACTION <> 0 <-> rc = -2).
  { intros base Hdisj Hbit. destruct (Z.eqb_spec rc (-2)) as [Heq|Hne].
    - rewrite Z.land_lor_distr_l, Hdisj, Z.land_diag, Z.lor_0_l. done.
    - rewrite Hdisj. done. }
  destruct (selected state <? filtered_lines state), (Z.eqb_spec rc (-2));
    cbn [refilter set_quit set_retv set_selected_line set_text];
    rewrite Hr, Hrefilter; change (truthy FALSE) with false; cbv iota;
    unfold rofi_view_update;
    cbn [update set_quit set_retv set_selected_line set_text];
    (eexists; split; [reflexivity|]);
    destruct (truthy (update state0)); try destruct (_ >? _);
    cbn [quit text selected_line retv set_update set_rchanged set_quit
         set_retv set_selected_line set_text];
    (split; [done|]); (split; [done|]); (split; [done|]); try done;
    (split; [done|]); apply Hflag.
Qed.

(** C6, on the code. Three entries, the query "zz" typed, no candidate left,
    [z] the last key recorded; Tab is the row-tab key. The first press of
    Tab is consumed by the row-tab rule, which returns before the key is
    recorded; the second press therefore finds the same recorded key, is not
    taken for a double press and leaves the session running. *)
Theorem double_tab_not_detected :
  let iter :=
    rofi_view_mainloop_iter (H := example_helper) (H0 := rofi_menu_return)
      (H1 := example_bindings) (H2 := example_textbox) example_config [] in
  filtered_lines no_match_state = 0
  /\ quit no_match_state = FALSE
  /\ abe_test_action (KeyBindings := example_bindings) ROW_TAB 0 XKB_KEY_Tab = 1
  /\ exists state1 state2,
       iter no_match_state XKB_KEY_Tab ""%string 0 = Some (example_config, state1)
       /\ iter state1 XKB_KEY_Tab ""%string 0 = Some (example_config, state2)
       /\ prev_key state1 = XKB_KEY_z
       /\ quit state1 = FALSE
       /\ quit state2 = FALSE
       /\ retv state2 <> MENU_NEXT (MenuReturn := rofi_menu_return).
Proof.
  cbv zeta. split; [reflexivity|]. split; [reflexivity|]. split; [reflexivity|].
  eexists. eexists. split; [vm_compute; reflexivity|].
  split; [vm_compute; reflexivity|]. repeat split. discriminate.
Qed.

(** ** The statements on concrete inputs *)

(** C1 on a thousand entries cut into two chunks whose tasks interleave. *)
Lemma refilter_equals_single_scan_witness :
  0 < Z.of_nat (String.length (textbox.text (text thousand_entries)))
  /\ 0 <= num_lines thousand_entries
  /\ num_lines thousand_entries
     + MAX 1 (num_lines thousand_entries / 500) < 2 ^ 32
  /\ Z.of_nat (length (line_map thousand_entries)) = num_lines thousand_entries
  /\ filtered_list
       (rofi_view_refilter (H := example_helper) (H0 := rofi_menu_return)
          example_config [1; 0; 1; 1; 0]%nat thousand_entries)
     = single_scan_filter (H := example_helper) example_config thousand_entries.
Proof.
  assert (H1 : 0 < Z.of_nat (String.length (textbox.text (text thousand_entries))))
    by (vm_compute; reflexivity).
  assert (H2 : 0 <= num_lines thousand_entries) by (vm_compute; discriminate).
  assert (H3 : num_lines thousand_entries
               + MAX 1 (num_lines thousand_entries / 500) < 2 ^ 32)
    by (vm_compute; reflexivity).
  assert (H4 : Z.of_nat (length (line_map thousand_entries))
               = num_lines thousand_entries) by (vm_compute; reflexivity).
  do 4 (split; [assumption|]).
  destruct (refilter_equals_single_scan (H := example_helper)
              (H0 := rofi_menu_return) example_config [1; 0; 1; 1; 0]%nat
              thousand_entries H1 H2 H3 H4) as (_ & _ & Hoff & _).
  apply Hoff. reflexivity.
Defined.

(** C2 on the entries at distances 2, 2, 1, 3: the ranked list is
    [2; 0; 1; 3]. *)
Lemma refilter_ranks_by_distance_witness :
  truthy (levenshtein_sort ranking_config) = true
  /\ 0 < Z.of_nat (String.length (textbox.text (text ranked_entries)))
  /\ 0 <= num_lines ranked_entries < 2 ^ 31
  /\ Z.of_nat (length (line_map ranked_entries)) = num_lines ranked_entries
  /\ Z.of_nat (length (distance ranked_entries)) = num_lines ranked_entries
  /\ (forall i, 0 <= i < num_lines ranked_entries ->
        0 <= levenshtein (Helper := example_helper)
               (textbox.text (text ranked_entries))
               (mode_get_completion (sw ranked_entries) i) < 2 ^ 31)
  /\ filtered_list
       (rofi_view_refilter (H := example_helper) (H0 := rofi_menu_return)
          ranking_config [] ranked_entries) = [2; 0; 1; 3]
  /\ StronglySorted
       (ranked_before
          (distance
             (rofi_view_refilter (H := example_helper) (H0 := rofi_menu_return)
                ranking_config [] ranked_entries)))
       (filtered_list
          (rofi_view_refilter (H := example_helper) (H0 := rofi_menu_return)
             ranking_config [] ranked_entries)).
Proof.
  assert (H1 : truthy (levenshtein_sort ranking_config) = true) by reflexivity.
  assert (H2 : 0 < Z.of_nat (String.length (textbox.text (text ranked_entries))))
    by (vm_compute; reflexivity).
  assert (H3 : 0 <= num_lines ranked_entries < 2 ^ 31)
    by (vm_compute; split; [discriminate|reflexivity]).
  assert (H4 : Z.of_nat (length (line_map ranked_entries))
               = num_lines ranked_entries) by (vm_compute; reflexivity).
  assert (H5 : Z.of_nat (length (distance ranked_entries))
               = num_lines ranked_entries) by (vm_compute; reflexivity).
  assert (H6 : forall i, 0 <= i < num_lines ranked_entries ->
             0 <= levenshtein (Helper := example_helper)
                    (textbox.text (text ranked_entries))
                    (mode_get_completion (sw ranked_entries) i) < 2 ^ 31).
  { intros i Hi. change (num_lines ranked_entries) with 5 in Hi.
    assert (Hcases : i = 0 \/ i = 1 \/ i = 2 \/ i = 3 \/ i = 4) by lia.
    destruct Hcases as [-> | [-> | [-> | [-> | ->]]]];
      vm_compute; (split; [discriminate|reflexivity]). }
  do 6 (split; [assumption|]).
  split; [vm_compute; reflexivity|].
  apply (refilter_ranks_by_distance (H := example_helper)
           (H0 := rofi_menu_return) ranking_config [] ranked_entries
           H1 H2 H3 H4 H5 H6).
Defined.

(** C3 on three candidates and a selection of 7: it is clamped to 2, the
    last candidate. *)
Lemma refilter_clamps_selection_witness :
  0 <= selected three_entries
  /\ 0 <= num_lines three_entries < 2 ^ 32
  /\ selected three_entries = 7
  /\ filtered_lines
       (rofi_view_refilter (H := example_helper) (H0 := rofi_menu_return)
          example_config [] three_entries) = 3
  /\ selected
       (rofi_view_refilter (H := example_helper) (H0 := rofi_menu_return)
          example_config [] three_entries) = 2.
Proof.
  assert (H1 : 0 <= selected three_entries) by (vm_compute; discriminate).
  assert (H2 : 0 <= num_lines three_entries < 2 ^ 32)
    by (vm_compute; split; [discriminate|reflexivity]).
  split; [assumption|]. split; [assumption|]. split; [reflexivity|].
  split; [vm_compute; reflexivity|].
  destruct (refilter_clamps_selection (H := example_helper)
              (H0 := rofi_menu_return) example_config [] three_entries H1 H2)
    as (Hclamp & _).
  rewrite Hclamp. vm_compute. reflexivity.
Defined.

(** C5, amended, on the hundred entries: fifteen rows. *)
Lemma layout_rows_columns_witness :
  1 <= menu_columns example_config < 2 ^ 31
  /\ 0 <= menu_lines hundred_entries < 2 ^ 31
  /\ 0 <= num_lines hundred_entries < 2 ^ 31
  /\ menu_lines hundred_entries * menu_columns example_config < 2 ^ 32
  /\ exists state',
       rofi_view_calculate_rows_columns example_config hundred_entries
       = Some state'
       /\ max_rows state' = 15.
Proof.
  assert (H1 : 1 <= menu_columns example_config < 2 ^ 31)
    by (vm_compute; split; [discriminate|reflexivity]).
  assert (H2 : 0 <= menu_lines hundred_entries < 2 ^ 31)
    by (vm_compute; split; [discriminate|reflexivity]).
  assert (H3 : 0 <= num_lines hundred_entries < 2 ^ 31)
    by (vm_compute; split; [discriminate|reflexivity]).
  assert (H4 : menu_lines hundred_entries * menu_columns example_config < 2 ^ 32)
    by (vm_compute; reflexivity).
  do 4 (split; [assumption|]).
  destruct (layout_rows_columns example_config hundred_entries H1 H2 H3 H4)
    as (state' & Hcalc & Hfree & _).
  exists state'. split; [exact Hcalc|].
  destruct Hfree as [_ ->]; [discriminate|]. vm_compute. reflexivity.
Defined.

(** C7 on the query "fire": entry 0 is accepted by the filter pass. *)
Lemma auto_select_accepts_witness :
  auto_select auto_select_config = TRUE
  /\ 1 < num_lines one_match
  /\ num_lines one_match + MAX 1 (num_lines one_match / 500) < 2 ^ 32
  /\ Z.of_nat (length (line_map one_match)) = num_lines one_match
  /\ 0 <= selected one_match
  /\ filtered_lines
       (rofi_view_refilter (H := example_helper) (H0 := rofi_menu_return)
          auto_select_config [] one_match) = 1
  /\ quit
       (rofi_view_refilter (H := example_helper) (H0 := rofi_menu_return)
          auto_select_config [] one_match) = TRUE
  /\ single_scan_filter (H := example_helper) auto_select_config one_match
     = [selected_line
          (rofi_view_refilter (H := example_helper) (H0 := rofi_menu_return)
             auto_select_config [] one_match)].
Proof.
  assert (H1 : auto_select auto_select_config = TRUE) by reflexivity.
  assert (H2 : 1 < num_lines one_match) by (vm_compute; reflexivity).
  assert (H3 : num_lines one_match + MAX 1 (num_lines one_match / 500) < 2 ^ 32)
    by (vm_compute; reflexivity).
  assert (H4 : Z.of_nat (length (line_map one_match)) = num_lines one_match)
    by (vm_compute; reflexivity).
  assert (H5 : 0 <= selected one_match) by (vm_compute; discriminate).
  assert (H6 : filtered_lines
                 (rofi_view_refilter (H := example_helper) (H0 := rofi_menu_return)
                    auto_select_config [] one_match) = 1)
    by (vm_compute; reflexivity).
  destruct (auto_select_accepts (H := example_helper) (H0 := rofi_menu_return)
              auto_select_config [] one_match H1 H2 H3 H4 H5 H6)
    as (Hquit & _ & _ & _ & Hscan).
  do 6 (split; [assumption|]). split; assumption.
Defined.

(** C8 on the single candidate of "fire" and the Return key: entry 0 is
    accepted. *)
Lemma accept_outcome_witness :
  (forall a, abe_test_action (KeyBindings := example_bindings) a 0 XKB_KEY_Return = 0)
  /\ quit one_candidate = FALSE
  /\ refilter one_candidate = FALSE
  /\ textbox_keypress (TextboxOps := example_textbox) (text one_candidate)
       ""%string 0 XKB_KEY_Return = (-1, text one_candidate)
  /\ -1 < 0
  /\ exists state',
       rofi_view_mainloop_iter (H := example_helper) (H0 := rofi_menu_return)
         (H1 := example_bindings) (H2 := example_textbox)
         example_config [] one_candidate XKB_KEY_Return ""%string 0
       = Some (example_config, state')
       /\ quit state' = TRUE.
Proof.
  assert (H1 : forall a,
             abe_test_action (KeyBindings := example_bindings) a 0 XKB_KEY_Return = 0)
    by (intros a; destruct a; reflexivity).
  assert (H2 : quit one_candidate = FALSE) by (vm_compute; reflexivity).
  assert (H3 : refilter one_candidate = FALSE) by (vm_compute; reflexivity).
  assert (H4 : textbox_keypress (TextboxOps := example_textbox) (text one_candidate)
                 ""%string 0 XKB_KEY_Return = (-1, text one_candidate))
    by (vm_compute; reflexivity).
  assert (H5 : -1 < 0) by reflexivity.
  do 5 (split; [assumption|]).
  destruct (accept_outcome (H := example_helper) (H0 := rofi_menu_return)
              (H1 := example_bindings) (H2 := example_textbox)
              example_config [] one_candidate XKB_KEY_Return ""%string 0 (-1)
              (text one_candidate) H1 H2 H3 H4 H5)
    as (state' & Hrun & Hquit & _).
  exists state'. split; assumption.
Defined.

(** C9 on one desktop entry: "Web" is found in the generic name and "fire"
    in the executable. *)
Lemma drun_token_match_spec_witness :
  0 <= 0
  /\ entry_list one_desktop_file !! Z.to_nat 0 = Some firefox_entry
  /\ drun_token_match (H := example_helper) one_desktop_file
       (Some ["Web"; "fire"]%string) 0 0 0 = Some 1.
Proof.
  assert (H1 : 0 <= 0) by reflexivity.
  assert (H2 : entry_list one_desktop_file !! Z.to_nat 0 = Some firefox_entry)
    by reflexivity.
  split; [assumption|]. split; [assumption|].
  destruct (drun_token_match_spec (H := example_helper) one_desktop_file
              (Some ["Web"; "fire"]%string) 0 0 0 firefox_entry H1 H2)
    as (m & Hm & _ & Hiff & _).
  rewrite Hm. f_equal. apply Hiff.
  repeat constructor.
  - exists "Web Browser"%string. split; [|vm_compute; discriminate].
    apply list_elem_of_further, list_elem_of_here.
  - exists "firefox %u"%string. split; [|vm_compute; discriminate].
    do 2 apply list_elem_of_further. apply list_elem_of_here.
Defined.

(** ** Selection moves on a selection in range *)

Lemma u32_s32 z : 0 <= z < 2 ^ 32 -> u32 (s32 z) = z.
Proof.
  intros Hz. unfold u32, s32.
  destruct (Z.lt_ge_cases z (2 ^ 31)).
  - rewrite (Z.mod_small (z + 2 ^ 31)) by lia.
    replace (z + 2 ^ 31 - 2 ^ 31) with z by lia. apply Z.mod_small. lia.
  - replace (z + 2 ^ 31) with (z - 2 ^ 31 + 1 * 2 ^ 32) by lia.
    rewrite Z.mod_add, (Z.mod_small (z - 2 ^ 31)) by lia.
    replace (z - 2 ^ 31 - 2 ^ 31) with (z + (-1) * 2 ^ 32) by lia.
    rewrite Z.mod_add by lia. apply Z.mod_small. lia.
Qed.

Lemma u32_nonneg z : 0 <= u32 z.
Proof. pose proof (u32_range z). lia. Qed.

(** X1. A selection inside a non-empty filtered list stays inside it under
    each of the eight moves, and the move to the right does not trap, as
    soon as there is at least one row. Nothing is asked of the size of a
    page or of a column: a sum that wraps around is caught by the
    comparison with [filtered_lines] that follows it. *)
Theorem nav_keeps_selection_in_range (state : RofiViewState) :
  0 <= selected state < filtered_lines state ->
  filtered_lines state < 2 ^ 32 ->
  1 <= max_rows state -> 0 <= max_elements state ->
  let inside state' := 0 <= selected state' < filtered_lines state in
  inside (rofi_view_nav_up state)
  /\ inside (rofi_view_nav_down state)
  /\ inside (rofi_view_nav_left state)
  /\ (exists state', rofi_view_nav_right state = Some state' /\ inside state')
  /\ inside (rofi_view_nav_page_prev state)
  /\ inside (rofi_view_nav_page_next state)
  /\ inside (rofi_view_nav_first state)
  /\ inside (rofi_view_nav_last state).
Proof.
  intros Hs Hf Hr He inside. subst inside. cbv beta.
  assert (Hlast : u32 (filtered_lines state - 1) = filtered_lines state - 1)
    by (apply u32_small; lia).
  refine (conj _ (conj _ (conj _ (conj _ (conj _ (conj _ (conj _ _))))))).
  - unfold rofi_view_nav_up.
    destruct (Z.eqb_spec (selected state) 0) as [Hz|Hz]; cbn [selected set_selected].
    + destruct (Z.gtb_spec (filtered_lines state) 0); [|lia].
      cbn. rewrite u32_small by lia. lia.
    + destruct (Z.gtb_spec (selected state) 0); [|lia].
      cbn. rewrite u32_small by lia. lia.
  - unfold rofi_view_nav_down.
    destruct (Z.eqb_spec (filtered_lines state) 0); [lia|].
    rewrite Hlast. cbn.
    destruct (Z.ltb_spec (selected state) (filtered_lines state - 1)); [|lia].
    rewrite MIN_spec, u32_small by lia. lia.
  - unfold rofi_view_nav_left.
    destruct (Z.geb_spec (selected state) (max_rows state)); [|lia].
    cbn. rewrite u32_small by lia. lia.
  - unfold rofi_view_nav_right.
    destruct (Z.eqb_spec (filtered_lines state) 0); [lia|].
    destruct (Z.ltb_spec (u32 (selected state + max_rows state))
                (filtered_lines state)).
    { eexists. split; [reflexivity|]. cbn.
      pose proof (u32_nonneg (selected state + max_rows state)). lia. }
    rewrite Hlast.
    destruct (Z.ltb_spec (selected state) (filtered_lines state - 1)).
    + destruct (Z.eqb_spec (max_rows state) 0); [lia|].
      destruct (negb _); eexists; (split; [reflexivity|]); cbn; lia.
    + eexists. split; [reflexivity|]. lia.
  - unfold rofi_view_nav_page_prev.
    destruct (Z.ltb_spec (selected state) (max_elements state)); cbn; [lia|].
    rewrite u32_small by lia. lia.
  - unfold rofi_view_nav_page_next.
    destruct (Z.eqb_spec (filtered_lines state) 0); [lia|].
    cbn [selected set_selected filtered_lines].
    destruct (Z.geb_spec (u32 (selected state + max_elements state))
                (filtered_lines state)); cbn.
    + rewrite Hlast. lia.
    + pose proof (u32_nonneg (selected state + max_elements state)). lia.
  - unfold rofi_view_nav_first. cbn. lia.
  - unfold rofi_view_nav_last.
    destruct (Z.eqb_spec (filtered_lines state) 0); [lia|].
    cbn. rewrite Hlast. lia.
Qed.

(** X2. On a selection in range, up and down undo each other, across the
    wrap-around at both ends of the list as well. *)
Theorem nav_up_down_inverse (state : RofiViewState) :
  0 <= selected state < filtered_lines state ->
  filtered_lines state < 2 ^ 32 ->
  selected (rofi_view_nav_down (rofi_view_nav_up state)) = selected state
  /\ selected (rofi_view_nav_up (rofi_view_nav_down state)) = selected state.
Proof.
  intros Hs Hf.
  assert (Hlast : u32 (filtered_lines state - 1) = filtered_lines state - 1)
    by (apply u32_small; lia).
  split.
  - unfold rofi_view_nav_up.
    destruct (Z.eqb_spec (selected state) 0) as [Hz|Hz]; cbn [selected set_selected].
    + destruct (Z.gtb_spec (filtered_lines state) 0); [|lia].
      unfold rofi_view_nav_down. cbn.
      destruct (Z.eqb_spec (filtered_lines state) 0); [lia|]. cbn.
      rewrite !Hlast. destruct (Z.ltb_spec (filtered_lines state - 1)
                                  (filtered_lines state - 1)); lia.
    + destruct (Z.gtb_spec (selected state) 0); [|lia].
      unfold rofi_view_nav_down. cbn.
      destruct (Z.eqb_spec (filtered_lines state) 0); [lia|]. cbn.
      rewrite Hlast, (u32_small (selected state - 1)) by lia.
      destruct (Z.ltb_spec (selected state - 1) (filtered_lines state - 1)); [|lia].
      rewrite MIN_spec, u32_small by lia. lia.
  - unfold rofi_view_nav_down.
    destruct (Z.eqb_spec (filtered_lines state) 0); [lia|].
    rewrite Hlast.
    destruct (Z.ltb_spec (selected state) (filtered_lines state - 1)).
    + rewrite MIN_spec, (u32_small (selected state + 1)) by lia.
      unfold rofi_view_nav_up. cbn.
      destruct (Z.eqb_spec (Z.min (filtered_lines state - 1) (selected state + 1)) 0);
        [lia|]. cbn.
      destruct (Z.gtb_spec (Z.min (filtered_lines state - 1) (selected state + 1)) 0);
        [|lia].
      cbn. rewrite u32_small by lia. lia.
    + unfold rofi_view_nav_up. cbn.
      destruct (Z.gtb_spec (filtered_lines state) 0); [|lia].
      cbn. rewrite Hlast. lia.
Qed.

(** X3. Left undoes a move to the right that stayed inside the list, and
    right undoes a move to the left: the selection returns to the row and
    column it came from. *)
Theorem nav_left_right_inverse (state : RofiViewState) :
  0 <= selected state < filtered_lines state ->
  filtered_lines state < 2 ^ 32 -> 0 <= max_rows state ->
  (selected state + max_rows state < filtered_lines state ->
   exists state', rofi_view_nav_right state = Some state'
     /\ selected state' = selected state + max_rows state
     /\ selected (rofi_view_nav_left state') = selected state)
  /\ (max_rows state <= selected state ->
      exists state', rofi_view_nav_right (rofi_view_nav_left state) = Some state'
        /\ selected (rofi_view_nav_left state) = selected state - max_rows state
        /\ selected state' = selected state).
Proof.
  intros Hs Hf Hr. split.
  - intros Hin. unfold rofi_view_nav_right.
    destruct (Z.eqb_spec (filtered_lines state) 0); [lia|].
    rewrite (u32_small (selected state + max_rows state)) by lia.
    destruct (Z.ltb_spec (selected state + max_rows state) (filtered_lines state));
      [|lia].
    eexists. split; [reflexivity|]. split; [reflexivity|].
    unfold rofi_view_nav_left. cbn.
    destruct (Z.geb_spec (selected state + max_rows state) (max_rows state)); [|lia].
    cbn. rewrite u32_small by lia. lia.
  - intros Hge. unfold rofi_view_nav_left.
    destruct (Z.geb_spec (selected state) (max_rows state)); [|lia].
    rewrite (u32_small (selected state - max_rows state)) by lia.
    unfold rofi_view_nav_right. cbn.
    destruct (Z.eqb_spec (filtered_lines state) 0); [lia|].
    replace (selected state - max_rows state + max_rows state)
      with (selected state) by lia.
    rewrite (u32_small (selected state)) by lia.
    destruct (Z.ltb_spec (selected state) (filtered_lines state)); [|lia].
    eexists. split; [reflexivity|]. split; reflexivity.
Qed.

(** X4. The page moves add or subtract one page, [max_elements], and clamp
    at the two ends of the list; a page move that was not clamped is
    undone by the opposite one. *)
Theorem nav_page_clamps (state : RofiViewState) :
  0 <= selected state < filtered_lines state ->
  filtered_lines state < 2 ^ 32 ->
  0 <= max_elements state -> selected state + max_elements state < 2 ^ 32 ->
  selected (rofi_view_nav_page_next state)
  = Z.min (selected state + max_elements state) (filtered_lines state - 1)
  /\ selected (rofi_view_nav_page_prev state)
     = Z.max (selected state - max_elements state) 0
  /\ (selected state + max_elements state < filtered_lines state ->
      selected (rofi_view_nav_page_prev (rofi_view_nav_page_next state))
      = selected state)
  /\ (max_elements state <= selected state ->
      selected (rofi_view_nav_page_next (rofi_view_nav_page_prev state))
      = selected state).
Proof.
  intros Hs Hf He Hov.
  assert (Hnext : selected (rofi_view_nav_page_next state)
                  = Z.min (selected state + max_elements state)
                      (filtered_lines state - 1)).
  { unfold rofi_view_nav_page_next.
    destruct (Z.eqb_spec (filtered_lines state) 0); [lia|].
    cbn [selected set_selected filtered_lines].
    rewrite (u32_small (selected state + max_elements state)) by lia.
    destruct (Z.geb_spec (selected state + max_elements state)
                (filtered_lines state)); cbn; [rewrite u32_small by lia|]; lia. }
  assert (Hprev : selected (rofi_view_nav_page_prev state)
                  = Z.max (selected state - max_elements state) 0).
  { unfold rofi_view_nav_page_prev.
    destruct (Z.ltb_spec (selected state) (max_elements state)); cbn; [lia|].
    rewrite u32_small by lia. lia. }
  split; [done|]. split; [done|]. split.
  - intros Hin. unfold rofi_view_nav_page_prev at 1.
    rewrite Hnext.
    replace (max_elements (rofi_view_nav_page_next state))
      with (max_elements state)
      by (unfold rofi_view_nav_page_next; destruct (_ =? _); [done|];
          cbn; by destruct (_ >=? _)).
    replace (Z.min _ _) with (selected state + max_elements state) by lia.
    destruct (Z.ltb_spec (selected state + max_elements state)
                (max_elements state)); [lia|].
    cbn. rewrite u32_small by lia. lia.
  - intros Hge.
    assert (Hfl : filtered_lines (rofi_view_nav_page_prev state)
                  = filtered_lines state)
      by (unfold rofi_view_nav_page_prev; by destruct (_ <? _)).
    assert (Hme : max_elements (rofi_view_nav_page_prev state)
                  = max_elements state)
      by (unfold rofi_view_nav_page_prev; by destruct (_ <? _)).
    unfold rofi_view_nav_page_next at 1. rewrite Hfl.
    destruct (Z.eqb_spec (filtered_lines state) 0); [lia|].
    cbn [selected set_selected filtered_lines set_update].
    rewrite Hprev, Hme, Hfl.
    replace (Z.max (selected state - max_elements state) 0 + max_elements state)
      with (selected state) by lia.
    rewrite (u32_small (selected state)) by lia.
    destruct (Z.geb_spec (selected state) (filtered_lines state)); [lia|].
    reflexivity.
Qed.

(** X5. On an empty filtered list, with the selection at 0 where the
    filter pass leaves it, no move changes the selection, and the move to
    the right does not trap. *)
Theorem nav_on_empty_list (state : RofiViewState) :
  filtered_lines state = 0 -> selected state = 0 ->
  0 <= max_rows state -> 0 <= max_elements state ->
  selected (rofi_view_nav_up state) = 0
  /\ rofi_view_nav_down state = state
  /\ selected (rofi_view_nav_left state) = 0
  /\ rofi_view_nav_right state = Some state
  /\ selected (rofi_view_nav_page_prev state) = 0
  /\ rofi_view_nav_page_next state = state
  /\ selected (rofi_view_nav_first state) = 0
  /\ rofi_view_nav_last state = state.
Proof.
  intros Hf Hs Hr He.
  refine (conj _ (conj _ (conj _ (conj _ (conj _ (conj _ (conj _ _))))))).
  - unfold rofi_view_nav_up. rewrite Hs. cbn. rewrite Hf. reflexivity.
  - unfold rofi_view_nav_down. by rewrite Hf.
  - unfold rofi_view_nav_left. rewrite Hs.
    destruct (Z.geb_spec 0 (max_rows state)); [|done].
    cbn. replace (max_rows state) with 0 by lia. reflexivity.
  - unfold rofi_view_nav_right. by rewrite Hf.
  - unfold rofi_view_nav_page_prev. rewrite Hs.
    destruct (Z.ltb_spec 0 (max_elements state)); [done|].
    cbn. replace (max_elements state) with 0 by lia. reflexivity.
  - unfold rofi_view_nav_page_next. by rewrite Hf.
  - reflexivity.
  - unfold rofi_view_nav_last. by rewrite Hf.
Qed.

(** ** Scrolling *)

(** The offset of the continuous scroll, in closed form. *)
Lemma scroll_continious_offset (state : RofiViewState) :
  1 <= menu_lines state < 2 ^ 32 ->
  0 <= selected state < filtered_lines state ->
  filtered_lines state < 2 ^ 32 ->
  rofi_scroll_continious state
  = (Z.max 0 (Z.min (selected state - (menu_lines state - 1) / 2)
                (filtered_lines state - menu_lines state)),
     set_rchanged TRUE state).
Proof.
  intros Hm Hs Hf. set (middle := (menu_lines state - 1) / 2).
  assert (Hmid : u32 (menu_lines state
                      - of_bool (Z.land (menu_lines state) 1 =? 0)) / 2
                 = middle).
  { subst middle.
    replace (Z.land (menu_lines state) 1) with (menu_lines state mod 2)
      by (symmetry; apply (Z.land_ones _ 1); lia).
    pose proof (Z.mod_pos_bound (menu_lines state) 2 ltac:(lia)).
    pose proof (Z.div_mod (menu_lines state) 2 ltac:(lia)).
    destruct (Z.eqb_spec (menu_lines state mod 2) 0) as [He|He]; cbn [of_bool].
    - rewrite u32_small by lia. reflexivity.
    - rewrite u32_small by lia. rewrite Z.sub_0_r.
      apply (Z.div_unique _ _ _ 0); lia. }
  assert (Hmr : 0 <= middle /\ 2 * middle <= menu_lines state - 1
                /\ menu_lines state - 2 <= 2 * middle).
  { subst middle.
    pose proof (Z.mod_pos_bound (menu_lines state - 1) 2 ltac:(lia)).
    pose proof (Z.div_mod (menu_lines state - 1) 2 ltac:(lia)).
    lia. }
  unfold rofi_scroll_continious. cbv zeta. rewrite Hmid. f_equal.
  destruct (Z.gtb_spec (selected state) middle); [|lia].
  rewrite (u32_small (menu_lines state - middle)) by lia.
  rewrite (u32_small (filtered_lines state - (menu_lines state - middle)))
    by lia.
  destruct (Z.ltb_spec (selected state)
              (filtered_lines state - (menu_lines state - middle))).
  - rewrite u32_small by lia. lia.
  - destruct (Z.gtb_spec (filtered_lines state) (menu_lines state)).
    + rewrite u32_small by lia. lia.
    + lia.
Qed.

(** X6. The continuous scroll keeps the selection on the middle line of
    the window, [(menu_lines - 1) / 2] lines below its top, as far as the
    two ends of the list allow: the offset is [selected - middle] clamped
    to [0, filtered_lines - menu_lines]. The selection is therefore always
    inside the window, and the window never runs past the end of a list
    that fills it. *)
Theorem scroll_continious_centres (state : RofiViewState) :
  1 <= menu_lines state < 2 ^ 32 ->
  0 <= selected state < filtered_lines state ->
  filtered_lines state < 2 ^ 32 ->
  let middle := (menu_lines state - 1) / 2 in
  let offset := (rofi_scroll_continious state).1 in
  offset
  = Z.max 0 (Z.min (selected state - middle)
               (filtered_lines state - menu_lines state))
  /\ offset <= selected state < offset + menu_lines state
  /\ (menu_lines state <= filtered_lines state ->
      offset + menu_lines state <= filtered_lines state)
  /\ (rofi_scroll_continious state).2 = set_rchanged TRUE state.
Proof.
  intros Hm Hs Hf middle offset. subst offset.
  rewrite (scroll_continious_offset state Hm Hs Hf). cbn [fst snd].
  fold middle.
  assert (Hmr : 0 <= middle /\ 2 * middle <= menu_lines state - 1).
  { subst middle.
    pose proof (Z.mod_pos_bound (menu_lines state - 1) 2 ltac:(lia)).
    pose proof (Z.div_mod (menu_lines state - 1) 2 ltac:(lia)).
    lia. }
  split; [done|]. split; [lia|]. split; [lia|reflexivity].
Qed.

(** X7. The paged scroll returns an offset whose page, [max_elements]
    entries long, holds the selection, and records it in [last_offset]; the
    offset is a multiple of the page size when the recorded one was; and
    as long as the selection stays on that page the next call returns the
    same offset and changes nothing. *)
Theorem scroll_per_page_shows_selection (state : RofiViewState)
    (paging : Paging) :
  1 <= max_elements state < 2 ^ 32 -> 0 <= selected state < 2 ^ 31 ->
  0 <= last_offset paging < 2 ^ 32 ->
  let '(offset, state', paging') := rofi_scroll_per_page state paging in
  offset <= selected state < offset + max_elements state
  /\ last_offset paging' = offset
  /\ (last_offset paging mod max_elements state = 0 ->
      offset mod max_elements state = 0)
  /\ ((state' = state /\ paging' = paging)
      \/ (offset = selected state / max_elements state * max_elements state
          /\ cur_page paging' = selected state / max_elements state))
  /\ rofi_scroll_per_page state' paging' = (offset, state', paging').
Proof.
  intros He Hs Hl.
  assert (Hstay : forall st pg,
            max_elements st < 2 ^ 32 ->
            0 <= last_offset pg < 2 ^ 32 ->
            last_offset pg <= selected st
            < last_offset pg + max_elements st ->
            rofi_scroll_per_page st pg = (last_offset pg, st, pg)).
  { intros st pg Hme Hlo Hin. unfold rofi_scroll_per_page.
    rewrite (u32_small (selected st - last_offset pg)) by lia.
    destruct (Z.ltb_spec (selected st - last_offset pg) (max_elements st));
      [|lia].
    destruct (Z.geb_spec (selected st) (last_offset pg)); [|lia].
    cbn [andb]. by rewrite u32_s32. }
  unfold rofi_scroll_per_page at 1.
  destruct ((u32 (selected state - last_offset paging) <? max_elements state)
            && (selected state >=? last_offset paging)) eqn:Evis.
  - apply andb_prop in Evis as [Hlt Hge].
    apply Z.geb_le in Hge. apply Z.ltb_lt in Hlt.
    rewrite u32_small in Hlt by lia.
    rewrite u32_s32 by lia.
    split; [lia|]. split; [done|]. split; [done|]. split; [by left|].
    apply Hstay; lia.
  - clear Evis.
    destruct (Z.gtb_spec (max_elements state) 0); [|lia].
    set (page := selected state / max_elements state).
    assert (Hpage : 0 <= page /\ page * max_elements state <= selected state
                    /\ selected state < page * max_elements state
                                        + max_elements state).
    { subst page.
      pose proof (Z.mod_pos_bound (selected state) (max_elements state)
                    ltac:(lia)).
      pose proof (Z.div_mod (selected state) (max_elements state) ltac:(lia)).
      split; [apply Z.div_pos; lia|]. nia. }
    assert (Hp31 : page < 2 ^ 31) by nia.
    rewrite (s32_small page) by lia.
    rewrite (u32_small page) by lia.
    rewrite (u32_small (page * max_elements state)) by lia.
    rewrite (s32_small (page * max_elements state)) by lia.
    rewrite (u32_small (page * max_elements state)) by lia.
    cbn [cur_page last_offset].
    destruct (negb (page =? cur_page paging)) eqn:Epage.
    + split; [lia|]. split; [done|].
      split; [intros _; apply Z.mod_mul; lia|]. split; [by right|].
      apply (Hstay (set_rchanged TRUE state)
               {| last_offset := page * max_elements state; cur_page := page |});
        cbn; lia.
    + apply negb_false_iff, Z.eqb_eq in Epage.
      split; [lia|]. split; [done|].
      split; [intros _; apply Z.mod_mul; lia|]. split; [by right|].
      apply (Hstay state
               {| last_offset := page * max_elements state;
                  cur_page := cur_page paging |}); cbn; lia.
Qed.

(** ** Selecting by source index *)

Lemma find_selected_line_skips (state : RofiViewState) (k : nat) :
  forall (fuel : nat) (i : Z),
    selected state = 0 -> selected_line state < UINT32_MAX ->
    0 <= i -> i + Z.of_nat k < filtered_lines state ->
    filtered_lines state < 2 ^ 32 ->
    (k < fuel)%nat ->
    (forall j, i <= j < i + Z.of_nat k ->
       aget (line_map state) j <> selected_line state) ->
    aget (line_map state) (i + Z.of_nat k) = selected_line state ->
    find_selected_line fuel i state = set_selected (i + Z.of_nat k) state.
Proof.
  induction k as [|k IH]; intros fuel i Hsel Hv Hi Hin Hf Hfuel Hbefore Hat.
  - destruct fuel as [|fuel]; [lia|]. cbn [find_selected_line].
    rewrite Z.add_0_r in *.
    destruct (Z.ltb_spec (selected_line state) UINT32_MAX); [|lia].
    rewrite Hsel. cbn [truthy Z.eqb negb andb].
    destruct (Z.ltb_spec i (filtered_lines state)); [|lia].
    rewrite Hat, Z.eqb_refl. reflexivity.
  - destruct fuel as [|fuel]; [lia|]. cbn [find_selected_line].
    destruct (Z.ltb_spec (selected_line state) UINT32_MAX); [|lia].
    rewrite Hsel. cbn [truthy Z.eqb negb andb].
    destruct (Z.ltb_spec i (filtered_lines state)); [|lia].
    destruct (Z.eqb_spec (aget (line_map state) i) (selected_line state))
      as [Heq|_].
    { exfalso. apply (Hbefore i); [lia|done]. }
    rewrite u32_small by lia.
    replace (i + Z.of_nat (S k)) with (i + 1 + Z.of_nat k) in * by lia.
    apply IH; try done; try lia.
    intros j Hj. apply Hbefore. lia.
Qed.

Lemma find_selected_line_absent (state : RofiViewState) :
  forall (fuel : nat) (i : Z),
    0 <= i -> filtered_lines state < 2 ^ 32 ->
    (forall j, i <= j < filtered_lines state ->
       aget (line_map state) j <> selected_line state) ->
    find_selected_line fuel i state = state.
Proof.
  induction fuel as [|fuel IH]; intros i Hi Hf Habs; [done|].
  cbn [find_selected_line].
  destruct (_ && _ && (i <? filtered_lines state)) eqn:Econd; [|done].
  apply andb_prop in Econd as [_ Hlt]. apply Z.ltb_lt in Hlt.
  destruct (Z.eqb_spec (aget (line_map state) i) (selected_line state))
    as [Heq|_].
  { exfalso. apply (Habs i); [lia|done]. }
  rewrite u32_small by lia. apply IH; [lia|done|].
  intros j Hj. apply Habs. lia.
Qed.

(** X8. [rofi_view_set_selected_line] puts the selection on the first row
    of the filtered list that holds the wanted source index, records that
    index in [selected_line] and asks for a redraw. *)
Theorem set_selected_line_finds_row (state : RofiViewState) (v k : Z) :
  0 <= v < UINT32_MAX ->
  0 <= k < filtered_lines state -> filtered_lines state < 2 ^ 32 ->
  aget (line_map state) k = v ->
  (forall j, 0 <= j < k -> aget (line_map state) j <> v) ->
  let state' := rofi_view_set_selected_line state v in
  selected state' = k /\ selected_line state' = v /\ update state' = TRUE
  /\ aget (line_map state') (selected state') = v.
Proof.
  intros Hv Hk Hf Hat Hbefore state'. subst state'.
  unfold rofi_view_set_selected_line. cbv zeta.
  cbn [filtered_lines set_selected set_selected_line].
  pose proof (find_selected_line_skips
                (set_selected 0 (set_selected_line v state)) (Z.to_nat k)
                (Z.to_nat (filtered_lines state)) 0) as Hfind.
  rewrite Z.add_0_l, Z2Nat.id in Hfind by lia.
  rewrite Hfind; cbn; try done; lia.
Qed.

(** X9. When the wanted source index is not in the filtered list, or is
    the value [UINT32_MAX] that stands for "no entry", the selection goes
    to row 0. *)
Theorem set_selected_line_absent (state : RofiViewState) (v : Z) :
  filtered_lines state < 2 ^ 32 ->
  v = UINT32_MAX
  \/ (forall j, 0 <= j < filtered_lines state -> aget (line_map state) j <> v) ->
  let state' := rofi_view_set_selected_line state v in
  selected state' = 0 /\ selected_line state' = v /\ update state' = TRUE.
Proof.
  intros Hf Hv state'. subst state'.
  unfold rofi_view_set_selected_line. cbv zeta.
  cbn [filtered_lines set_selected set_selected_line].
  assert (Hkeep : find_selected_line (Z.to_nat (filtered_lines state)) 0
                    (set_selected 0 (set_selected_line v state))
                  = set_selected 0 (set_selected_line v state)).
  { destruct Hv as [->|Habs].
    - destruct (Z.to_nat (filtered_lines state)); reflexivity.
    - apply find_selected_line_absent; [lia|done|done]. }
  rewrite Hkeep. repeat split.
Qed.

(** ** The filter pass as a whole *)

Lemma identity_map_spec (m : nat) : forall lm : list Z,
  (m <= length lm)%nat ->
  let r := foldl (fun lm i => aset lm i i) lm (seqZ 0 (Z.of_nat m)) in
  length r = length lm /\ take m r = seqZ 0 (Z.of_nat m).
Proof.
  induction m as [|m IH]; intros lm Hlen r; subst r.
  { split; [reflexivity|]. by rewrite take_0. }
  rewrite seqZ_S, foldl_app. cbn [foldl].
  destruct (IH lm ltac:(lia)) as [Hl Ht]. cbv zeta in Hl, Ht.
  set (r := foldl (fun lm i => aset lm i i) lm (seqZ 0 (Z.of_nat m))) in *.
  rewrite Z.add_0_l. unfold aset.
  destruct (Z.ltb_spec (Z.of_nat m) 0); [lia|]. rewrite Nat2Z.id.
  split; [by rewrite length_insert|].
  rewrite (take_S_r _ _ (Z.of_nat m)).
  - rewrite take_insert_ge by lia. by rewrite Ht.
  - apply list_lookup_insert_eq. lia.
Qed.

Section RefilterFrame.
Context `{Helper} `{MenuReturn}.
Variables (config : Settings) (sched : list nat) (state : RofiViewState).

(** [rofi_view_refilter] leaves alone what the filter reads. *)
Lemma refilter_keeps_inputs :
  let state' := rofi_view_refilter config sched state in
  sw state' = sw state /\ text state' = text state
  /\ num_lines state' = num_lines state
  /\ lines_not_ascii state' = lines_not_ascii state
  /\ max_rows state' = max_rows state
  /\ max_elements state' = max_elements state.
Proof.
  intros state'.
  assert (Hmid : let mid := refilter_line_map config sched state in
                 sw mid = sw state /\ text mid = text state
                 /\ num_lines mid = num_lines state
                 /\ lines_not_ascii mid = lines_not_ascii state
                 /\ max_rows mid = max_rows state
                 /\ max_elements mid = max_elements state).
  { unfold refilter_line_map.
    destruct (0 <? Z.of_nat (String.length (textbox.text (text state)))).
    - unfold filter_pass.
      match goal with
      | |- context [filter_chunks config sched state ?tok ?nt ?steps] =>
          pose proof (filter_chunks_frame config sched state tok nt steps)
            as [Hf _];
          destruct (filter_chunks config sched state tok nt steps) as [j s]
      end.
      cbn [fst snd] in *. cbv zeta.
      destruct Hf as (? & _ & ? & ? & _ & _ & _ & _ & ? & ? & _ & _ & _ & _ & _ & _ & ?).
      destruct (truthy (levenshtein_sort config)); cbn; repeat split; done.
    - cbn. repeat split. }
  cbv zeta in Hmid. subst state'. unfold rofi_view_refilter.
  set (mid := refilter_line_map config sched state) in *. cbv zeta.
  destruct (filtered_lines mid >? 0);
    cbn [filtered_lines num_lines set_selected];
    destruct (_ && _); exact Hmid.
Qed.

(** What the pass does on an empty query. *)
Lemma refilter_line_map_empty :
  Z.of_nat (String.length (textbox.text (text state))) = 0 ->
  0 <= num_lines state ->
  Z.of_nat (length (line_map state)) = num_lines state ->
  let mid := refilter_line_map config sched state in
  filtered_lines mid = num_lines state
  /\ line_map mid = seqZ 0 (num_lines state).
Proof.
  intros Htext Hn Hlm mid. subst mid. unfold refilter_line_map.
  rewrite Htext. cbn [Z.ltb Z.compare].
  cbn [filtered_lines line_map set_filtered_lines set_line_map].
  split; [reflexivity|].
  destruct (identity_map_spec (length (line_map state)) (line_map state)
              ltac:(lia)) as [Hl Ht].
  cbv zeta in Hl, Ht. rewrite Hlm in Hl, Ht.
  etransitivity; [|exact Ht]. symmetry. apply take_ge. lia.
Qed.
End RefilterFrame.

(** The selection after a pass: in range, or 0 on an empty list. *)
Lemma refilter_selection_clamped `{Helper} `{MenuReturn}
    (config : Settings) (sched : list nat) (state : RofiViewState) :
  0 <= selected state -> 0 <= num_lines state < 2 ^ 32 ->
  let state' := rofi_view_refilter config sched state in
  (0 < filtered_lines state' ->
   0 <= selected state' <= filtered_lines state' - 1)
  /\ (filtered_lines state' <= 0 -> selected state' = 0)
  /\ 0 <= filtered_lines state' < 2 ^ 32.
Proof.
  intros Hsel Hn state'. subst state'.
  destruct (refilter_fields config sched state) as (_ & _ & Hfl & Hs & _).
  destruct (refilter_line_map_frame config sched state)
    as (Hsel' & _ & _ & _ & _ & _ & Hrange).
  specialize (Hrange Hn).
  set (mid := refilter_line_map config sched state) in *.
  rewrite Hfl, Hs, Hsel'. rewrite MIN_spec.
  split; [|split].
  - intros Hpos. destruct (Z.gtb_spec (filtered_lines mid) 0); [|lia].
    rewrite u32_small by lia. lia.
  - intros Hz. destruct (Z.gtb_spec (filtered_lines mid) 0); [lia|done].
  - lia.
Qed.

(** X10. With an empty query the filter pass keeps every entry, in source
    order: the filtered list is [0, 1, ..., num_lines - 1]. The matcher of
    the mode is not consulted. *)
Theorem refilter_empty_query_lists_all `{Helper} `{MenuReturn}
    (config : Settings) (sched : list nat) (state : RofiViewState) :
  textbox.text (text state) = ""%string ->
  0 <= num_lines state ->
  Z.of_nat (length (line_map state)) = num_lines state ->
  let state' := rofi_view_refilter config sched state in
  filtered_list state' = seqZ 0 (num_lines state)
  /\ filtered_lines state' = num_lines state
  /\ (forall k, 0 <= k < num_lines state -> aget (line_map state') k = k).
Proof.
  intros Htext Hn Hlm state'. subst state'.
  destruct (refilter_fields config sched state) as (Hl & _ & Hfl & _).
  destruct (refilter_line_map_empty config sched state) as [Hmf Hml];
    [by rewrite Htext|done|done|].
  unfold filtered_list. rewrite Hl, Hfl, Hmf, Hml.
  split; [|split; [done|]].
  - apply take_ge. rewrite length_seqZ. lia.
  - intros k Hk. unfold aget. destruct (Z.ltb_spec k 0); [lia|].
    apply nth_lookup_Some. rewrite lookup_seqZ. split; lia.
Qed.

(** X11. With a non-empty query, ranked or not, the filtered list holds
    exactly the entries the matcher accepts, each once: an index is in the
    list if and only if it lies in [0, num_lines) and its entry matches.
    Nothing is asked of the edit distances: the sort can only permute the
    list. *)
Theorem refilter_lists_exactly_the_matches `{Helper} `{MenuReturn}
    (config : Settings) (sched : list nat) (state : RofiViewState) :
  0 < Z.of_nat (String.length (textbox.text (text state))) ->
  0 <= num_lines state < 2 ^ 31 ->
  Z.of_nat (length (line_map state)) = num_lines state ->
  let state' := rofi_view_refilter config sched state in
  filtered_list state' ≡ₚ single_scan_filter config state
  /\ NoDup (filtered_list state')
  /\ (forall i, In i (filtered_list state')
        <-> 0 <= i < num_lines state /\ entry_matches config state i = true)
  /\ filtered_lines state' = Z.of_nat (length (filtered_list state'))
  /\ filtered_lines state' <= num_lines state.
Proof.
  intros Htext Hn Hlm state'. subst state'.
  assert (Hov : num_lines state + MAX 1 (num_lines state / 500) < 2 ^ 32).
  { rewrite MAX_spec.
    pose proof (Z.div_le_upper_bound (num_lines state) 500 (num_lines state)
                  ltac:(lia) ltac:(lia)). lia. }
  set (scan := single_scan_filter config state).
  assert (Hsub : scan `sublist_of` seqZ 0 (num_lines state))
    by apply filter_sublist.
  assert (Hlen : Z.of_nat (length scan) <= num_lines state).
  { apply sublist_length in Hsub. rewrite length_seqZ in Hsub. lia. }
  assert (Hnd : NoDup scan).
  { eapply sublist_NoDup; [apply NoDup_seqZ|exact Hsub]. }
  destruct (refilter_fields config sched state) as (Hl & _ & Hfl & _).
  destruct (refilter_line_map_nonempty config sched state Htext
              ltac:(lia) Hov Hlm) as (Hmf & Htake & _).
  fold scan in Hmf, Htake. specialize (Htake ltac:(lia)).
  assert (Hperm : filtered_list (rofi_view_refilter config sched state) ≡ₚ scan).
  { unfold filtered_list. rewrite Hl, Hfl, Hmf, Nat2Z.id, Htake.
    destruct (truthy (levenshtein_sort config)); [|done].
    apply msort_with_tmp_perm. }
  split; [done|]. split; [by rewrite Hperm|]. split; [|split].
  - intros i. rewrite <- !list_elem_of_In, Hperm, list_elem_of_In.
    subst scan. unfold single_scan_filter. rewrite List.filter_In.
    rewrite <- list_elem_of_In, elem_of_seqZ. intuition lia.
  - rewrite Hperm. by rewrite Hfl, Hmf.
  - rewrite Hfl, Hmf. lia.
Qed.

(** What one pass without ranking leaves, as a function of the query. *)
Lemma refilter_unranked_list `{Helper} `{MenuReturn}
    (config : Settings) (sched : list nat) (state : RofiViewState) :
  truthy (levenshtein_sort config) = false ->
  0 <= num_lines state ->
  num_lines state + MAX 1 (num_lines state / 500) < 2 ^ 32 ->
  Z.of_nat (length (line_map state)) = num_lines state ->
  let state' := rofi_view_refilter config sched state in
  let l := if 0 <? Z.of_nat (String.length (textbox.text (text state)))
           then single_scan_filter config state
           else seqZ 0 (num_lines state) in
  filtered_list state' = l
  /\ filtered_lines state' = Z.of_nat (length l)
  /\ length (line_map state') = length (line_map state).
Proof.
  intros Hoff Hn Hov Hlm state' l. subst state' l.
  destruct (refilter_fields config sched state) as (Hl & _ & Hfl & _).
  unfold filtered_list. rewrite Hl, Hfl.
  destruct (Z.ltb_spec 0 (Z.of_nat (String.length (textbox.text (text state)))))
    as [Htext|Htext].
  - destruct (refilter_line_map_nonempty config sched state Htext Hn Hov Hlm)
      as (Hmf & Htake & _).
    specialize (Htake ltac:(rewrite Hoff; discriminate)).
    rewrite Hoff in Htake. rewrite Hmf, Nat2Z.id.
    split; [done|]. split; [done|].
    unfold refilter_line_map.
    destruct (Z.ltb_spec 0 (Z.of_nat (String.length (textbox.text (text state)))));
      [|lia].
    assert (Hr : 0 <= num_lines state < 2 ^ 32).
    { pose proof (chunk_sizes _ Hn Hov). cbv zeta in *. lia. }
    destruct (filter_pass_spec config sched state Hr Hlm Hov)
      as (_ & _ & _ & Hlen & _).
    destruct (filter_pass config sched state) as [j s]. cbn [fst snd] in *.
    cbv zeta. rewrite Hoff. exact Hlen.
  - destruct (refilter_line_map_empty config sched state ltac:(lia) Hn Hlm)
      as [Hmf Hml].
    rewrite Hmf, Hml, length_seqZ.
    split; [apply take_ge; rewrite length_seqZ; lia|].
    split; [lia|]. lia.
Qed.

(** X12. Without ranking, a second filter pass on the same query changes
    nothing a user sees: the filtered list, its length and the (already
    clamped) selection are those of the first pass, whatever the two
    schedules. *)
Theorem refilter_twice `{Helper} `{MenuReturn}
    (config : Settings) (sched sched' : list nat) (state : RofiViewState) :
  truthy (levenshtein_sort config) = false ->
  0 <= num_lines state ->
  num_lines state + MAX 1 (num_lines state / 500) < 2 ^ 32 ->
  Z.of_nat (length (line_map state)) = num_lines state ->
  0 <= selected state ->
  let once := rofi_view_refilter config sched state in
  let twice := rofi_view_refilter config sched' once in
  filtered_list twice = filtered_list once
  /\ filtered_lines twice = filtered_lines once
  /\ selected twice = selected once.
Proof.
  intros Hoff Hn Hov Hlm Hsel once twice.
  assert (Hrange : 0 <= num_lines state < 2 ^ 32).
  { pose proof (chunk_sizes _ Hn Hov). cbv zeta in *. lia. }
  destruct (refilter_keeps_inputs config sched state)
    as (Hsw & Htx & Hnl & Hna & _). fold once in Hsw, Htx, Hnl, Hna.
  assert (Hscan : single_scan_filter config once = single_scan_filter config state).
  { unfold single_scan_filter. rewrite Hnl.
    apply List.filter_ext. intros i. unfold entry_matches.
    by rewrite Hsw, Htx, Hna. }
  destruct (refilter_unranked_list config sched state Hoff Hn Hov Hlm)
    as (Hl1 & Hf1 & Hlen1).
  fold once in Hl1, Hf1, Hlen1.
  destruct (refilter_unranked_list config sched' once Hoff) as (Hl2 & Hf2 & _);
    [rewrite Hnl; lia|by rewrite Hnl|by rewrite Hlen1, Hnl|].
  fold twice in Hl2, Hf2.
  rewrite Htx, Hscan, Hnl in Hl2, Hf2.
  assert (Hfl : filtered_lines twice = filtered_lines once) by congruence.
  split; [congruence|]. split; [done|].
  (* the selection *)
  destruct (refilter_fields config sched' once) as (_ & _ & Hfl2 & Hs2 & _).
  destruct (refilter_line_map_frame config sched' once) as (Hsel2 & _).
  fold twice in Hfl2, Hs2. rewrite Hs2, Hsel2, <- Hfl2, Hfl.
  destruct (refilter_selection_clamped config sched state Hsel Hrange)
    as (Hin & Hzero & Hnn).
  fold once in Hin, Hzero, Hnn.
  destruct (Z.gtb_spec (filtered_lines once) 0).
  - rewrite MIN_spec, u32_small by (rewrite Hf1; lia). lia.
  - symmetry. apply Hzero. lia.
Qed.

(** ** The key-press case as a whole *)

Section DispatchInvariants.
Context `{Helper} `{MenuReturn} `{KeyBindings} `{TextboxOps}.

Lemma nav_keeps_prev_key_and_quit (state : RofiViewState) :
  let same state' :=
    prev_key state' = prev_key state /\ quit state' = quit state in
  same (rofi_view_nav_up state) /\ same (rofi_view_nav_down state)
  /\ same (rofi_view_nav_left state)
  /\ (forall state', rofi_view_nav_right state = Some state' -> same state')
  /\ same (rofi_view_nav_page_prev state)
  /\ same (rofi_view_nav_page_next state)
  /\ same (rofi_view_nav_first state) /\ same (rofi_view_nav_last state).
Proof.
  cbv zeta.
  refine (conj _ (conj _ (conj _ (conj _ (conj _ (conj _ (conj _ _))))))).
  - unfold rofi_view_nav_up. nav_cases.
  - unfold rofi_view_nav_down. nav_cases.
  - unfold rofi_view_nav_left. nav_cases.
  - intros state'. unfold rofi_view_nav_right.
    repeat match goal with
           | |- context [if ?c then _ else _] => destruct c
           end; intros [= <-]; done.
  - unfold rofi_view_nav_page_prev. nav_cases.
  - unfold rofi_view_nav_page_next. nav_cases.
  - unfold rofi_view_nav_first. done.
  - unfold rofi_view_nav_last. nav_cases.
Qed.

Lemma nav_right_traps (state : RofiViewState) :
  rofi_view_nav_right state = None -> max_rows state = 0.
Proof.
  unfold rofi_view_nav_right.
  destruct (filtered_lines state =? 0); [done|].
  destruct (_ <? _); [done|]. destruct (_ <? _); [|done].
  destruct (Z.eqb_spec (max_rows state) 0); [done|].
  by destruct (negb _).
Qed.

Lemma custom_loop_frame actions state key modstate :
  let state' := custom_loop actions state key modstate in
  max_rows state' = max_rows state /\ prev_key state' = prev_key state
  /\ (quit state' = quit state \/ quit state' = TRUE).
Proof.
  induction actions as [|a actions IH]; [by auto|].
  cbn [custom_loop]. destruct (truthy _); [|exact IH].
  cbn. destruct (_ <? _); cbn; auto.
Qed.
End DispatchInvariants.

Ltac handled_by a :=
  left; split; [reflexivity|]; split; [try done|];
  exists a; split; [cbn; tauto|by apply truthy_true].

(** X13. [rofi_view_keyboard_navigation] records the key in [prev_key]
    exactly when it does not handle it: a handled key (result 1) leaves
    [prev_key] as it was, an unhandled one (result 0) changes nothing but
    [prev_key]. The function fails only in the move to the right, when
    there is no row. *)
Theorem keyboard_navigation_records_unhandled_keys
    `{Helper} `{MenuReturn} `{KeyBindings} `{TextboxOps}
    (state : RofiViewState) (key modstate : Z) :
  match rofi_view_keyboard_navigation state key modstate with
  | Some (handled, state') =>
      (handled = 1 /\ prev_key state' = prev_key state
       /\ exists a, In a navigation_actions
                    /\ abe_test_action a modstate key <> 0)
      \/ (handled = 0 /\ state' = set_prev_key key state
          /\ forall a, In a navigation_actions ->
                       abe_test_action a modstate key = 0)
  | None => max_rows state = 0 /\ abe_test_action ROW_RIGHT modstate key <> 0
  end.
Proof.
  destruct (nav_keeps_prev_key_and_quit state)
    as ([Hup _] & [Hdown _] & [Hleft _] & Hright & [Hpp _] & [Hpn _]
        & [Hfirst _] & [Hlast _]).
  unfold rofi_view_keyboard_navigation.
  destruct (truthy (abe_test_action CANCEL modstate key)) eqn:E1.
  { handled_by CANCEL. }
  destruct (truthy (abe_test_action ROW_UP modstate key)) eqn:E2.
  { handled_by ROW_UP. }
  destruct (truthy (abe_test_action ROW_TAB modstate key)) eqn:E3.
  { destruct (filtered_lines state =? 1); [handled_by ROW_TAB|].
    destruct (_ && _); handled_by ROW_TAB. }
  destruct (truthy (abe_test_action ROW_DOWN modstate key)) eqn:E4.
  { handled_by ROW_DOWN. }
  destruct (truthy (abe_test_action ROW_LEFT modstate key)) eqn:E5.
  { handled_by ROW_LEFT. }
  destruct (truthy (abe_test_action ROW_RIGHT modstate key)) eqn:E6.
  { destruct (rofi_view_nav_right state) as [state'|] eqn:Er; cbn.
    - destruct (Hright state' eq_refl) as [Hp _]. handled_by ROW_RIGHT.
    - split; [by apply nav_right_traps|by apply truthy_true]. }
  destruct (truthy (abe_test_action PAGE_PREV modstate key)) eqn:E7.
  { handled_by PAGE_PREV. }
  destruct (truthy (abe_test_action PAGE_NEXT modstate key)) eqn:E8.
  { handled_by PAGE_NEXT. }
  destruct (truthy (abe_test_action ROW_FIRST modstate key)) eqn:E9.
  { handled_by ROW_FIRST. }
  destruct (truthy (abe_test_action ROW_LAST modstate key)) eqn:E10.
  { handled_by ROW_LAST. }
  destruct (truthy (abe_test_action ROW_SELECT modstate key)) eqn:E11.
  { destruct (_ <? _); handled_by ROW_SELECT. }
  right. split; [done|]. split; [done|].
  intros a Ha. cbn in Ha.
  assert (Hz : forall a', truthy (abe_test_action a' modstate key) = false ->
                          abe_test_action a' modstate key = 0).
  { intros a'. unfold truthy.
    destruct (Z.eqb_spec (abe_test_action a' modstate key) 0);
      [done|discriminate]. }
  intuition (subst; by apply Hz).
Qed.

Section IterationProofs.
Context `{Helper} `{MenuReturn} `{KeyBindings} `{TextboxOps}.

Lemma keyboard_navigation_traps state key modstate :
  rofi_view_keyboard_navigation state key modstate = None ->
  max_rows state = 0.
Proof.
  unfold rofi_view_keyboard_navigation.
  repeat match goal with
         | |- context [if ?c then _ else _] => destruct c
         end; try discriminate.
  destruct (rofi_view_nav_right state) eqn:Er; cbn [mbind option_bind];
    [discriminate|]. intros _. by apply nav_right_traps.
Qed.

Lemma key_press_traps config state key pad modstate :
  key_press config state key pad modstate = None -> max_rows state = 0.
Proof.
  unfold key_press.
  destruct (negb (key =? XKB_KEY_NoSymbol)); [|discriminate].
  repeat match goal with
         | |- context [if truthy ?c then _ else _] => destruct (truthy c)
         end; try discriminate.
  destruct (_ && _); [discriminate|].
  destruct (custom_loop_frame (seqZ 1 19) state key modstate) as (Hr & _).
  destruct (rofi_view_keyboard_navigation _ key modstate) as [[h s]|] eqn:Ek;
    cbn [mbind option_bind].
  - destruct (truthy h); discriminate.
  - intros _. apply keyboard_navigation_traps in Ek. congruence.
Qed.
End IterationProofs.

(** The view state after a draw: the draw clears [rchanged] and changes
    nothing else of it; it traps exactly when there is no row. *)
Lemma rofi_view_draw_state (scroll_method : Z) (state : RofiViewState)
    (paging : Paging) :
  match rofi_view_draw scroll_method state paging with
  | Some (_, state', _) =>
      max_rows state <> 0 /\ state' = set_rchanged FALSE state
  | None => max_rows state = 0
  end.
Proof.
  assert (Hflag : forall s : RofiViewState,
            truthy (rchanged s) = false -> s = set_rchanged FALSE s).
  { intros s Hs. unfold truthy in Hs.
    destruct (Z.eqb_spec (rchanged s) 0) as [Hz|]; [|discriminate].
    destruct s. cbn in *. by subst. }
  unfold rofi_view_draw.
  destruct (scroll_method =? 1).
  - unfold rofi_scroll_continious. cbv zeta.
    cbn [filtered_lines max_elements max_rows columns rchanged set_rchanged].
    destruct (Z.eqb_spec (max_rows state) 0); [done|].
    change (truthy TRUE) with true. cbv iota. split; [done|reflexivity].
  - unfold rofi_scroll_per_page.
    destruct (_ && _).
    + destruct (Z.eqb_spec (max_rows state) 0); [done|].
      destruct (truthy (rchanged state)) eqn:Er; (split; [done|]);
        [reflexivity|by apply Hflag].
    + destruct (negb _);
        cbn [filtered_lines max_elements max_rows columns rchanged
             set_rchanged].
      * destruct (Z.eqb_spec (max_rows state) 0); [done|].
        change (truthy TRUE) with true. cbv iota. split; [done|reflexivity].
      * destruct (Z.eqb_spec (max_rows state) 0); [done|].
        destruct (truthy (rchanged state)) eqn:Er; (split; [done|]);
          [reflexivity|by apply Hflag].
Qed.

(** The redraw with its drawing against the redraw without: they agree
    on the view state whenever the draw does not trap, and it traps
    exactly when a redraw is requested for a window with boxes and no
    row. *)
Lemma rofi_view_update_draw_agrees (scroll_method : Z) (state : RofiViewState)
    (paging : Paging) :
  match rofi_view_update_draw scroll_method state paging with
  | Some (_, state', _) =>
      state' = rofi_view_update state
      /\ (max_rows state <> 0
          \/ truthy (update state) = false \/ max_elements state <= 0)
  | None =>
      max_rows state = 0 /\ truthy (update state) = true
      /\ 0 < max_elements state
  end.
Proof.
  unfold rofi_view_update_draw, rofi_view_update.
  destruct (truthy (update state)) eqn:Eu; cbn [negb]; [|auto].
  destruct (Z.gtb_spec (max_elements state) 0) as [Hpos|Hnone].
  - pose proof (rofi_view_draw_state scroll_method state paging) as Hdraw.
    destruct (rofi_view_draw scroll_method state paging)
      as [[[boxes s'] pg']|]; cbn [mbind option_bind].
    + destruct Hdraw as [Hr ->]. auto.
    + auto.
  - split; [done|]. right. right. lia.
Qed.

Section RedrawProofs.
Context `{Helper} `{MenuReturn} `{KeyBindings} `{TextboxOps}.

Lemma nav_keeps_max_rows (state : RofiViewState) :
  let same state' := max_rows state' = max_rows state in
  same (rofi_view_nav_up state) /\ same (rofi_view_nav_down state)
  /\ same (rofi_view_nav_left state)
  /\ (forall state', rofi_view_nav_right state = Some state' -> same state')
  /\ same (rofi_view_nav_page_prev state)
  /\ same (rofi_view_nav_page_next state)
  /\ same (rofi_view_nav_first state) /\ same (rofi_view_nav_last state).
Proof.
  cbv zeta.
  refine (conj _ (conj _ (conj _ (conj _ (conj _ (conj _ (conj _ _))))))).
  - unfold rofi_view_nav_up. nav_cases.
  - unfold rofi_view_nav_down. nav_cases.
  - unfold rofi_view_nav_left. nav_cases.
  - intros state'. unfold rofi_view_nav_right.
    repeat match goal with
           | |- context [if ?c then _ else _] => destruct c
           end; intros [= <-]; done.
  - unfold rofi_view_nav_page_prev. nav_cases.
  - unfold rofi_view_nav_page_next. nav_cases.
  - unfold rofi_view_nav_first. done.
  - unfold rofi_view_nav_last. nav_cases.
Qed.

Lemma keyboard_navigation_keeps_max_rows state key modstate handled state' :
  rofi_view_keyboard_navigation state key modstate = Some (handled, state') ->
  max_rows state' = max_rows state.
Proof.
  destruct (nav_keeps_max_rows state)
    as (Hup & Hdown & Hleft & Hright & Hpp & Hpn & Hfirst & Hlast).
  unfold rofi_view_keyboard_navigation.
  repeat match goal with
         | |- context [if ?c then _ else _] => destruct c
         end; try (intros [= <- <-]; done).
  destruct (rofi_view_nav_right state) as [s|] eqn:Er;
    cbn [mbind option_bind]; [|discriminate].
  intros [= <- <-]. by apply Hright.
Qed.

Lemma entry_box_keypress_keeps_max_rows state pad modstate key :
  max_rows (entry_box_keypress state pad modstate key) = max_rows state.
Proof.
  unfold entry_box_keypress. destruct (truthy (quit state)); [done|].
  destruct (textbox_keypress (text state) pad modstate key) as [rc tb].
  repeat match goal with
         | |- context [if ?c then _ else _] => destruct c
         end; reflexivity.
Qed.

Lemma key_press_keeps_max_rows config state key pad modstate config' state' :
  key_press config state key pad modstate = Some (config', state') ->
  max_rows state' = max_rows state.
Proof.
  unfold key_press.
  destruct (negb (key =? XKB_KEY_NoSymbol)).
  2:{ intros [= <- <-]. apply entry_box_keypress_keeps_max_rows. }
  repeat match goal with
         | |- context [if truthy ?c then _ else _] => destruct (truthy c)
         end; try (intros [= <- <-]; done).
  destruct (_ && _); [intros [= <- <-]; done|].
  destruct (custom_loop_frame (seqZ 1 19) state key modstate) as (Hr & _).
  destruct (rofi_view_keyboard_navigation _ key modstate) as [[h s]|] eqn:Ek;
    cbn [mbind option_bind]; [|discriminate].
  apply keyboard_navigation_keeps_max_rows in Ek.
  destruct (truthy h); intros [= <- <-];
    rewrite ?entry_box_keypress_keeps_max_rows; congruence.
Qed.
End RedrawProofs.

(** X14. Whatever the key, an iteration of the main loop on a key press,
    with the redraw and its drawing, fails only when [max_rows] is 0, where
    the draw divides by it; whenever there is at least one row, as the
    layout computation leaves it, the iteration returns with no filter pass
    and no redraw pending ([refilter] and [update] both clear) and leaves
    [max_rows] as it was, so that the next iteration returns as well. The
    view state it returns is the one of [rofi_view_mainloop_iter]. The
    redraw alone does fail when it is requested for a window with boxes
    and no row. *)
Theorem mainloop_iter_clears_requests
    `{Helper} `{MenuReturn} `{KeyBindings} `{TextboxOps}
    (config : Settings) (sched : list nat) (scroll_method : Z)
    (state : RofiViewState) (paging : Paging)
    (key : Z) (pad : string) (modstate : Z) :
  match rofi_view_mainloop_iter_draw config sched scroll_method state paging
          key pad modstate with
  | Some (config', state', _) =>
      refilter state' = FALSE /\ update state' = FALSE
      /\ max_rows state' = max_rows state
      /\ rofi_view_mainloop_iter config sched state key pad modstate
         = Some (config', state')
  | None => max_rows state = 0
  end
  /\ (max_rows state = 0 -> truthy (update state) = true ->
      0 < max_elements state ->
      rofi_view_update_draw scroll_method state paging = None).
Proof.
  split.
  - unfold rofi_view_mainloop_iter_draw, rofi_view_mainloop_iter.
    destruct (key_press config state key pad modstate) as [[config' s]|] eqn:Ek;
      cbn [mbind option_bind]; [|by apply key_press_traps in Ek].
    apply key_press_keeps_max_rows in Ek.
    set (s1 := if truthy (refilter s) then rofi_view_refilter config' sched s
               else s).
    assert (Hr : refilter s1 = FALSE).
    { subst s1. destruct (truthy (refilter s)) eqn:Et; [reflexivity|].
      unfold truthy in Et. by destruct (Z.eqb_spec (refilter s) 0). }
    assert (Hrows : max_rows s1 = max_rows state).
    { subst s1. destruct (truthy (refilter s)); [|done].
      destruct (refilter_keeps_inputs config' sched s) as (_ & _ & _ & _ & -> & _).
      done. }
    pose proof (rofi_view_update_draw_agrees scroll_method s1 paging) as Hupd.
    destruct (rofi_view_update_draw scroll_method s1 paging)
      as [[[boxes s2] pg2]|]; cbn [mbind option_bind].
    + destruct Hupd as [-> _].
      assert (Hflags : refilter (rofi_view_update s1) = FALSE
                       /\ update (rofi_view_update s1) = FALSE
                       /\ max_rows (rofi_view_update s1) = max_rows s1).
      { unfold rofi_view_update. destruct (truthy (update s1)) eqn:Eu.
        - cbn. destruct (_ >? _); done.
        - split; [done|]. split; [|done]. unfold truthy in Eu.
          by destruct (Z.eqb_spec (update s1) 0). }
      destruct Hflags as (? & ? & ?).
      split; [done|]. split; [done|]. split; [congruence|done].
    + destruct Hupd as [Hz _]. congruence.
  - intros Hz Hu Hpos.
    pose proof (rofi_view_update_draw_agrees scroll_method state paging) as Hupd.
    destruct (rofi_view_update_draw scroll_method state paging)
      as [[[boxes s2] pg2]|]; [|done].
    destruct Hupd as [_ [Hr|[Hf|Hn]]]; [done|congruence|lia].
Qed.

Section CustomKeys.
Context `{Helper} `{MenuReturn} `{KeyBindings} `{TextboxOps}.

(** The first custom action the key is bound to decides. *)
Lemma custom_loop_first_match actions1 a actions2 state key modstate :
  (forall b, In b actions1 -> abe_test_action (CUSTOM b) modstate key = 0) ->
  abe_test_action (CUSTOM a) modstate key <> 0 ->
  custom_loop (actions1 ++ a :: actions2) state key modstate
  = set_quit TRUE
      (set_retv (Z.lor MENU_QUICK_SWITCH (Z.land (a - 1) MENU_LOWER_MASK))
         (set_selected_line
            (if selected state <? filtered_lines state
             then aget (line_map state) (selected state) else UINT32_MAX)
            state)).
Proof.
  intros Hbefore Ha. induction actions1 as [|b actions1 IH].
  - cbn [app custom_loop]. apply truthy_true in Ha. rewrite Ha.
    cbn [selected filtered_lines set_selected_line].
    by destruct (_ <? _).
  - cbn [app custom_loop]. rewrite (Hbefore b) by (by left).
    cbn [truthy Z.eqb negb]. apply IH. intros b' Hb'. apply Hbefore. by right.
Qed.

Lemma keyboard_navigation_keeps_quit state key modstate :
  quit state = TRUE ->
  match rofi_view_keyboard_navigation state key modstate with
  | Some (_, state') => quit state' = TRUE
  | None => max_rows state = 0
  end.
Proof.
  intros Hq.
  destruct (nav_keeps_prev_key_and_quit state)
    as ([_ Hup] & [_ Hdown] & [_ Hleft] & Hright & [_ Hpp] & [_ Hpn]
        & [_ Hfirst] & [_ Hlast]).
  unfold rofi_view_keyboard_navigation.
  repeat match goal with
         | |- context [if ?c then _ else _] => destruct c
         end; try done; try congruence.
  destruct (rofi_view_nav_right state) as [state'|] eqn:Er;
    cbn [mbind option_bind].
  - destruct (Hright state' eq_refl) as [_ Hr]. congruence.
  - by apply nav_right_traps.
Qed.
End CustomKeys.

(** X15. A key bound to one of the nineteen custom actions, and to none of
    the actions tested before them, ends the session: the outcome is
    [MENU_QUICK_SWITCH] with the number of the lowest such action, less
    one, in the low bits, and [selected_line] is the source index under
    the selection, or [UINT32_MAX] without a valid selection. The key then
    still goes through the navigation bindings, which may replace the
    outcome but never clear [quit]; when none of them claims it, the key is
    recorded and the entry box does not see it. *)
Theorem custom_key_ends_session
    `{Helper} `{MenuReturn} `{KeyBindings} `{TextboxOps}
    (config : Settings) (state : RofiViewState) (key : Z) (pad : string)
    (modstate a : Z) :
  key <> XKB_KEY_NoSymbol ->
  (forall e, In e early_actions -> abe_test_action e modstate key = 0) ->
  1 <= a <= 19 -> abe_test_action (CUSTOM a) modstate key <> 0 ->
  (forall b, 1 <= b < a -> abe_test_action (CUSTOM b) modstate key = 0) ->
  let chosen :=
    set_quit TRUE
      (set_retv (Z.lor MENU_QUICK_SWITCH (Z.land (a - 1) MENU_LOWER_MASK))
         (set_selected_line
            (if selected state <? filtered_lines state
             then aget (line_map state) (selected state) else UINT32_MAX)
            state)) in
  custom_loop (seqZ 1 19) state key modstate = chosen
  /\ match key_press config state key pad modstate with
     | Some (config', state') => config' = config /\ quit state' = TRUE
     | None => max_rows state = 0
     end
  /\ ((forall n, In n navigation_actions -> abe_test_action n modstate key = 0) ->
      key_press config state key pad modstate
      = Some (config, set_prev_key key chosen)).
Proof.
  intros Hkey Hearly Ha Hbound Hfirst chosen.
  assert (Hloop : custom_loop (seqZ 1 19) state key modstate = chosen).
  { replace 19 with ((a - 1) + (19 - (a - 1))) by lia.
    rewrite seqZ_app by lia.
    rewrite (seqZ_cons (1 + (a - 1))) by lia.
    replace (1 + (a - 1)) with a by lia.
    apply custom_loop_first_match; [|done].
    intros b Hb. apply Hfirst.
    apply list_elem_of_In, elem_of_seqZ in Hb. lia. }
  assert (Hpress : key_press config state key pad modstate
                   = '(handled, state') ←
                       rofi_view_keyboard_navigation chosen key modstate;
                     if truthy handled then Some (config, state')
                     else Some (config,
                                entry_box_keypress state' pad modstate key)).
  { unfold key_press. destruct (Z.eqb_spec key XKB_KEY_NoSymbol); [done|].
    cbn [negb].
    rewrite !Hearly by (cbn; tauto). cbn [truthy Z.eqb negb andb].
    by rewrite Hloop. }
  split; [done|]. split.
  - rewrite Hpress.
    pose proof (keyboard_navigation_keeps_quit chosen key modstate eq_refl)
      as Hq.
    destruct (rofi_view_keyboard_navigation chosen key modstate)
      as [[handled state']|]; cbn [mbind option_bind]; [|exact Hq].
    destruct (truthy handled); [done|]. split; [done|].
    unfold entry_box_keypress. by rewrite Hq.
  - intros Hnav. rewrite Hpress.
    unfold rofi_view_keyboard_navigation.
    rewrite !Hnav by (cbn; tauto). cbn [truthy Z.eqb negb mbind option_bind].
    reflexivity.
Qed.

(** X16. A key the entry box takes as an edit ([rc == 1]) is followed by a
    filter pass in the same iteration: once the iteration returns, the
    entry box holds the new query, the filtered list is the scan of the
    entries against it (every entry when it is empty), the selection is
    in range and no pass is pending. Shown without ranking, for a key that
    no binding claims. *)
Theorem edit_refilters_in_same_iteration
    `{Helper} `{MenuReturn} `{KeyBindings} `{TextboxOps}
    (config : Settings) (sched : list nat) (state : RofiViewState)
    (key : Z) (pad : string) (modstate : Z) (tb : textbox.t) :
  (forall a, abe_test_action a modstate key = 0) ->
  quit state = FALSE ->
  textbox_keypress (text state) pad modstate key = (1, tb) ->
  truthy (levenshtein_sort config) = false ->
  0 <= num_lines state ->
  num_lines state + MAX 1 (num_lines state / 500) < 2 ^ 32 ->
  Z.of_nat (length (line_map state)) = num_lines state ->
  0 <= selected state ->
  exists state',
    rofi_view_mainloop_iter config sched state key pad modstate
    = Some (config, state')
    /\ text state' = tb
    /\ filtered_list state'
       = (if 0 <? Z.of_nat (String.length (textbox.text tb))
          then single_scan_filter config (set_text tb state)
          else seqZ 0 (num_lines state))
    /\ filtered_lines state' = Z.of_nat (length (filtered_list state'))
    /\ (0 < filtered_lines state' -> 0 <= selected state' < filtered_lines state')
    /\ (filtered_lines state' = 0 -> selected state' = 0)
    /\ refilter state' = FALSE.
Proof.
  intros Hno Hquit Hkp Hoff Hn Hov Hlm Hsel.
  unfold rofi_view_mainloop_iter.
  destruct (key_press_no_action config state key pad modstate Hno)
    as (state0 & Hstate0 & ->).
  cbn [mbind option_bind].
  assert (Hsame : quit state0 = quit state /\ text state0 = text state
                  /\ selected state0 = selected state
                  /\ num_lines state0 = num_lines state
                  /\ line_map state0 = line_map state
                  /\ sw state0 = sw state
                  /\ lines_not_ascii state0 = lines_not_ascii state).
  { by destruct Hstate0 as [-> | ->]. }
  destruct Hsame as (Hq0 & Ht0 & Hs0 & Hn0 & Hl0 & Hsw0 & Hna0).
  set (state1 := set_update TRUE (set_refilter TRUE (set_text tb state0))).
  assert (Hbox : entry_box_keypress state0 pad modstate key = state1).
  { unfold entry_box_keypress. by rewrite Hq0, Hquit, Ht0, Hkp. }
  rewrite Hbox.
  assert (Hr1 : truthy (refilter state1) = true) by reflexivity.
  rewrite Hr1.
  assert (Hn1 : num_lines state1 = num_lines state) by (subst state1; cbn; done).
  assert (Hl1 : line_map state1 = line_map state) by (subst state1; cbn; done).
  assert (Hs1 : selected state1 = selected state) by (subst state1; cbn; done).
  destruct (refilter_unranked_list config sched state1 Hoff)
    as (Hlist & Hflen & _);
    [by rewrite Hn1|by rewrite Hn1|by rewrite Hl1, Hn1|].
  destruct (refilter_selection_clamped config sched state1)
    as (Hin & Hzero & Hfr); [by rewrite Hs1|rewrite Hn1|].
  { pose proof (chunk_sizes _ Hn Hov). cbv zeta in *. lia. }
  destruct (refilter_keeps_inputs config sched state1) as (_ & Htx & _).
  set (state2 := rofi_view_refilter config sched state1) in *.
  assert (Hupd : forall s, let s' := rofi_view_update s in
            text s' = text s /\ line_map s' = line_map s
            /\ filtered_lines s' = filtered_lines s
            /\ selected s' = selected s /\ refilter s' = refilter s).
  { intros s. unfold rofi_view_update.
    destruct (truthy (update s)); [|done].
    destruct (_ >? _); done. }
  destruct (Hupd state2) as (Hu1 & Hu2 & Hu3 & Hu4 & Hu5).
  eexists. split; [reflexivity|].
  unfold filtered_list. rewrite Hu1, Hu2, Hu3, Hu4, Hu5.
  fold (filtered_list state2).
  split; [by rewrite Htx|]. split.
  { rewrite Hlist. replace (text state1) with tb by done. rewrite Hn1.
    destruct (0 <? _); [|done].
    unfold single_scan_filter. rewrite Hn1. cbn [num_lines set_text].
    apply List.filter_ext. intros i. unfold entry_matches.
    replace (sw state1) with (sw state) by (subst state1; cbn; done).
    replace (lines_not_ascii state1) with (lines_not_ascii state)
      by (subst state1; cbn; done).
    reflexivity. }
  split; [by rewrite Hflen, Hlist|].
  split; [intros Hpos; specialize (Hin Hpos); lia|].
  split; [intros Hz; apply Hzero; lia|reflexivity].
Qed.

(** ** Pasting *)

Lemma get_at_length (s : string) : String.get (String.length s) s = None.
Proof. induction s as [|c s IH]; [reflexivity|exact IH]. Qed.

Lemma c_char_at_length (s : string) :
  c_char_at s (Z.of_nat (String.length s)) = Ascii.zero.
Proof. unfold c_char_at. by rewrite Nat2Z.id, get_at_length. Qed.

(** X17. The loop of [rofi_view_paste] that is to strip new lines reads
    the pasted text at index [strlen], where the terminating NUL is, so it
    never runs: the text is inserted whole, trailing new lines included,
    at the cursor, and a redraw and a filter pass are requested. A failed
    conversion, another property, a missing or an empty text leave the
    view as it is. *)
Theorem paste_inserts_whole_text `{TextboxInsert}
    (state : RofiViewState) (pasted : string) :
  c_char_at pasted 0 <> Ascii.zero ->
  Z.of_nat (String.length pasted) < 2 ^ 32 ->
  let dl := Z.of_nat (String.length pasted) in
  let tb :=
    textbox_insert (text state) (textbox.cursor (text state)) pasted dl in
  paste_strip_loop (String.length pasted) pasted dl = (pasted, dl)
  /\ rofi_view_paste state UTF8_STRING (Some pasted)
     = set_refilter TRUE
         (set_update TRUE
            (set_text (textbox_cursor tb (s32 (textbox.cursor tb + dl))) state))
  /\ rofi_view_paste state UTF8_STRING (Some ""%string) = state
  /\ rofi_view_paste state UTF8_STRING None = state
  /\ (forall t, rofi_view_paste state XCB_ATOM_NONE t = state)
  /\ (forall t, rofi_view_paste state OTHER_ATOM t = state).
Proof.
  intros Hfirst Hlen dl tb.
  assert (Hloop : paste_strip_loop (String.length pasted) pasted dl
                  = (pasted, dl)).
  { subst dl. destruct (String.length pasted) eqn:El; [reflexivity|].
    cbn [paste_strip_loop]. rewrite <- El, c_char_at_length.
    by rewrite andb_false_r. }
  split; [done|]. split; [|done].
  unfold rofi_view_paste.
  destruct (Ascii.eqb_spec (c_char_at pasted 0) Ascii.zero); [done|].
  cbn [negb]. rewrite (u32_small (Z.of_nat (String.length pasted))) by lia.
  fold dl. by rewrite Hloop.
Qed.

(** ** drun: the field codes of a command line *)

Lemma append_String (c : ascii) (s t : string) :
  (String c s +:+ t = String c (s +:+ t))%string.
Proof. reflexivity. Qed.

Lemma append_empty (t : string) : (EmptyString +:+ t = t)%string.
Proof. reflexivity. Qed.

Lemma strip_arguments_length (s : string) : forall in_code,
  String.length (strip_arguments in_code s) = String.length s.
Proof.
  induction s as [|c s IH]; intros in_code; [reflexivity|].
  cbn [strip_arguments].
  destruct in_code; destruct (Ascii.eqb c _); cbn; by rewrite IH.
Qed.

Lemma strip_arguments_no_percent (s : string) : forall in_code,
  occurs "%" (strip_arguments in_code s) = false.
Proof.
  induction s as [|c s IH]; intros in_code; [reflexivity|].
  cbn [strip_arguments]. destruct in_code.
  - destruct (Ascii.eqb_spec c " ") as [->|_]; cbn; apply IH.
  - destruct (Ascii.eqb_spec c "%") as [->|Hne]; cbn; [apply IH|].
    destruct (Ascii.eqb_spec c "%"); [done|]. apply IH.
Qed.

Lemma strip_arguments_plain (s : string) :
  occurs "%" s = false -> strip_arguments false s = s.
Proof.
  induction s as [|c s IH]; [reflexivity|].
  cbn [occurs strip_arguments]. intros Hno.
  apply orb_false_elim in Hno as [Hc Hs]. rewrite Hc. by rewrite IH.
Qed.

Lemma strip_arguments_code (word rest : string) :
  occurs " " word = false ->
  strip_arguments true (word ++ String " " rest)
  = (spaces (String.length word) ++ String " " (strip_arguments false rest))%string.
Proof.
  induction word as [|c word IH]; intros Hno.
  - reflexivity.
  - cbn [occurs] in Hno. apply orb_false_elim in Hno as [Hc Hw].
    rewrite !append_String. cbn [strip_arguments String.length spaces].
    rewrite Hc. by rewrite append_String, IH.
Qed.

Lemma strip_arguments_code_end (word : string) :
  occurs " " word = false ->
  strip_arguments true word = spaces (String.length word).
Proof.
  induction word as [|c word IH]; intros Hno; [reflexivity|].
  cbn [occurs] in Hno. apply orb_false_elim in Hno as [Hc Hw].
  cbn [strip_arguments String.length spaces]. rewrite Hc. by rewrite IH.
Qed.

Lemma strip_arguments_prefix (before rest : string) :
  occurs "%" before = false ->
  strip_arguments false (before ++ rest)
  = (before ++ strip_arguments false rest)%string.
Proof.
  induction before as [|c before IH]; intros Hno; [reflexivity|].
  cbn [occurs] in Hno. apply orb_false_elim in Hno as [Hc Hb].
  rewrite !append_String. cbn [strip_arguments]. rewrite Hc. by rewrite IH.
Qed.

(** X18. The loop of [exec_cmd_entry] that strips the [%] arguments of a
    command line overwrites with spaces every stretch from a [%] to the
    next space or to the end, and nothing else: the text before the first
    [%] and after the space that ends a stretch is kept, the length is
    unchanged, no [%] is left, and stripping twice is stripping once. *)
Theorem strip_arguments_blanks_field_codes (before word rest : string) :
  occurs "%" before = false -> occurs " " word = false ->
  strip_arguments false (before ++ String "%" (word ++ String " " rest))
  = (before ++ spaces (S (String.length word))
       ++ String " " (strip_arguments false rest))%string
  /\ strip_arguments false (before ++ String "%" word)
     = (before ++ spaces (S (String.length word)))%string
  /\ strip_arguments false before = before
  /\ (forall s,
        String.length (strip_arguments false s) = String.length s
        /\ occurs "%" (strip_arguments false s) = false
        /\ strip_arguments false (strip_arguments false s)
           = strip_arguments false s).
Proof.
  intros Hb Hw.
  split; [|split; [|split]].
  - rewrite strip_arguments_prefix by done. cbn [strip_arguments spaces].
    cbn [Ascii.eqb Bool.eqb andb].
    by rewrite strip_arguments_code, append_String.
  - rewrite strip_arguments_prefix by done. cbn [strip_arguments spaces].
    cbn [Ascii.eqb Bool.eqb andb]. by rewrite strip_arguments_code_end.
  - by apply strip_arguments_plain.
  - intros s. split; [apply strip_arguments_length|].
    split; [apply strip_arguments_no_percent|].
    apply strip_arguments_plain, strip_arguments_no_percent.
Qed.

(** ** drun: the outcome of a session *)

Lemma memmove_entries_delete (l : list DRunModeEntry) (k : nat) :
  (k < length l)%nat ->
  let moved :=
    memmove_entries l (Z.of_nat k) (Z.of_nat k + 1)
      (Z.of_nat (length l) - Z.of_nat k - 1) in
  length moved = length l
  /\ take (length l - 1) moved = delete k l.
Proof.
  intros Hk moved. subst moved. unfold memmove_entries.
  replace (Z.to_nat (Z.of_nat (length l) - Z.of_nat k - 1))
    with (length l - k - 1)%nat by lia.
  replace (Z.to_nat (Z.of_nat k + 1)) with (S k) by lia.
  rewrite Nat2Z.id.
  assert (Hall : take (length l - k - 1) (drop (S k) l) = drop (S k) l).
  { apply take_ge. rewrite length_drop. lia. }
  rewrite Hall. split.
  - rewrite !length_app, length_take, !length_drop. lia.
  - rewrite app_assoc, take_app_length'.
    + symmetry. apply delete_take_drop.
    + rewrite length_app, length_take, length_drop. lia.
Qed.

(** X19. Deleting in drun: with the delete outcome alone, on a row that
    comes from the history, [drun_mode_result] asks for the entry to be
    dropped from the history file, closes the gap in [entry_list] (the
    entries keep their order, the list is one shorter) and asks for a
    reload; [history_length] is left as it was. On a row that does not
    come from the history it only asks for a reload. *)
Theorem drun_delete_closes_the_gap `{MenuReturn} `{ModeMode}
    (rmpd : DRunModePrivateData) (mretv : Z) (input : option string)
    (selected_line : Z) :
  drun_data_ok rmpd ->
  Z.land mretv MENU_NEXT = 0 -> Z.land mretv MENU_PREVIOUS = 0 ->
  Z.land mretv MENU_QUICK_SWITCH = 0 -> Z.land mretv MENU_OK = 0 ->
  Z.land mretv MENU_CUSTOM_INPUT = 0 ->
  Z.land mretv MENU_ENTRY_DELETE <> 0 ->
  0 <= selected_line < cmd_list_length rmpd ->
  if selected_line <? history_length rmpd then
    exists e rmpd',
      entry_list rmpd !! Z.to_nat selected_line = Some e
      /\ drun_mode_result rmpd mretv input selected_line
         = Some (RELOAD_DIALOG, rmpd', [delete_entry_history e])
      /\ take (Z.to_nat (cmd_list_length rmpd')) (entry_list rmpd')
         = delete (Z.to_nat selected_line) (entry_list rmpd)
      /\ cmd_list_length rmpd' = cmd_list_length rmpd - 1
      /\ history_length rmpd' = history_length rmpd
      /\ length (entry_list rmpd') = length (entry_list rmpd)
  else
    drun_mode_result rmpd mretv input selected_line
    = Some (RELOAD_DIALOG, rmpd, []).
Proof.
  intros (Hlen & Hhist & Hmax) Hnext Hprev Hquick Hok Hcustom Hdel Hsel.
  unfold drun_mode_result.
  rewrite Hnext, Hprev, Hquick, Hok, Hcustom.
  cbn [truthy Z.eqb negb andb].
  apply truthy_true in Hdel. rewrite Hdel.
  destruct (Z.ltb_spec selected_line (cmd_list_length rmpd)); [|lia].
  cbn [andb].
  destruct (Z.ltb_spec selected_line (history_length rmpd)); [|done].
  destruct (lookup_lt_is_Some_2 (entry_list rmpd) (Z.to_nat selected_line)
              ltac:(lia)) as [e He].
  rewrite He. exists e. eexists. split; [done|]. split; [reflexivity|].
  cbn [entry_list cmd_list_length history_length].
  rewrite (u32_small (cmd_list_length rmpd - 1)) by lia.
  rewrite (u32_small (cmd_list_length rmpd - selected_line - 1)) by lia.
  destruct (memmove_entries_delete (entry_list rmpd) (Z.to_nat selected_line)
              ltac:(lia)) as [Hl Ht].
  cbv zeta in Hl, Ht. rewrite Z2Nat.id, <- Hlen in Hl, Ht by lia.
  split; [|split; [done|split; [done|exact Hl]]].
  rewrite <- Ht. f_equal. lia.
Qed.

(** X20. Whatever the outcome bits, [drun_mode_result] makes at most one
    call to the outside, never changes [history_length], and changes the
    private data only when it drops a history entry; a switch to another
    mode (next, previous, quick switch) makes no call and leaves the data
    as they are, even when accept or delete bits are set as well. It
    fails only when the selected line is outside [entry_list]. *)
Theorem drun_result_is_conservative `{MenuReturn} `{ModeMode}
    (rmpd : DRunModePrivateData) (mretv : Z) (input : option string)
    (selected_line : Z) :
  match drun_mode_result rmpd mretv input selected_line with
  | Some (retv, rmpd', calls) =>
      (length calls <= 1)%nat
      /\ history_length rmpd' = history_length rmpd
      /\ (rmpd' = rmpd
          \/ (retv = RELOAD_DIALOG
              /\ selected_line < history_length rmpd
              /\ cmd_list_length rmpd' = u32 (cmd_list_length rmpd - 1)
              /\ exists e, calls = [delete_entry_history e]))
      /\ (Z.land mretv MENU_NEXT <> 0 \/ Z.land mretv MENU_PREVIOUS <> 0
          \/ Z.land mretv MENU_QUICK_SWITCH <> 0 ->
          calls = [] /\ rmpd' = rmpd)
  | None => entry_list rmpd !! Z.to_nat selected_line = None
  end.
Proof.
  unfold drun_mode_result.
  assert (Hz : forall z, truthy z = false -> z = 0).
  { intros z. unfold truthy. by destruct (Z.eqb_spec z 0). }
  destruct (truthy (Z.land mretv MENU_NEXT)) eqn:E1.
  { cbn. auto 10. }
  destruct (truthy (Z.land mretv MENU_PREVIOUS)) eqn:E2.
  { cbn. auto 10. }
  destruct (truthy (Z.land mretv MENU_QUICK_SWITCH)) eqn:E3.
  { cbn. auto 10. }
  apply Hz in E1, E2, E3.
  assert (Hno : Z.land mretv MENU_NEXT <> 0 \/ Z.land mretv MENU_PREVIOUS <> 0
                \/ Z.land mretv MENU_QUICK_SWITCH <> 0 -> False) by lia.
  destruct (truthy (Z.land mretv MENU_OK)).
  { destruct (entry_list rmpd !! Z.to_nat selected_line); [|done].
    cbn. split; [lia|]. split; [done|]. split; [by left|]. intros []%Hno. }
  destruct (_ && _).
  { destruct input; cbn; (split; [lia|]); (split; [done|]);
      (split; [by left|]); intros []%Hno. }
  destruct (_ && _).
  - destruct (Z.ltb_spec selected_line (history_length rmpd)).
    + destruct (entry_list rmpd !! Z.to_nat selected_line) as [e|]; [|done].
      cbn. split; [lia|]. split; [done|].
      split; [right; eauto 10|]. intros []%Hno.
    + cbn. split; [lia|]. split; [done|]. split; [by left|]. intros []%Hno.
  - cbn. split; [lia|]. split; [done|]. split; [by left|]. intros []%Hno.
Qed.

(** ** Placing the window *)

Lemma s32_u32 z : s32 (u32 z) = s32 z.
Proof. unfold s32, u32. by rewrite Zplus_mod_idemp_l. Qed.

(** X21. When the window is no larger than the work area of the monitor
    and no offset is configured, [calculate_window_position] puts it
    inside the work area, whatever the location and also in full-screen
    mode; the centre location leaves margins that differ by at most one
    pixel. The size of the window and the work area are not changed. *)
Theorem window_inside_monitor (config : PositionSettings) (state : window.t) :
  let m := window.mon state in
  - 2 ^ 31 <= workarea.x m -> workarea.x m + workarea.w m < 2 ^ 31 ->
  - 2 ^ 31 <= workarea.y m -> workarea.y m + workarea.h m < 2 ^ 31 ->
  0 <= window.w state <= workarea.w m ->
  0 <= window.h state <= workarea.h m ->
  x_offset config = 0 -> y_offset config = 0 ->
  let state' := calculate_window_position config state in
  workarea.x m <= window.x state'
  /\ window.x state' + window.w state <= workarea.x m + workarea.w m
  /\ workarea.y m <= window.y state'
  /\ window.y state' + window.h state <= workarea.y m + workarea.h m
  /\ window.w state' = window.w state /\ window.h state' = window.h state
  /\ window.mon state' = m
  /\ (fullscreen config = 0 -> location config = WL_CENTER ->
      let left := window.x state' - workarea.x m in
      let right := workarea.x m + workarea.w m
                   - (window.x state' + window.w state) in
      let top := window.y state' - workarea.y m in
      let bottom := workarea.y m + workarea.h m
                    - (window.y state' + window.h state) in
      left <= right <= left + 1 /\ top <= bottom <= top + 1).
Proof.
  intros m Hx Hxw Hy Hyh Hw Hh Hxo Hyo state'. subst state' m.
  destruct state as [[mx my mw mh] sx sy sw sh]. cbn in *.
  unfold calculate_window_position. rewrite Hxo, Hyo.
  destruct (truthy (fullscreen config)) eqn:Efs.
  { cbn. do 7 (split; [first [lia|reflexivity]|]).
    intros Hfs. rewrite Hfs in Efs. discriminate. }
  assert (Hdx : u32 (mw - sw) / 2 = (mw - sw) / 2)
    by (rewrite u32_small by lia; done).
  assert (Hdy : u32 (mh - sh) / 2 = (mh - sh) / 2)
    by (rewrite u32_small by lia; done).
  pose proof (Z.div_mod (mw - sw) 2 ltac:(lia)) as Hqx.
  pose proof (Z.mod_pos_bound (mw - sw) 2 ltac:(lia)) as Hrx.
  pose proof (Z.div_mod (mh - sh) 2 ltac:(lia)) as Hqy.
  pose proof (Z.mod_pos_bound (mh - sh) 2 ltac:(lia)) as Hry.
  assert (Hcx : s32 (u32 (mx + u32 (mw - sw) / 2)) = mx + (mw - sw) / 2).
  { rewrite s32_u32, Hdx. apply s32_small. lia. }
  assert (Hcy : s32 (u32 (my + u32 (mh - sh) / 2)) = my + (mh - sh) / 2).
  { rewrite s32_u32, Hdy. apply s32_small. lia. }
  assert (Hex : s32 (u32 (s32 (mx + mw) - sw)) = mx + mw - sw).
  { rewrite s32_u32, (s32_small (mx + mw)) by lia. apply s32_small. lia. }
  assert (Hsy : s32 (u32 (s32 (my + mh) - sh)) = my + mh - sh).
  { rewrite s32_u32, (s32_small (my + mh)) by lia. apply s32_small. lia. }
  destruct (location config) eqn:Eloc; cbn;
    unfold to_east, to_south, to_west, to_north; cbn;
    rewrite ?Hcx, ?Hcy, ?Hex, ?Hsy, ?Z.add_0_r;
    rewrite ?(s32_small mx), ?(s32_small my), ?(s32_small (mx + mw - sw)),
      ?(s32_small (my + mh - sh)), ?(s32_small (mx + (mw - sw) / 2)),
      ?(s32_small (my + (mh - sh) / 2)) by lia;
    do 7 (split; [first [lia|reflexivity]|]);
    intros _ Hc; try discriminate Hc; lia.
Qed.

(** ** The grid of the window *)

Lemma ceil_div_bounds a b :
  0 <= a -> 0 < b -> a <= ceil_div a b * b < a + b.
Proof.
  intros Ha Hb. unfold ceil_div.
  pose proof (Z.div_mod (a + b - 1) b ltac:(lia)).
  pose proof (Z.mod_pos_bound (a + b - 1) b Hb). nia.
Qed.

(** X22. The layout computation leaves a grid that has room for a page:
    at least one row and one column, no more rows than the window has
    lines, no more columns than configured, and
    [max_elements <= max_rows * columns]. *)
Theorem layout_grid_holds_a_page (config : Settings) (state : RofiViewState) :
  1 <= menu_columns config < 2 ^ 31 ->
  1 <= menu_lines state < 2 ^ 31 ->
  0 <= num_lines state < 2 ^ 31 ->
  menu_lines state * menu_columns config < 2 ^ 32 ->
  exists state',
    rofi_view_calculate_rows_columns config state = Some state'
    /\ 1 <= max_rows state' <= menu_lines state
    /\ 1 <= columns state' <= menu_columns config
    /\ 0 <= max_elements state' <= max_rows state' * columns state'
    /\ max_rows state' * columns state' <= menu_lines state * menu_columns config
    /\ filtered_lines state' = filtered_lines state
    /\ selected state' = selected state
    /\ line_map state' = line_map state.
Proof.
  intros Hc Hl Hn Hprod. unfold rofi_view_calculate_rows_columns.
  cbn [columns menu_lines num_lines max_rows max_elements
       set_columns set_max_elements set_max_rows].
  destruct (Z.eqb_spec (menu_columns config) 0) as [?|_]; [lia|].
  assert (Hpad : forall b, 0 < b < 2 ^ 31 ->
            u32 (num_lines state + u32 (b - num_lines state mod b) mod b) / b
            = ceil_div (num_lines state) b).
  { intros b Hb.
    pose proof (Z.mod_pos_bound (num_lines state) b ltac:(lia)) as Hr.
    rewrite (u32_small (b - _)) by lia.
    pose proof (Z.mod_pos_bound (b - num_lines state mod b) b ltac:(lia)) as Hp.
    rewrite u32_small by lia. apply padded_div_ceil; lia. }
  rewrite (Hpad (menu_columns config)) by lia.
  rewrite (u32_small (menu_lines state * menu_columns config)) by nia.
  pose proof (ceil_div_bounds (num_lines state) (menu_columns config)
                ltac:(lia) ltac:(lia)) as Hcc.
  pose proof (ceil_div_bounds (num_lines state) (menu_lines state)
                ltac:(lia) ltac:(lia)) as Hcl.
  destruct (Z.eqb_spec (fixed_num_lines config) TRUE) as [Hfix|Hfix].
  - destruct (Z.ltb_spec (num_lines state)
                (menu_lines state * menu_columns config)) as [Hlt|Hge];
      cbn [columns menu_lines num_lines max_rows max_elements
           set_columns set_max_elements set_max_rows].
    + rewrite (Hpad (menu_lines state)) by lia.
      assert (Hceil : 0 <= ceil_div (num_lines state) (menu_lines state)
                      <= menu_columns config) by nia.
      rewrite (u32_small (menu_lines state * _)) by nia.
      destruct (Z.eqb_spec (ceil_div (num_lines state) (menu_lines state)) 0)
        as [Hz|Hnz]; eexists; (split; [reflexivity|]); cbn;
        repeat split; try done; nia.
    + destruct (Z.eqb_spec (menu_columns config) 0); [lia|].
      eexists. split; [reflexivity|]. cbn. repeat split; try done; nia.
  - eexists. split; [reflexivity|]. cbn. rewrite !MAX_spec, !MIN_spec.
    repeat split; try done; nia.
Qed.

(** ** Drawing *)

Lemma alt_is_odd z : negb (Z.land z 1 =? 0) = Z.odd z.
Proof.
  replace (Z.land z 1) with (z mod 2)
    by (symmetry; apply (Z.land_ones _ 1); lia).
  rewrite Zmod_odd. by destruct (Z.odd z).
Qed.

Lemma draw_boxes_spec moved state offset max_el (n : nat) : forall fuel i,
  0 <= i -> 0 <= offset -> filtered_lines state < 2 ^ 32 ->
  i + Z.of_nat n <= max_el ->
  offset + i + Z.of_nat n <= filtered_lines state ->
  i + Z.of_nat n = max_el \/ offset + i + Z.of_nat n = filtered_lines state ->
  (n <= fuel)%nat ->
  draw_boxes fuel moved i state offset max_el
  = drawn_box moved state offset <$> seqZ i (Z.of_nat n).
Proof.
  induction n as [|n IH]; intros fuel i Hi Ho Hf Hmax Hfl Hstop Hfuel.
  - cbn [seqZ]. destruct fuel as [|fuel]; [reflexivity|].
    cbn [draw_boxes]. rewrite u32_small by lia.
    destruct (Z.ltb_spec i max_el); [|reflexivity].
    destruct (Z.ltb_spec (i + offset) (filtered_lines state)); [lia|reflexivity].
  - destruct fuel as [|fuel]; [lia|].
    cbn [draw_boxes]. rewrite (u32_small (i + offset)) by lia.
    destruct (Z.ltb_spec i max_el); [|lia].
    destruct (Z.ltb_spec (i + offset) (filtered_lines state)); [|lia].
    cbn [andb]. rewrite seqZ_cons by lia. cbn [fmap list_fmap].
    rewrite (u32_small (i + 1)) by lia.
    rewrite IH by lia.
    replace (Z.pred (Z.of_nat (S n))) with (Z.of_nat n) by lia.
    unfold Z.succ. f_equal. unfold drawn_box.
    by rewrite alt_is_odd, (Z.add_comm i offset).
Qed.

Lemma scroll_per_page_cases (state : RofiViewState) (paging : Paging) :
  1 <= max_elements state < 2 ^ 32 -> 0 <= selected state < 2 ^ 31 ->
  0 <= last_offset paging < 2 ^ 32 ->
  exists offset s1 pg1,
    rofi_scroll_per_page state paging = (offset, s1, pg1)
    /\ 0 <= offset <= selected state
    /\ selected state < offset + max_elements state
    /\ last_offset pg1 = offset
    /\ (s1 = state \/ s1 = set_rchanged TRUE state).
Proof.
  intros He Hs Hl. unfold rofi_scroll_per_page.
  destruct ((u32 (selected state - last_offset paging) <? max_elements state)
            && (selected state >=? last_offset paging)) eqn:Evis.
  - apply andb_prop in Evis as [Hlt Hge].
    apply Z.geb_le in Hge. apply Z.ltb_lt in Hlt.
    rewrite u32_small in Hlt by lia. rewrite u32_s32 by lia.
    eexists _, _, _. split; [reflexivity|]. repeat split; try lia. by left.
  - clear Evis.
    destruct (Z.gtb_spec (max_elements state) 0); [|lia].
    set (page := selected state / max_elements state).
    assert (Hpage : 0 <= page /\ page * max_elements state <= selected state
                    /\ selected state < page * max_elements state
                                        + max_elements state).
    { subst page.
      pose proof (Z.mod_pos_bound (selected state) (max_elements state)
                    ltac:(lia)).
      pose proof (Z.div_mod (selected state) (max_elements state) ltac:(lia)).
      split; [apply Z.div_pos; lia|]. nia. }
    assert (Hp31 : page < 2 ^ 31) by nia.
    rewrite (s32_small page) by lia.
    rewrite (u32_small page) by lia.
    rewrite (u32_small (page * max_elements state)) by lia.
    rewrite (s32_small (page * max_elements state)) by lia.
    rewrite (u32_small (page * max_elements state)) by lia.
    cbn [cur_page last_offset].
    destruct (negb (page =? cur_page paging));
      eexists _, _, _; (split; [reflexivity|]); cbn;
      repeat split; try lia; auto.
Qed.

(** What [rofi_view_draw] draws after the paged scroll. *)
Lemma draw_paged_spec (scroll_method : Z) (state : RofiViewState)
    (paging : Paging) :
  scroll_method <> 1 ->
  1 <= max_rows state -> 1 <= columns state ->
  1 <= max_elements state <= max_rows state * columns state ->
  max_rows state * columns state < 2 ^ 32 ->
  0 <= selected state < filtered_lines state ->
  filtered_lines state < 2 ^ 31 ->
  0 <= last_offset paging < 2 ^ 32 ->
  exists offset s1 pg1,
    let shown := Z.min (filtered_lines state - offset) (max_elements state) in
    rofi_scroll_per_page state paging = (offset, s1, pg1)
    /\ last_offset pg1 = offset
    /\ 0 <= offset <= selected state /\ selected state < offset + shown
    /\ (s1 = state \/ s1 = set_rchanged TRUE state)
    /\ rofi_view_draw scroll_method state paging
       = Some (drawn_box (truthy (rchanged s1)) state offset <$> seqZ 0 shown,
               (if truthy (rchanged s1) then set_rchanged FALSE s1 else s1),
               pg1).
Proof.
  intros Hsm Hr Hc He Hgrid Hs Hf Hl.
  destruct (scroll_per_page_cases state paging ltac:(lia) ltac:(lia) Hl)
    as (offset & s1 & pg1 & Esc & Ho & Hvis & Hlast & Hfr).
  exists offset, s1, pg1. cbv zeta.
  split; [done|]. split; [done|]. split; [done|]. split; [lia|].
  split; [done|].
  unfold rofi_view_draw.
  destruct (Z.eqb_spec scroll_method 1); [done|]. rewrite Esc.
  assert (Hs1 : filtered_lines s1 = filtered_lines state
                /\ max_elements s1 = max_elements state
                /\ max_rows s1 = max_rows state /\ columns s1 = columns state
                /\ selected s1 = selected state /\ line_map s1 = line_map state).
  { destruct Hfr as [-> | ->]; done. }
  destruct Hs1 as (Hf1 & He1 & Hr1 & Hc1 & Hsel1 & Hlm1).
  rewrite Hf1, He1, Hr1, Hc1.
  rewrite (u32_small (filtered_lines state - offset)) by lia.
  rewrite !MIN_spec.
  set (a_lines := Z.min (filtered_lines state - offset) (max_elements state)).
  assert (Ha : 1 <= a_lines <= max_elements state) by lia.
  destruct (Z.eqb_spec (max_rows state) 0); [lia|].
  assert (Hr32 : max_rows state < 2 ^ 32) by nia.
  pose proof (Z.mod_pos_bound a_lines (max_rows state) ltac:(lia)) as Hm.
  rewrite (u32_small (max_rows state - _)) by lia.
  pose proof (Z.mod_pos_bound (max_rows state - a_lines mod max_rows state)
                (max_rows state) ltac:(lia)) as Hp.
  assert (Hsum : a_lines + (max_rows state - a_lines mod max_rows state)
                           mod max_rows state < 2 ^ 32).
  { pose proof (Z.div_mod a_lines (max_rows state) ltac:(lia)) as Hdm.
    destruct (Z.eq_dec (a_lines mod max_rows state) 0) as [Hz|Hnz].
    - rewrite Hz, Z.sub_0_r, Z.mod_same by lia. lia.
    - rewrite (Z.mod_small (max_rows state - _)) by lia.
      assert (a_lines / max_rows state < columns state) by nia. nia. }
  rewrite (u32_small (a_lines + _)) by lia.
  rewrite padded_div_ceil by lia.
  pose proof (ceil_div_bounds a_lines (max_rows state) ltac:(lia) ltac:(lia))
    as Hcd.
  set (cols := Z.min (ceil_div a_lines (max_rows state)) (columns state)).
  assert (Hcols : a_lines <= max_rows state * cols) by (subst cols; nia).
  assert (Hcols' : max_rows state * cols <= max_rows state * columns state)
    by (subst cols; nia).
  rewrite (u32_small (max_rows state * cols)) by lia.
  replace (Z.min a_lines (max_rows state * cols)) with a_lines by lia.
  assert (Hboxes : forall moved,
            draw_boxes (Z.to_nat a_lines) moved 0 s1 offset a_lines
            = drawn_box moved state offset <$> seqZ 0 a_lines).
  { intros moved.
    rewrite (draw_boxes_spec moved s1 offset a_lines (Z.to_nat a_lines));
      rewrite ?Z2Nat.id, ?Hf1; try lia.
    apply list_fmap_ext. intros _ i _. unfold drawn_box.
    by rewrite Hlm1, Hsel1, Hr1. }
  rewrite !Hboxes. by destruct (truthy (rchanged s1)).
Qed.

(** X23. With the paged scroll, on a grid that has room for a page, the
    rows drawn are consecutive rows of the filtered list starting at the
    offset of the page, one per box, as many as the page or the rest of
    the list holds; the selected row is among them and is the one box that
    is highlighted; a box that is laid out again goes to a column and a
    row of the grid, filled column by column. *)
Theorem draw_shows_the_selection (scroll_method : Z) (state : RofiViewState)
    (paging : Paging) :
  scroll_method <> 1 ->
  1 <= max_rows state -> 1 <= columns state ->
  1 <= max_elements state <= max_rows state * columns state ->
  max_rows state * columns state < 2 ^ 32 ->
  0 <= selected state < filtered_lines state ->
  filtered_lines state < 2 ^ 31 ->
  0 <= last_offset paging < 2 ^ 32 ->
  exists boxes state' paging',
    let offset := last_offset paging' in
    rofi_view_draw scroll_method state paging = Some (boxes, state', paging')
    /\ Z.of_nat (length boxes)
       = Z.min (filtered_lines state - offset) (max_elements state)
    /\ (forall (i : nat) b, boxes !! i = Some b ->
          drawn.box b = Z.of_nat i
          /\ drawn.line b = aget (line_map state) (offset + Z.of_nat i)
          /\ (drawn.highlight b = true <-> offset + Z.of_nat i = selected state)
          /\ match drawn.cell b with
             | Some (c, r) =>
                 0 <= c < columns state /\ 0 <= r < max_rows state
                 /\ Z.of_nat i = c * max_rows state + r
             | None => True
             end)
    /\ (exists b, boxes !! Z.to_nat (selected state - offset) = Some b
                  /\ drawn.highlight b = true
                  /\ drawn.line b = aget (line_map state) (selected state))
    /\ rchanged state' = FALSE
    /\ filtered_lines state' = filtered_lines state
    /\ selected state' = selected state
    /\ line_map state' = line_map state.
Proof.
  intros Hsm Hr Hc He Hgrid Hs Hf Hl.
  destruct (draw_paged_spec scroll_method state paging Hsm Hr Hc He Hgrid Hs Hf Hl)
    as (offset & s1 & pg1 & Esc & Hlast & Ho & Hvis & Hfr & Hdraw).
  cbv zeta in Hvis, Hdraw.
  set (shown := Z.min (filtered_lines state - offset) (max_elements state)) in *.
  eexists _, _, pg1. cbv zeta. rewrite Hlast.
  split; [exact Hdraw|].
  assert (Hlookup : forall (i : nat) b,
            (drawn_box (truthy (rchanged s1)) state offset <$> seqZ 0 shown)
              !! i = Some b ->
            Z.of_nat i < shown
            /\ b = drawn_box (truthy (rchanged s1)) state offset (Z.of_nat i)).
  { intros i b Hb. rewrite list_lookup_fmap in Hb.
    destruct (seqZ 0 shown !! i) as [z|] eqn:Ez; [|discriminate].
    apply lookup_seqZ in Ez as [-> Hlt]. cbn in Hb. injection Hb as <-.
    split; [lia|]. by rewrite Z.add_0_l. }
  split; [by rewrite length_fmap, length_seqZ; lia|].
  split; [|split].
  - intros i b Hb. apply Hlookup in Hb as [Hi ->]. cbn.
    split; [done|]. split; [done|]. split; [apply Z.eqb_eq|].
    destruct (truthy (rchanged s1)); [|done].
    pose proof (Z.div_mod (Z.of_nat i) (max_rows state) ltac:(lia)).
    pose proof (Z.mod_pos_bound (Z.of_nat i) (max_rows state) ltac:(lia)).
    assert (0 <= Z.of_nat i / max_rows state) by (apply Z.div_pos; lia).
    split; [|split; [lia|lia]].
    split; [done|]. apply Z.div_lt_upper_bound; [lia|]. nia.
  - exists (drawn_box (truthy (rchanged s1)) state offset
              (selected state - offset)).
    split.
    + rewrite list_lookup_fmap.
      replace (seqZ 0 shown !! Z.to_nat (selected state - offset))
        with (Some (selected state - offset)); [done|].
      symmetry. apply lookup_seqZ. lia.
    + cbn. replace (offset + (selected state - offset)) with (selected state)
        by lia.
      by rewrite Z.eqb_refl.
  - destruct (truthy (rchanged s1)) eqn:Erc.
    + destruct Hfr as [-> | ->]; done.
    + assert (rchanged s1 = FALSE).
      { unfold truthy in Erc. by destruct (Z.eqb_spec (rchanged s1) 0). }
      destruct Hfr as [-> | ->]; done.
Qed.

(** ** The pointer *)

Lemma find_box_first box_hit max_el (k : nat) : forall fuel i,
  0 <= i -> i + Z.of_nat k < max_el -> max_el < 2 ^ 32 ->
  (k < fuel)%nat ->
  (forall j, i <= j < i + Z.of_nat k -> box_hit j = false) ->
  box_hit (i + Z.of_nat k) = true ->
  find_box fuel i max_el box_hit = Some (i + Z.of_nat k).
Proof.
  induction k as [|k IH]; intros fuel i Hi Hk Hm Hfuel Hbefore Hat;
    (destruct fuel as [|fuel]; [lia|]); cbn [find_box];
    (destruct (Z.ltb_spec i max_el); [|lia]).
  - rewrite Z.add_0_r in *. by rewrite Hat.
  - rewrite (Hbefore i) by lia. rewrite u32_small by lia.
    replace (i + Z.of_nat (S k)) with (i + 1 + Z.of_nat k) in * by lia.
    apply IH; try lia; [|done]. intros j Hj. apply Hbefore. lia.
Qed.

Lemma find_modi_off fuel i sidebar_mode num_modi modi_hit :
  sidebar_mode <> TRUE ->
  find_modi fuel i sidebar_mode num_modi modi_hit = None.
Proof.
  intros Hoff. destruct fuel as [|fuel]; [reflexivity|]. cbn [find_modi].
  by destruct (Z.eqb_spec sidebar_mode TRUE).
Qed.

(** X24. A click selects the row that is drawn in the box clicked: after
    a draw with the paged scroll, a press of one of the first three
    buttons on box [i], with no side bar and off the scrollbar, moves the
    selection to the row box [i] shows; a second press within 200 ms of
    the previous one accepts that row ([MENU_OK], with its source index in
    [selected_line]) and ends the session, a slower one leaves the outcome
    alone. The time of the press is recorded in both cases. *)
Theorem click_selects_the_row_drawn `{MenuReturn}
    (scroll_method sidebar_mode num_modi : Z) (state0 : RofiViewState)
    (paging0 : Paging) (pointer : Pointer) (detail time : Z)
    (modi_hit box_hit : Z -> bool)
    (boxes : list drawn.t) (state : RofiViewState) (paging : Paging)
    (i : nat) (b : drawn.t) :
  scroll_method <> 1 ->
  1 <= max_rows state0 -> 1 <= columns state0 ->
  1 <= max_elements state0 <= max_rows state0 * columns state0 ->
  max_rows state0 * columns state0 < 2 ^ 32 ->
  0 <= selected state0 < filtered_lines state0 ->
  filtered_lines state0 < 2 ^ 31 ->
  0 <= last_offset paging0 < 2 ^ 32 ->
  rofi_view_draw scroll_method state0 paging0 = Some (boxes, state, paging) ->
  boxes !! i = Some b ->
  detail <= 3 -> sidebar_mode <> TRUE ->
  box_hit (Z.of_nat i) = true ->
  (forall j, 0 <= j < Z.of_nat i -> box_hit j = false) ->
  exists state' pointer',
    rofi_view_mouse_navigation sidebar_mode num_modi state paging pointer
      detail time None modi_hit box_hit
    = Some (state', pointer')
    /\ selected state' = last_offset paging + Z.of_nat i
    /\ 0 <= selected state' < filtered_lines state'
    /\ aget (line_map state') (selected state') = drawn.line b
    /\ update state' = TRUE
    /\ last_button_press pointer' = time
    /\ (if u32 (time - last_button_press pointer) <? 200
        then quit state' = TRUE /\ retv state' = MENU_OK
             /\ selected_line state' = drawn.line b
             /\ skip_absorb pointer' = TRUE
        else quit state' = quit state /\ retv state' = retv state
             /\ selected_line state' = selected_line state
             /\ skip_absorb pointer' = skip_absorb pointer).
Proof.
  intros Hsm Hr Hc He Hgrid Hs Hf Hl Hdraw Hb Hdet Hside Hhit Hfirst.
  destruct (draw_paged_spec scroll_method state0 paging0 Hsm Hr Hc He Hgrid
              Hs Hf Hl)
    as (offset & s1 & pg1 & Esc & Hlast & Ho & Hvis & Hfr & Hdraw').
  cbv zeta in Hvis, Hdraw'. rewrite Hdraw' in Hdraw.
  injection Hdraw as <- <- <-.
  set (shown := Z.min (filtered_lines state0 - offset) (max_elements state0))
    in *.
  rewrite list_lookup_fmap in Hb.
  destruct (seqZ 0 shown !! i) as [z|] eqn:Ez; [|discriminate].
  apply lookup_seqZ in Ez as [-> Hlt]. cbn in Hb. injection Hb as <-.
  rewrite Z.add_0_l in *.
  set (state := if truthy (rchanged s1) then set_rchanged FALSE s1 else s1).
  assert (Hst : filtered_lines state = filtered_lines state0
                /\ max_elements state = max_elements state0
                /\ line_map state = line_map state0).
  { subst state. destruct Hfr as [-> | ->]; destruct (truthy _); done. }
  destruct Hst as (Hf1 & He1 & Hlm1).
  unfold rofi_view_mouse_navigation.
  destruct (Z.gtb_spec detail 3); [lia|].
  rewrite find_modi_off by done.
  pose proof (find_box_first box_hit (max_elements state) i
                (Z.to_nat (max_elements state)) 0) as Hfind.
  rewrite Z.add_0_l in Hfind. rewrite Hfind; try lia; try done.
  rewrite Hlast, (u32_small (offset + Z.of_nat i)) by lia.
  destruct (Z.geb_spec (offset + Z.of_nat i) (filtered_lines state)); [lia|].
  cbv zeta. cbn [line_map selected set_selected set_update set_retv].
  destruct (u32 (time - last_button_press pointer) <? 200);
    eexists _, _; (split; [reflexivity|]); cbn; rewrite ?Hlm1;
    repeat split; try done; lia.
Qed.

(** ** Restoring the selection *)

(** After a filter pass no source index is listed twice, and every one is
    an index of the source. *)
Lemma refilter_list_distinct `{Helper} `{MenuReturn}
    (config : Settings) (sched : list nat) (state : RofiViewState) :
  0 <= num_lines state < 2 ^ 31 ->
  Z.of_nat (length (line_map state)) = num_lines state ->
  let state' := rofi_view_refilter config sched state in
  NoDup (filtered_list state')
  /\ Forall (fun v => 0 <= v < num_lines state) (filtered_list state')
  /\ filtered_lines state' = Z.of_nat (length (filtered_list state'))
  /\ 0 <= filtered_lines state' <= num_lines state.
Proof.
  intros Hn Hlm state'. subst state'.
  assert (Hov : num_lines state + MAX 1 (num_lines state / 500) < 2 ^ 32).
  { rewrite MAX_spec.
    pose proof (Z.div_le_upper_bound (num_lines state) 500 (num_lines state)
                  ltac:(lia) ltac:(lia)). lia. }
  destruct (refilter_fields config sched state) as (Hl & _ & Hfl & _).
  destruct (Z.ltb_spec 0 (Z.of_nat (String.length (textbox.text (text state)))))
    as [Htext|Htext].
  - set (scan := single_scan_filter config state).
    assert (Hsub : scan `sublist_of` seqZ 0 (num_lines state))
      by apply filter_sublist.
    assert (Hlen : Z.of_nat (length scan) <= num_lines state).
    { apply sublist_length in Hsub. rewrite length_seqZ in Hsub. lia. }
    destruct (refilter_line_map_nonempty config sched state Htext
                ltac:(lia) Hov Hlm) as (Hmf & Htake & _).
    fold scan in Hmf, Htake. specialize (Htake ltac:(lia)).
    assert (Hperm : filtered_list (rofi_view_refilter config sched state)
                    ≡ₚ scan).
    { unfold filtered_list. rewrite Hl, Hfl, Hmf, Nat2Z.id, Htake.
      destruct (truthy (levenshtein_sort config)); [|done].
      apply msort_with_tmp_perm. }
    rewrite Hperm, Hfl, Hmf.
    split; [eapply sublist_NoDup; [apply NoDup_seqZ|exact Hsub]|].
    split; [|lia].
    apply Forall_forall. intros v Hv.
    apply list_elem_of_In, single_scan_filter_range in Hv. tauto.
  - destruct (refilter_line_map_empty config sched state ltac:(lia)
                ltac:(lia) Hlm) as [Hmf Hml].
    unfold filtered_list. rewrite Hl, Hfl, Hmf, Hml.
    rewrite take_ge by (rewrite length_seqZ; lia).
    split; [apply NoDup_seqZ|]. rewrite length_seqZ.
    split; [|lia].
    apply Forall_forall. intros v Hv. apply elem_of_seqZ in Hv. lia.
Qed.

Lemma aget_filtered_list (state : RofiViewState) (k : Z) :
  0 <= k < filtered_lines state ->
  filtered_lines state = Z.of_nat (length (filtered_list state)) ->
  filtered_list state !! Z.to_nat k = Some (aget (line_map state) k).
Proof.
  intros Hk Hlen. unfold aget. destruct (Z.ltb_spec k 0); [lia|].
  assert (Hlt : (Z.to_nat k < length (filtered_list state))%nat) by lia.
  destruct (lookup_lt_is_Some_2 _ _ Hlt) as [v Hv]. rewrite Hv. f_equal.
  unfold filtered_list in Hv. apply lookup_take_Some in Hv as [Hv _].
  symmetry. by apply nth_lookup_Some.
Qed.

(** X25. After a filter pass a row can be found again by its source
    index: [rofi_view_set_selected_line] called with the index shown in
    row [k] puts the selection back on row [k], with or without ranking
    and whatever the query. *)
Theorem selection_restored_by_source_index `{Helper} `{MenuReturn}
    (config : Settings) (sched : list nat) (state : RofiViewState) (k : Z) :
  0 <= num_lines state < 2 ^ 31 ->
  Z.of_nat (length (line_map state)) = num_lines state ->
  let state' := rofi_view_refilter config sched state in
  0 <= k < filtered_lines state' ->
  let restored :=
    rofi_view_set_selected_line state' (aget (line_map state') k) in
  selected restored = k
  /\ selected_line restored = aget (line_map state') k
  /\ 0 <= selected_line restored < num_lines state
  /\ filtered_list restored = filtered_list state'.
Proof.
  intros Hn Hlm state' Hk restored. subst restored.
  destruct (refilter_list_distinct config sched state Hn Hlm)
    as (Hnd & Hall & Hlen & Hfl).
  fold state' in Hnd, Hall, Hlen, Hfl.
  pose proof (aget_filtered_list state' k Hk Hlen) as Hat.
  assert (Hv : 0 <= aget (line_map state') k < num_lines state).
  { rewrite Forall_forall in Hall. apply Hall.
    by eapply list_elem_of_lookup_2. }
  assert (Hfirst : forall j, 0 <= j < k ->
            aget (line_map state') j <> aget (line_map state') k).
  { intros j Hj Heq.
    pose proof (aget_filtered_list state' j ltac:(lia) Hlen) as Hatj.
    rewrite Heq in Hatj.
    pose proof (NoDup_lookup _ _ _ _ Hnd Hatj Hat). lia. }
  clearbody state'.
  unfold rofi_view_set_selected_line. cbv zeta.
  cbn [filtered_lines set_selected set_selected_line].
  pose proof (find_selected_line_skips
                (set_selected 0
                   (set_selected_line (aget (line_map state') k) state'))
                (Z.to_nat k) (Z.to_nat (filtered_lines state')) 0) as Hfind.
  rewrite Z.add_0_l, Z2Nat.id in Hfind by lia.
  rewrite Hfind; cbn; try done; try lia.
  unfold UINT32_MAX. lia.
Qed.

(** What [rofi_view_draw] draws after the continuous scroll. *)
Lemma draw_continuous_spec (state : RofiViewState) (paging : Paging) :
  1 <= menu_lines state < 2 ^ 32 ->
  menu_lines state <= max_elements state
  \/ filtered_lines state <= max_elements state ->
  1 <= max_rows state -> 1 <= columns state ->
  1 <= max_elements state <= max_rows state * columns state ->
  max_rows state * columns state < 2 ^ 32 ->
  0 <= selected state < filtered_lines state ->
  filtered_lines state < 2 ^ 31 ->
  let offset :=
    Z.max 0 (Z.min (selected state - (menu_lines state - 1) / 2)
               (filtered_lines state - menu_lines state)) in
  let shown := Z.min (filtered_lines state - offset) (max_elements state) in
  0 <= offset <= selected state /\ selected state < offset + shown
  /\ rofi_view_draw 1 state paging
     = Some (drawn_box true state offset <$> seqZ 0 shown,
             set_rchanged FALSE state, paging).
Proof.
  intros Hm Hfit Hr Hc He Hgrid Hs Hf offset shown.
  assert (Hmr : 0 <= (menu_lines state - 1) / 2
                /\ 2 * ((menu_lines state - 1) / 2) <= menu_lines state - 1).
  { pose proof (Z.mod_pos_bound (menu_lines state - 1) 2 ltac:(lia)).
    pose proof (Z.div_mod (menu_lines state - 1) 2 ltac:(lia)).
    lia. }
  assert (Ho : 0 <= offset <= selected state) by (subst offset; lia).
  assert (Hvis : selected state < offset + shown) by (subst shown offset; lia).
  split; [done|]. split; [done|].
  unfold rofi_view_draw. cbn [Z.eqb Pos.eqb].
  rewrite (scroll_continious_offset state Hm Hs ltac:(lia)). fold offset.
  cbn [filtered_lines max_elements max_rows columns rchanged set_rchanged].
  rewrite (u32_small (filtered_lines state - offset)) by lia.
  rewrite !MIN_spec. fold shown.
  assert (Ha : 1 <= shown <= max_elements state) by lia.
  destruct (Z.eqb_spec (max_rows state) 0); [lia|].
  assert (Hr32 : max_rows state < 2 ^ 32) by nia.
  pose proof (Z.mod_pos_bound shown (max_rows state) ltac:(lia)) as Hmod.
  rewrite (u32_small (max_rows state - _)) by lia.
  pose proof (Z.mod_pos_bound (max_rows state - shown mod max_rows state)
                (max_rows state) ltac:(lia)) as Hp.
  assert (Hsum : shown + (max_rows state - shown mod max_rows state)
                         mod max_rows state < 2 ^ 32).
  { pose proof (Z.div_mod shown (max_rows state) ltac:(lia)) as Hdm.
    destruct (Z.eq_dec (shown mod max_rows state) 0) as [Hz|Hnz].
    - rewrite Hz, Z.sub_0_r, Z.mod_same by lia. lia.
    - rewrite (Z.mod_small (max_rows state - _)) by lia.
      assert (shown / max_rows state < columns state) by nia. nia. }
  rewrite (u32_small (shown + _)) by lia.
  rewrite padded_div_ceil by lia.
  pose proof (ceil_div_bounds shown (max_rows state) ltac:(lia) ltac:(lia))
    as Hcd.
  set (cols := Z.min (ceil_div shown (max_rows state)) (columns state)).
  assert (Hcols : shown <= max_rows state * cols) by (subst cols; nia).
  assert (Hcols' : max_rows state * cols <= max_rows state * columns state)
    by (subst cols; nia).
  rewrite (u32_small (max_rows state * cols)) by lia.
  replace (Z.min shown (max_rows state * cols)) with shown by lia.
  change (truthy TRUE) with true. cbv iota.
  rewrite (draw_boxes_spec true (set_rchanged TRUE state) offset shown
             (Z.to_nat shown));
    rewrite ?Z2Nat.id; cbn [filtered_lines set_rchanged]; try lia.
  reflexivity.
Qed.

(** X26. With the continuous scroll, in a window whose grid holds as many
    rows as it has lines (or the whole list), the rows drawn start at the
    offset that centres the selection, the boxes are laid out again at
    every draw, and the selected row is the one box highlighted: box
    [selected - offset], the middle one as long as the list extends far
    enough on both sides. *)
Theorem draw_continuous_centres_the_selection (state : RofiViewState)
    (paging : Paging) :
  1 <= menu_lines state < 2 ^ 32 ->
  menu_lines state <= max_elements state
  \/ filtered_lines state <= max_elements state ->
  1 <= max_rows state -> 1 <= columns state ->
  1 <= max_elements state <= max_rows state * columns state ->
  max_rows state * columns state < 2 ^ 32 ->
  0 <= selected state < filtered_lines state ->
  filtered_lines state < 2 ^ 31 ->
  let middle := (menu_lines state - 1) / 2 in
  exists boxes offset,
    rofi_view_draw 1 state paging
    = Some (boxes, set_rchanged FALSE state, paging)
    /\ offset = (rofi_scroll_continious state).1
    /\ Z.of_nat (length boxes)
       = Z.min (filtered_lines state - offset) (max_elements state)
    /\ (forall (i : nat) b, boxes !! i = Some b ->
          drawn.box b = Z.of_nat i
          /\ drawn.line b = aget (line_map state) (offset + Z.of_nat i)
          /\ (drawn.highlight b = true <-> Z.of_nat i = selected state - offset)
          /\ drawn.cell b
             = Some (Z.of_nat i / max_rows state, Z.of_nat i mod max_rows state))
    /\ (exists b, boxes !! Z.to_nat (selected state - offset) = Some b
                  /\ drawn.highlight b = true
                  /\ drawn.line b = aget (line_map state) (selected state))
    /\ (middle <= selected state ->
        selected state + (menu_lines state - middle) <= filtered_lines state ->
        selected state - offset = middle).
Proof.
  intros Hm Hfit Hr Hc He Hgrid Hs Hf middle.
  destruct (draw_continuous_spec state paging Hm Hfit Hr Hc He Hgrid Hs Hf)
    as (Ho & Hvis & Hdraw).
  cbv zeta in Ho, Hvis, Hdraw. fold middle in Ho, Hvis, Hdraw.
  set (offset := Z.max 0 (Z.min (selected state - middle)
                            (filtered_lines state - menu_lines state))) in *.
  set (shown := Z.min (filtered_lines state - offset) (max_elements state)) in *.
  eexists _, offset. split; [exact Hdraw|].
  split.
  { rewrite (scroll_continious_offset state Hm Hs ltac:(lia)). reflexivity. }
  split; [by rewrite length_fmap, length_seqZ; lia|].
  split; [|split].
  - intros i b Hb. rewrite list_lookup_fmap in Hb.
    destruct (seqZ 0 shown !! i) as [z|] eqn:Ez; [|discriminate].
    apply lookup_seqZ in Ez as [-> Hlt]. cbn in Hb. injection Hb as <-.
    rewrite Z.add_0_l. cbn. split; [done|]. split; [done|].
    split; [|done]. rewrite Z.eqb_eq. lia.
  - exists (drawn_box true state offset (selected state - offset)).
    split.
    + rewrite list_lookup_fmap.
      replace (seqZ 0 shown !! Z.to_nat (selected state - offset))
        with (Some (selected state - offset)); [done|].
      symmetry. apply lookup_seqZ. lia.
    + cbn. replace (offset + (selected state - offset)) with (selected state)
        by lia.
      by rewrite Z.eqb_refl.
  - intros Hlow Hhigh. subst offset. lia.
Qed.

(** ** The further statements on concrete inputs *)

Ltac evaluated :=
  vm_compute;
  repeat match goal with |- _ /\ _ => split end;
  first [reflexivity | discriminate].

(** X1 on six candidates in columns of three, the selection on the
    fourth: down goes to the fifth. *)
Lemma nav_keeps_selection_in_range_witness :
  0 <= selected six_in_two_columns < filtered_lines six_in_two_columns
  /\ filtered_lines six_in_two_columns < 2 ^ 32
  /\ 1 <= max_rows six_in_two_columns
  /\ 0 <= max_elements six_in_two_columns
  /\ 0 <= selected (rofi_view_nav_down six_in_two_columns)
     < filtered_lines six_in_two_columns.
Proof.
  assert (H1 : 0 <= selected six_in_two_columns
               < filtered_lines six_in_two_columns) by evaluated.
  assert (H2 : filtered_lines six_in_two_columns < 2 ^ 32) by evaluated.
  assert (H3 : 1 <= max_rows six_in_two_columns) by evaluated.
  assert (H4 : 0 <= max_elements six_in_two_columns) by evaluated.
  do 4 (split; [assumption|]).
  destruct (nav_keeps_selection_in_range six_in_two_columns H1 H2 H3 H4)
    as (_ & Hdown & _).
  exact Hdown.
Defined.

(** X2 on the same view. *)
Lemma nav_up_down_inverse_witness :
  0 <= selected six_in_two_columns < filtered_lines six_in_two_columns
  /\ filtered_lines six_in_two_columns < 2 ^ 32
  /\ selected (rofi_view_nav_down (rofi_view_nav_up six_in_two_columns))
     = selected six_in_two_columns.
Proof.
  assert (H1 : 0 <= selected six_in_two_columns
               < filtered_lines six_in_two_columns) by evaluated.
  assert (H2 : filtered_lines six_in_two_columns < 2 ^ 32) by evaluated.
  do 2 (split; [assumption|]).
  destruct (nav_up_down_inverse six_in_two_columns H1 H2) as [Hud _].
  exact Hud.
Defined.

(** X3 on the same view: left from the second column and back. *)
Lemma nav_left_right_inverse_witness :
  0 <= selected six_in_two_columns < filtered_lines six_in_two_columns
  /\ filtered_lines six_in_two_columns < 2 ^ 32
  /\ 0 <= max_rows six_in_two_columns
  /\ max_rows six_in_two_columns <= selected six_in_two_columns
  /\ exists state',
       rofi_view_nav_right (rofi_view_nav_left six_in_two_columns) = Some state'
       /\ selected state' = selected six_in_two_columns.
Proof.
  assert (H1 : 0 <= selected six_in_two_columns
               < filtered_lines six_in_two_columns) by evaluated.
  assert (H2 : filtered_lines six_in_two_columns < 2 ^ 32) by evaluated.
  assert (H3 : 0 <= max_rows six_in_two_columns) by evaluated.
  assert (H4 : max_rows six_in_two_columns <= selected six_in_two_columns)
    by evaluated.
  do 4 (split; [assumption|]).
  destruct (nav_left_right_inverse six_in_two_columns H1 H2 H3) as [_ Hlr].
  destruct (Hlr H4) as (state' & Hright & _ & Hsel).
  exists state'. split; assumption.
Defined.

(** X4 on the same view: a page of fifteen from the fourth of six rows
    ends on the last row. *)
Lemma nav_page_clamps_witness :
  0 <= selected six_in_two_columns < filtered_lines six_in_two_columns
  /\ filtered_lines six_in_two_columns < 2 ^ 32
  /\ 0 <= max_elements six_in_two_columns
  /\ selected six_in_two_columns + max_elements six_in_two_columns < 2 ^ 32
  /\ selected (rofi_view_nav_page_next six_in_two_columns) = 5.
Proof.
  assert (H1 : 0 <= selected six_in_two_columns
               < filtered_lines six_in_two_columns) by evaluated.
  assert (H2 : filtered_lines six_in_two_columns < 2 ^ 32) by evaluated.
  assert (H3 : 0 <= max_elements six_in_two_columns) by evaluated.
  assert (H4 : selected six_in_two_columns + max_elements six_in_two_columns
               < 2 ^ 32) by evaluated.
  do 4 (split; [assumption|]).
  destruct (nav_page_clamps six_in_two_columns H1 H2 H3 H4) as [Hnext _].
  rewrite Hnext. reflexivity.
Defined.

(** X5 on the view in which no entry matches "zz". *)
Lemma nav_on_empty_list_witness :
  filtered_lines no_match_state = 0 /\ selected no_match_state = 0
  /\ 0 <= max_rows no_match_state /\ 0 <= max_elements no_match_state
  /\ rofi_view_nav_right no_match_state = Some no_match_state.
Proof.
  assert (H1 : filtered_lines no_match_state = 0) by evaluated.
  assert (H2 : selected no_match_state = 0) by evaluated.
  assert (H3 : 0 <= max_rows no_match_state) by evaluated.
  assert (H4 : 0 <= max_elements no_match_state) by evaluated.
  do 4 (split; [assumption|]).
  destruct (nav_on_empty_list no_match_state H1 H2 H3 H4)
    as (_ & _ & _ & Hright & _).
  exact Hright.
Defined.

(** X6 on ten candidates in a window of fifteen lines: no scrolling. *)
Lemma scroll_continious_centres_witness :
  1 <= menu_lines hundred_entries < 2 ^ 32
  /\ 0 <= selected hundred_entries < filtered_lines hundred_entries
  /\ filtered_lines hundred_entries < 2 ^ 32
  /\ (rofi_scroll_continious hundred_entries).1 = 0.
Proof.
  assert (H1 : 1 <= menu_lines hundred_entries < 2 ^ 32) by evaluated.
  assert (H2 : 0 <= selected hundred_entries < filtered_lines hundred_entries)
    by evaluated.
  assert (H3 : filtered_lines hundred_entries < 2 ^ 32) by evaluated.
  do 3 (split; [assumption|]).
  destruct (scroll_continious_centres hundred_entries H1 H2 H3) as [Hoff _].
  rewrite Hoff. reflexivity.
Defined.

(** X7 on the six candidates: the first page. *)
Lemma scroll_per_page_shows_selection_witness :
  1 <= max_elements six_on_a_grid < 2 ^ 32
  /\ 0 <= selected six_on_a_grid < 2 ^ 31
  /\ 0 <= last_offset no_page_yet < 2 ^ 32
  /\ (rofi_scroll_per_page six_on_a_grid no_page_yet).1.1
     <= selected six_on_a_grid.
Proof.
  assert (H1 : 1 <= max_elements six_on_a_grid < 2 ^ 32) by evaluated.
  assert (H2 : 0 <= selected six_on_a_grid < 2 ^ 31) by evaluated.
  assert (H3 : 0 <= last_offset no_page_yet < 2 ^ 32) by evaluated.
  do 3 (split; [assumption|]).
  pose proof (scroll_per_page_shows_selection six_on_a_grid no_page_yet
                H1 H2 H3) as Hscroll.
  destruct (rofi_scroll_per_page six_on_a_grid no_page_yet)
    as [[offset state'] paging'].
  destruct Hscroll as ([Hlow _] & _). exact Hlow.
Defined.

(** X8 on the three candidates: the entry with source index 1 is on row
    1. *)
Lemma set_selected_line_finds_row_witness :
  0 <= 1 < UINT32_MAX
  /\ 0 <= 1 < filtered_lines three_candidates
  /\ filtered_lines three_candidates < 2 ^ 32
  /\ aget (line_map three_candidates) 1 = 1
  /\ selected (rofi_view_set_selected_line three_candidates 1) = 1.
Proof.
  assert (H1 : 0 <= 1 < UINT32_MAX) by evaluated.
  assert (H2 : 0 <= 1 < filtered_lines three_candidates) by evaluated.
  assert (H3 : filtered_lines three_candidates < 2 ^ 32) by evaluated.
  assert (H4 : aget (line_map three_candidates) 1 = 1) by evaluated.
  assert (H5 : forall j, 0 <= j < 1 -> aget (line_map three_candidates) j <> 1).
  { intros j Hj. replace j with 0 by lia. vm_compute. discriminate. }
  do 4 (split; [assumption|]).
  destruct (set_selected_line_finds_row three_candidates 1 1 H1 H2 H3 H4 H5)
    as [Hsel _].
  exact Hsel.
Defined.

(** X9 on the three candidates: "no entry" selects row 0. *)
Lemma set_selected_line_absent_witness :
  filtered_lines three_candidates < 2 ^ 32
  /\ selected (rofi_view_set_selected_line three_candidates UINT32_MAX) = 0.
Proof.
  assert (H1 : filtered_lines three_candidates < 2 ^ 32) by evaluated.
  split; [assumption|].
  destruct (set_selected_line_absent three_candidates UINT32_MAX H1
              (or_introl eq_refl)) as [Hsel _].
  exact Hsel.
Defined.

(** X10 on the three entries before anything is typed. *)
Lemma refilter_empty_query_lists_all_witness :
  textbox.text (text empty_query) = ""%string
  /\ 0 <= num_lines empty_query
  /\ Z.of_nat (length (line_map empty_query)) = num_lines empty_query
  /\ filtered_list
       (rofi_view_refilter (H := example_helper) (H0 := rofi_menu_return)
          example_config [] empty_query) = [0; 1; 2].
Proof.
  assert (H1 : textbox.text (text empty_query) = ""%string) by reflexivity.
  assert (H2 : 0 <= num_lines empty_query) by evaluated.
  assert (H3 : Z.of_nat (length (line_map empty_query)) = num_lines empty_query)
    by evaluated.
  do 3 (split; [assumption|]).
  destruct (refilter_empty_query_lists_all (H := example_helper)
              (H0 := rofi_menu_return) example_config [] empty_query H1 H2 H3)
    as [Hlist _].
  rewrite Hlist. reflexivity.
Defined.

(** X11 on the five entries ranked against "fi": four of them match. *)
Lemma refilter_lists_exactly_the_matches_witness :
  0 < Z.of_nat (String.length (textbox.text (text ranked_entries)))
  /\ 0 <= num_lines ranked_entries < 2 ^ 31
  /\ Z.of_nat (length (line_map ranked_entries)) = num_lines ranked_entries
  /\ NoDup
       (filtered_list
          (rofi_view_refilter (H := example_helper) (H0 := rofi_menu_return)
             ranking_config [] ranked_entries)).
Proof.
  assert (H1 : 0 < Z.of_nat (String.length (textbox.text (text ranked_entries))))
    by evaluated.
  assert (H2 : 0 <= num_lines ranked_entries < 2 ^ 31) by evaluated.
  assert (H3 : Z.of_nat (length (line_map ranked_entries))
               = num_lines ranked_entries) by evaluated.
  do 3 (split; [assumption|]).
  destruct (refilter_lists_exactly_the_matches (H := example_helper)
              (H0 := rofi_menu_return) ranking_config [] ranked_entries
              H1 H2 H3) as (_ & Hnd & _).
  exact Hnd.
Defined.

(** X12 on the three entries, the second pass under another schedule. *)
Lemma refilter_twice_witness :
  truthy (levenshtein_sort example_config) = false
  /\ 0 <= num_lines three_entries
  /\ num_lines three_entries + MAX 1 (num_lines three_entries / 500) < 2 ^ 32
  /\ Z.of_nat (length (line_map three_entries)) = num_lines three_entries
  /\ 0 <= selected three_entries
  /\ filtered_list
       (rofi_view_refilter (H := example_helper) (H0 := rofi_menu_return)
          example_config [0; 0]%nat three_candidates)
     = filtered_list three_candidates.
Proof.
  assert (H1 : truthy (levenshtein_sort example_config) = false) by reflexivity.
  assert (H2 : 0 <= num_lines three_entries) by evaluated.
  assert (H3 : num_lines three_entries + MAX 1 (num_lines three_entries / 500)
               < 2 ^ 32) by evaluated.
  assert (H4 : Z.of_nat (length (line_map three_entries))
               = num_lines three_entries) by evaluated.
  assert (H5 : 0 <= selected three_entries) by evaluated.
  do 5 (split; [assumption|]).
  destruct (refilter_twice (H := example_helper) (H0 := rofi_menu_return)
              example_config [] [0; 0]%nat three_entries H1 H2 H3 H4 H5)
    as [Hlist _].
  exact Hlist.
Defined.

(** X15 on the digit bindings: the key [2] is the second custom action,
    so the low bits of the outcome hold 1. *)
Lemma custom_key_ends_session_witness :
  XKB_KEY_0 + 2 <> XKB_KEY_NoSymbol
  /\ 1 <= 2 <= 19
  /\ abe_test_action (KeyBindings := digit_bindings) (CUSTOM 2) 0 (XKB_KEY_0 + 2)
     <> 0
  /\ exists state',
       key_press (H0 := rofi_menu_return)
         (H1 := digit_bindings) (H2 := example_textbox)
         example_config three_candidates (XKB_KEY_0 + 2) "2"%string 0
       = Some (example_config, state')
       /\ quit state' = TRUE
       /\ retv state'
          = Z.lor (MENU_QUICK_SWITCH (MenuReturn := rofi_menu_return)) 1.
Proof.
  assert (H1 : XKB_KEY_0 + 2 <> XKB_KEY_NoSymbol) by (vm_compute; discriminate).
  assert (H2 : forall e, In e early_actions ->
                 abe_test_action (KeyBindings := digit_bindings) e 0
                   (XKB_KEY_0 + 2) = 0).
  { intros e He. cbn in He.
    repeat (destruct He as [<-|He]; [reflexivity|]). destruct He. }
  assert (H3 : 1 <= 2 <= 19) by lia.
  assert (H4 : abe_test_action (KeyBindings := digit_bindings) (CUSTOM 2) 0
                 (XKB_KEY_0 + 2) <> 0) by (vm_compute; discriminate).
  assert (H5 : forall b, 1 <= b < 2 ->
                 abe_test_action (KeyBindings := digit_bindings) (CUSTOM b) 0
                   (XKB_KEY_0 + 2) = 0).
  { intros b Hb. replace b with 1 by lia. reflexivity. }
  assert (H6 : forall n, In n navigation_actions ->
                 abe_test_action (KeyBindings := digit_bindings) n 0
                   (XKB_KEY_0 + 2) = 0).
  { intros n Hn. cbn in Hn.
    repeat (destruct Hn as [<-|Hn]; [reflexivity|]). destruct Hn. }
  split; [assumption|]. split; [assumption|]. split; [assumption|].
  destruct (custom_key_ends_session (H := example_helper)
              (H0 := rofi_menu_return) (H1 := digit_bindings)
              (H2 := example_textbox) example_config three_candidates
              (XKB_KEY_0 + 2) "2"%string 0 2 H1 H2 H3 H4 H5)
    as (_ & _ & Hpress).
  eexists. split; [exact (Hpress H6)|]. split; reflexivity.
Defined.

(** X16 on the three entries: typing [z] after "fi" leaves no candidate. *)
Lemma edit_refilters_in_same_iteration_witness :
  quit three_candidates = FALSE
  /\ truthy (levenshtein_sort example_config) = false
  /\ 0 <= num_lines three_candidates
  /\ Z.of_nat (length (line_map three_candidates)) = num_lines three_candidates
  /\ 0 <= selected three_candidates
  /\ exists state',
       rofi_view_mainloop_iter (H := example_helper) (H0 := rofi_menu_return)
         (H1 := example_bindings) (H2 := example_textbox)
         example_config [] three_candidates XKB_KEY_z "z"%string 0
       = Some (example_config, state')
       /\ textbox.text (text state') = "fiz"%string
       /\ filtered_list state' = [].
Proof.
  assert (H1 : forall a,
             abe_test_action (KeyBindings := example_bindings) a 0 XKB_KEY_z = 0)
    by (intros a; destruct a; reflexivity).
  assert (H2 : quit three_candidates = FALSE) by reflexivity.
  assert (H3 : textbox_keypress (TextboxOps := example_textbox)
                 (text three_candidates) "z"%string 0 XKB_KEY_z
               = (1, {| textbox.text := "fiz"; textbox.cursor := 1 |}))
    by reflexivity.
  assert (H4 : truthy (levenshtein_sort example_config) = false) by reflexivity.
  assert (H5 : 0 <= num_lines three_candidates) by evaluated.
  assert (H6 : num_lines three_candidates
               + MAX 1 (num_lines three_candidates / 500) < 2 ^ 32) by evaluated.
  assert (H7 : Z.of_nat (length (line_map three_candidates))
               = num_lines three_candidates) by evaluated.
  assert (H8 : 0 <= selected three_candidates) by evaluated.
  split; [assumption|]. split; [assumption|]. split; [assumption|].
  split; [assumption|]. split; [assumption|].
  destruct (edit_refilters_in_same_iteration (H := example_helper)
              (H0 := rofi_menu_return) (H1 := example_bindings)
              (H2 := example_textbox) example_config [] three_candidates
              XKB_KEY_z "z"%string 0 _ H1 H2 H3 H4 H5 H6 H7 H8)
    as (state' & Hiter & Htext & Hlist & _).
  exists state'. split; [exact Hiter|]. split; [by rewrite Htext|].
  rewrite Hlist. reflexivity.
Defined.

(** X17 on a pasted line that ends in a new line: three characters are
    inserted. *)
Lemma paste_inserts_whole_text_witness :
  c_char_at pasted_line 0 <> Ascii.zero
  /\ Z.of_nat (String.length pasted_line) < 2 ^ 32
  /\ paste_strip_loop (String.length pasted_line) pasted_line 3
     = (pasted_line, 3)
  /\ textbox.text
       (text (rofi_view_paste (H := example_insert) empty_query UTF8_STRING
                (Some pasted_line)))
     = pasted_line.
Proof.
  assert (H1 : c_char_at pasted_line 0 <> Ascii.zero)
    by (vm_compute; discriminate).
  assert (H2 : Z.of_nat (String.length pasted_line) < 2 ^ 32) by evaluated.
  split; [assumption|]. split; [assumption|].
  destruct (paste_inserts_whole_text (H := example_insert) empty_query
              pasted_line H1 H2) as (Hloop & Hpaste & _).
  split; [exact Hloop|]. rewrite Hpaste. reflexivity.
Defined.

(** X18 on the command line of the Firefox entry with an option after
    the field code. *)
Lemma strip_arguments_blanks_field_codes_witness :
  occurs "%" "firefox " = false /\ occurs " " "u" = false
  /\ strip_arguments false "firefox %u --new-window"
     = "firefox    --new-window"%string.
Proof.
  assert (H1 : occurs "%" "firefox " = false) by reflexivity.
  assert (H2 : occurs " " "u" = false) by reflexivity.
  split; [assumption|]. split; [assumption|].
  destruct (strip_arguments_blanks_field_codes "firefox " "u" "--new-window"
              H1 H2) as [Hstrip _].
  exact Hstrip.
Defined.

(** X19 on two entries of which the first comes from the history: it is
    deleted and the second takes its place. *)
Lemma drun_delete_closes_the_gap_witness :
  drun_data_ok two_desktop_files
  /\ 0 <= 0 < cmd_list_length two_desktop_files
  /\ exists rmpd',
       drun_mode_result (H := rofi_menu_return) (H0 := rofi_mode_mode)
         two_desktop_files (MENU_ENTRY_DELETE (MenuReturn := rofi_menu_return))
         None 0
       = Some (RELOAD_DIALOG (ModeMode := rofi_mode_mode), rmpd',
               [delete_entry_history firefox_entry])
       /\ take (Z.to_nat (cmd_list_length rmpd')) (entry_list rmpd')
          = [gimp_entry].
Proof.
  assert (H1 : drun_data_ok two_desktop_files).
  { unfold drun_data_ok. cbn. lia. }
  assert (H2 : 0 <= 0 < cmd_list_length two_desktop_files) by evaluated.
  split; [assumption|]. split; [assumption|].
  pose proof (drun_delete_closes_the_gap (H := rofi_menu_return)
                (H0 := rofi_mode_mode) two_desktop_files
                (MENU_ENTRY_DELETE (MenuReturn := rofi_menu_return)) None 0
                H1 eq_refl eq_refl eq_refl eq_refl eq_refl
                ltac:(vm_compute; discriminate) H2) as Hdel.
  change (0 <? history_length two_desktop_files) with true in Hdel.
  destruct Hdel as (e & rmpd' & He & Hres & Htake & _).
  injection He as <-.
  exists rmpd'. split; [exact Hres|]. rewrite Htake. reflexivity.
Defined.

(** X21 on a window of 800 by 600 sent to the upper right corner of a
    monitor of 1920 by 1080. *)
Lemma window_inside_monitor_witness :
  0 <= window.w small_window <= workarea.w (window.mon small_window)
  /\ 0 <= window.h small_window <= workarea.h (window.mon small_window)
  /\ x_offset north_east = 0 /\ y_offset north_east = 0
  /\ workarea.x (window.mon small_window)
     <= window.x (calculate_window_position north_east small_window)
  /\ window.x (calculate_window_position north_east small_window)
     + window.w small_window
     <= workarea.x (window.mon small_window)
        + workarea.w (window.mon small_window).
Proof.
  assert (H1 : - 2 ^ 31 <= workarea.x (window.mon small_window)) by evaluated.
  assert (H2 : workarea.x (window.mon small_window)
               + workarea.w (window.mon small_window) < 2 ^ 31) by evaluated.
  assert (H3 : - 2 ^ 31 <= workarea.y (window.mon small_window)) by evaluated.
  assert (H4 : workarea.y (window.mon small_window)
               + workarea.h (window.mon small_window) < 2 ^ 31) by evaluated.
  assert (H5 : 0 <= window.w small_window
               <= workarea.w (window.mon small_window)) by evaluated.
  assert (H6 : 0 <= window.h small_window
               <= workarea.h (window.mon small_window)) by evaluated.
  assert (H7 : x_offset north_east = 0) by reflexivity.
  assert (H8 : y_offset north_east = 0) by reflexivity.
  split; [assumption|]. split; [assumption|]. split; [assumption|].
  split; [assumption|].
  destruct (window_inside_monitor north_east small_window H1 H2 H3 H4 H5 H6
              H7 H8) as (Hx1 & Hx2 & _).
  split; assumption.
Defined.

(** X22 on the hundred entries in a window of fifteen lines. *)
Lemma layout_grid_holds_a_page_witness :
  1 <= menu_columns example_config < 2 ^ 31
  /\ 1 <= menu_lines hundred_entries < 2 ^ 31
  /\ 0 <= num_lines hundred_entries < 2 ^ 31
  /\ menu_lines hundred_entries * menu_columns example_config < 2 ^ 32
  /\ exists state',
       rofi_view_calculate_rows_columns example_config hundred_entries
       = Some state'
       /\ max_elements state' <= max_rows state' * columns state'.
Proof.
  assert (H1 : 1 <= menu_columns example_config < 2 ^ 31) by evaluated.
  assert (H2 : 1 <= menu_lines hundred_entries < 2 ^ 31) by evaluated.
  assert (H3 : 0 <= num_lines hundred_entries < 2 ^ 31) by evaluated.
  assert (H4 : menu_lines hundred_entries * menu_columns example_config
               < 2 ^ 32) by evaluated.
  do 4 (split; [assumption|]).
  destruct (layout_grid_holds_a_page example_config hundred_entries
              H1 H2 H3 H4) as (state' & Hcalc & _ & _ & [_ Hgrid] & _).
  exists state'. split; assumption.
Defined.

(** X23 on the six candidates on their grid: box 3 is highlighted. *)
Lemma draw_shows_the_selection_witness :
  0 <> 1
  /\ 1 <= max_rows six_on_a_grid /\ 1 <= columns six_on_a_grid
  /\ 1 <= max_elements six_on_a_grid
     <= max_rows six_on_a_grid * columns six_on_a_grid
  /\ 0 <= selected six_on_a_grid < filtered_lines six_on_a_grid
  /\ exists boxes state' paging',
       rofi_view_draw 0 six_on_a_grid no_page_yet
       = Some (boxes, state', paging')
       /\ Z.of_nat (length boxes) = 6
       /\ drawn.highlight <$> boxes
          = [false; false; false; true; false; false].
Proof.
  assert (H1 : 0 <> 1) by discriminate.
  assert (H2 : 1 <= max_rows six_on_a_grid) by evaluated.
  assert (H3 : 1 <= columns six_on_a_grid) by evaluated.
  assert (H4 : 1 <= max_elements six_on_a_grid
               <= max_rows six_on_a_grid * columns six_on_a_grid) by evaluated.
  assert (H5 : max_rows six_on_a_grid * columns six_on_a_grid < 2 ^ 32)
    by evaluated.
  assert (H6 : 0 <= selected six_on_a_grid < filtered_lines six_on_a_grid)
    by evaluated.
  assert (H7 : filtered_lines six_on_a_grid < 2 ^ 31) by evaluated.
  assert (H8 : 0 <= last_offset no_page_yet < 2 ^ 32) by evaluated.
  split; [assumption|]. split; [assumption|]. split; [assumption|].
  split; [assumption|]. split; [assumption|].
  destruct (draw_shows_the_selection 0 six_on_a_grid no_page_yet
              H1 H2 H3 H4 H5 H6 H7 H8)
    as (boxes & state' & paging' & Hdraw & Hlen & _).
  exists boxes, state', paging'. split; [exact Hdraw|].
  assert (Hval : rofi_view_draw 0 six_on_a_grid no_page_yet
                 = Some (boxes, state', paging')) by exact Hdraw.
  vm_compute in Hval. injection Hval as <- _ _.
  split; reflexivity.
Defined.

(** X24 on the same view: a double click on box 4 accepts the fifth
    row. *)
Lemma click_selects_the_row_drawn_witness :
  exists boxes state paging b,
    rofi_view_draw 0 six_on_a_grid no_page_yet = Some (boxes, state, paging)
    /\ boxes !! 4%nat = Some b
    /\ exists state' pointer',
         rofi_view_mouse_navigation (H := rofi_menu_return) 0 0 state paging
           no_press_yet 1 100 None (fun _ => false) (fun j => j =? 4)
         = Some (state', pointer')
         /\ selected state' = 4 /\ quit state' = TRUE
         /\ retv state' = MENU_OK (MenuReturn := rofi_menu_return).
Proof.
  assert (H1 : 0 <> 1) by discriminate.
  assert (H2 : 1 <= max_rows six_on_a_grid) by evaluated.
  assert (H3 : 1 <= columns six_on_a_grid) by evaluated.
  assert (H4 : 1 <= max_elements six_on_a_grid
               <= max_rows six_on_a_grid * columns six_on_a_grid) by evaluated.
  assert (H5 : max_rows six_on_a_grid * columns six_on_a_grid < 2 ^ 32)
    by evaluated.
  assert (H6 : 0 <= selected six_on_a_grid < filtered_lines six_on_a_grid)
    by evaluated.
  assert (H7 : filtered_lines six_on_a_grid < 2 ^ 31) by evaluated.
  assert (H8 : 0 <= last_offset no_page_yet < 2 ^ 32) by evaluated.
  destruct (rofi_view_draw 0 six_on_a_grid no_page_yet)
    as [[[boxes state] paging]|] eqn:Hdraw; [|vm_compute in Hdraw; discriminate].
  destruct (boxes !! 4%nat) as [b|] eqn:Hb.
  2:{ vm_compute in Hdraw. injection Hdraw as <- _ _. discriminate Hb. }
  exists boxes, state, paging, b. split; [reflexivity|]. split; [exact Hb|].
  assert (H9 : 1 <= 3) by lia.
  assert (H10 : 0 <> TRUE) by discriminate.
  assert (H11 : (fun j => j =? 4) (Z.of_nat 4) = true) by reflexivity.
  assert (H12 : forall j, 0 <= j < Z.of_nat 4 -> (fun j => j =? 4) j = false).
  { intros j Hj. apply Z.eqb_neq. lia. }
  destruct (click_selects_the_row_drawn (H := rofi_menu_return) 0 0 0
              six_on_a_grid no_page_yet no_press_yet 1 100 (fun _ => false)
              (fun j => j =? 4) boxes state paging 4 b
              H1 H2 H3 H4 H5 H6 H7 H8 Hdraw Hb H9 H10 H11 H12)
    as (state' & pointer' & Hnav & Hsel & _ & _ & _ & _ & Hdouble).
  exists state', pointer'. split; [exact Hnav|].
  change (u32 (100 - last_button_press no_press_yet) <? 200) with true
    in Hdouble.
  destruct Hdouble as (Hquit & Hretv & _).
  split; [|split; assumption].
  rewrite Hsel. vm_compute in Hdraw. by injection Hdraw as _ _ <-.
Defined.

(** X25 on the five entries ranked against "fi": the entry on row 2 is
    found again on row 2. *)
Lemma selection_restored_by_source_index_witness :
  0 <= num_lines ranked_entries < 2 ^ 31
  /\ Z.of_nat (length (line_map ranked_entries)) = num_lines ranked_entries
  /\ 0 <= 2 < filtered_lines
               (rofi_view_refilter (H := example_helper)
                  (H0 := rofi_menu_return) ranking_config [] ranked_entries)
  /\ selected
       (rofi_view_set_selected_line
          (rofi_view_refilter (H := example_helper) (H0 := rofi_menu_return)
             ranking_config [] ranked_entries)
          (aget
             (line_map
                (rofi_view_refilter (H := example_helper)
                   (H0 := rofi_menu_return) ranking_config [] ranked_entries))
             2)) = 2.
Proof.
  assert (H1 : 0 <= num_lines ranked_entries < 2 ^ 31) by evaluated.
  assert (H2 : Z.of_nat (length (line_map ranked_entries))
               = num_lines ranked_entries) by evaluated.
  assert (H3 : 0 <= 2 < filtered_lines
                          (rofi_view_refilter (H := example_helper)
                             (H0 := rofi_menu_return) ranking_config []
                             ranked_entries)) by evaluated.
  split; [assumption|]. split; [assumption|]. split; [assumption|].
  destruct (selection_restored_by_source_index (H := example_helper)
              (H0 := rofi_menu_return) ranking_config [] ranked_entries 2
              H1 H2 H3) as [Hsel _].
  exact Hsel.
Defined.

(** X26 on the six candidates on their grid: with fifteen lines there is
    nothing to scroll and box 3 is highlighted. *)
Lemma draw_continuous_centres_the_selection_witness :
  1 <= menu_lines six_on_a_grid < 2 ^ 32
  /\ filtered_lines six_on_a_grid <= max_elements six_on_a_grid
  /\ 0 <= selected six_on_a_grid < filtered_lines six_on_a_grid
  /\ exists boxes offset,
       rofi_view_draw 1 six_on_a_grid no_page_yet
       = Some (boxes, set_rchanged FALSE six_on_a_grid, no_page_yet)
       /\ offset = 0
       /\ Z.of_nat (length boxes) = 6.
Proof.
  assert (H1 : 1 <= menu_lines six_on_a_grid < 2 ^ 32) by evaluated.
  assert (H2 : filtered_lines six_on_a_grid <= max_elements six_on_a_grid)
    by evaluated.
  assert (H3 : 1 <= max_rows six_on_a_grid) by evaluated.
  assert (H4 : 1 <= columns six_on_a_grid) by evaluated.
  assert (H5 : 1 <= max_elements six_on_a_grid
               <= max_rows six_on_a_grid * columns six_on_a_grid) by evaluated.
  assert (H6 : max_rows six_on_a_grid * columns six_on_a_grid < 2 ^ 32)
    by evaluated.
  assert (H7 : 0 <= selected six_on_a_grid < filtered_lines six_on_a_grid)
    by evaluated.
  assert (H8 : filtered_lines six_on_a_grid < 2 ^ 31) by evaluated.
  split; [assumption|]. split; [assumption|]. split; [assumption|].
  destruct (draw_continuous_centres_the_selection six_on_a_grid no_page_yet
              H1 (or_intror H2) H3 H4 H5 H6 H7 H8)
    as (boxes & offset & Hdraw & Hoff & Hlen & _).
  exists boxes, offset. split; [exact Hdraw|].
  split; [rewrite Hoff; reflexivity|].
  rewrite Hlen, Hoff. reflexivity.
Defined.

(** ** Marking the entries that are not ASCII *)

Section AsciiProofs.
Variable n : Z.
Hypothesis Hn32 : n < 2 ^ 32.

Lemma check_is_ascii_body_marks s i :
  0 <= i < Z.of_nat (length (lines_not_ascii s)) ->
  ascii_marked (check_is_ascii_body i s) i
  /\ forall c, ascii_marked s c -> ascii_marked (check_is_ascii_body i s) c.
Proof.
  intros Hi. unfold ascii_marked, check_is_ascii_body. cbn. split.
  - by apply aget_aset_eq.
  - intros c Hc. destruct (Z.eq_dec c i) as [->|Hne].
    + by apply aget_aset_eq.
    + by rewrite aget_aset_ne.
Qed.

Lemma check_is_ascii_body_ok s0 s i :
  ascii_state_ok n s0 s -> ascii_state_ok n s0 (check_is_ascii_body i s).
Proof.
  intros (Hsw & Hlen & Hfr & Hlm & Hd). unfold ascii_state_ok, check_is_ascii_body.
  cbn. rewrite aset_length. done.
Qed.

Lemma ascii_step_ok s0 k p s :
  ascii_state_ok n s0 s -> Forall (ascii_task_ok n s) p ->
  ascii_state_ok n s0 (ascii_step k p s).2
  /\ Forall (ascii_task_ok n (ascii_step k p s).2) (ascii_step k p s).1
  /\ (fun ti => (start ti.1, stop ti.1)) <$> (ascii_step k p s).1
     = (fun ti => (start ti.1, stop ti.1)) <$> p.
Proof.
  intros Hs Hp. unfold ascii_step.
  destruct (p !! k) as [[t i]|] eqn:Hk; [|done].
  destruct (Z.ltb_spec i (stop t)) as [Hlt|Hge]; [|done].
  cbn [fst snd].
  pose proof Hs as (_ & Hlen & _).
  assert (Hti : ascii_task_ok n s (t, i)).
  { rewrite Forall_forall in Hp. apply Hp. by eapply list_elem_of_lookup_2. }
  destruct Hti as (Hstart & Hstop & Hdone). cbn [fst snd] in *.
  destruct (check_is_ascii_body_marks s i ltac:(lia)) as [Hnew Hkeep].
  split; [by apply check_is_ascii_body_ok|]. split.
  - apply Forall_insert.
    + eapply Forall_impl; [exact Hp|]. intros [t' i'] (? & ? & Hd').
      split; [done|]. split; [done|]. intros c Hc1 Hc2. apply Hkeep.
      by apply Hd'.
    + split; cbn [fst snd]; [rewrite u32_small by lia; lia|].
      split; [done|]. intros c Hc1 Hc2. rewrite u32_small in Hc1 by lia.
      destruct (Z.eq_dec c i) as [->|Hne]; [done|].
      apply Hkeep, Hdone; lia.
  - apply list_eq. intros j. rewrite !list_lookup_fmap.
    destruct (decide (j = k)) as [->|Hne].
    + rewrite list_lookup_insert_eq by (by eapply lookup_lt_Some).
      by rewrite Hk.
    + by rewrite list_lookup_insert_ne.
Qed.

Lemma ascii_schedule_ok s0 sched : forall p s,
  ascii_state_ok n s0 s -> Forall (ascii_task_ok n s) p ->
  ascii_state_ok n s0 (ascii_schedule sched p s).2
  /\ Forall (ascii_task_ok n (ascii_schedule sched p s).2)
       (ascii_schedule sched p s).1
  /\ (fun ti => (start ti.1, stop ti.1)) <$> (ascii_schedule sched p s).1
     = (fun ti => (start ti.1, stop ti.1)) <$> p.
Proof.
  induction sched as [|k sched IH]; intros p s Hs Hp; [done|].
  cbn [ascii_schedule].
  destruct (ascii_step_ok s0 k p s Hs Hp) as (Hs' & Hp' & Hshape).
  destruct (ascii_step k p s) as [p' s']. cbn [fst snd] in *.
  destruct (IH p' s' Hs' Hp') as (Hs'' & Hp'' & Hshape').
  split; [done|]. split; [done|]. by rewrite Hshape'.
Qed.

(** One task run to its end marks the rest of its range and unmarks
    nothing. *)
Lemma check_is_ascii_loop_marks s0 t fuel : forall i s,
  ascii_state_ok n s0 s -> 0 <= i -> stop t <= n ->
  stop t <= i + Z.of_nat fuel ->
  let s' := check_is_ascii_loop fuel t i s in
  ascii_state_ok n s0 s'
  /\ (forall c, ascii_marked s c -> ascii_marked s' c)
  /\ (forall c, i <= c < stop t -> ascii_marked s' c).
Proof.
  induction fuel as [|fuel IH]; intros i s Hs Hi Hstop Hfuel s'; subst s'.
  { cbn. split; [done|]. split; [done|]. intros c Hc. lia. }
  cbn [check_is_ascii_loop].
  destruct (Z.ltb_spec i (stop t)) as [Hlt|Hge].
  - pose proof Hs as (_ & Hlen & _).
    destruct (check_is_ascii_body_marks s i ltac:(lia)) as [Hnew Hkeep].
    destruct (IH (u32 (i + 1)) (check_is_ascii_body i s)
                (check_is_ascii_body_ok s0 s i Hs)) as (Hs' & Hkeep' & Hrest);
      rewrite ?u32_small by lia; try lia.
    cbv zeta in *. rewrite (u32_small (i + 1)) in * by lia.
    split; [done|]. split; [auto|].
    intros c Hc. destruct (Z.eq_dec c i) as [->|Hne]; [auto|].
    apply Hrest. lia.
  - split; [done|]. split; [done|]. intros c Hc. lia.
Qed.

Lemma ascii_join_marks s0 p : forall s,
  ascii_state_ok n s0 s -> Forall (ascii_task_ok n s) p ->
  let s' := ascii_join p s in
  ascii_state_ok n s0 s'
  /\ (forall c, ascii_marked s c -> ascii_marked s' c)
  /\ Forall (fun ti => forall c, start ti.1 <= c < stop ti.1 -> ascii_marked s' c)
       p.
Proof.
  induction p as [|[t i] p IH]; intros s Hs Hp s'; subst s'.
  { cbn. split; [done|]. split; [done|]. constructor. }
  apply Forall_cons in Hp as [(Hstart & Hstop & Hdone) Hp].
  cbn [fst snd] in *. cbn [ascii_join]. unfold check_is_ascii_from.
  destruct (check_is_ascii_loop_marks s0 t (Z.to_nat (stop t - i)) i s Hs
              ltac:(lia) Hstop ltac:(lia)) as (Hs1 & Hkeep1 & Hrest1).
  cbv zeta in *.
  set (s1 := check_is_ascii_loop (Z.to_nat (stop t - i)) t i s) in *.
  assert (Hp1 : Forall (ascii_task_ok n s1) p).
  { eapply Forall_impl; [exact Hp|]. intros [t' i'] (? & ? & Hd').
    split; [done|]. split; [done|]. intros c Hc1 Hc2. apply Hkeep1.
    by apply Hd'. }
  destruct (IH s1 Hs1 Hp1) as (Hs2 & Hkeep2 & Hall).
  split; [done|]. split; [auto|].
  constructor; [|done]. cbn [fst snd]. intros c Hc. apply Hkeep2.
  destruct (Z.lt_ge_cases c i); [apply Hkeep1, Hdone; lia|apply Hrest1; lia].
Qed.
End AsciiProofs.

Lemma lookup_ascii_states (n nt steps : Z) (k : nat) t :
  1 <= steps -> nt * steps < 2 ^ 32 ->
  ascii_states n nt steps !! k = Some t ->
  start t = Z.of_nat k * steps
  /\ stop t = Z.min ((Z.of_nat k + 1) * steps) n.
Proof.
  intros Hsteps Hov Hk. unfold ascii_states in Hk.
  rewrite list_lookup_fmap in Hk.
  destruct (seqZ 0 nt !! k) as [i|] eqn:Hi; [|done].
  apply lookup_seqZ in Hi as [-> Hlt]. cbn in Hk. injection Hk as <-.
  cbn [start stop]. rewrite MIN_spec.
  rewrite !u32_small by nia. split; lia.
Qed.

Lemma ascii_chunk_sizes n :
  0 <= n -> n + MAX 1 (n / 5000) < 2 ^ 32 ->
  let nt := MAX 1 (n / 5000) in
  let steps := u32 (n + nt) / nt in
  1 <= nt /\ 1 <= steps /\ n <= nt * steps < 2 ^ 32.
Proof.
  intros Hn Hov nt steps. subst steps.
  assert (Hnt : 1 <= nt) by (subst nt; rewrite MAX_spec; lia).
  fold nt in Hov. rewrite u32_small by lia.
  pose proof (Z.mul_div_le (n + nt) nt ltac:(lia)).
  pose proof (Z.mul_succ_div_gt (n + nt) nt ltac:(lia)).
  assert (1 <= (n + nt) / nt) by (apply Z.div_le_lower_bound; lia).
  lia.
Qed.

(** The pass over chunks that cover the array, under any schedule. *)
Lemma ascii_chunks_spec (sched : list nat) (state : RofiViewState)
    (nt steps : Z) :
  0 <= num_lines state ->
  Z.of_nat (length (lines_not_ascii state)) = num_lines state ->
  1 <= steps -> 0 <= nt -> num_lines state <= nt * steps < 2 ^ 32 ->
  let state' := ascii_chunks sched state nt steps in
  ascii_state_ok (num_lines state) state state'
  /\ forall c, 0 <= c < num_lines state -> ascii_marked state' c.
Proof.
  intros Hn Hlen Hsteps Hnt Hcov state'. subst state'. unfold ascii_chunks.
  set (n := num_lines state) in *.
  set (p0 := (fun t => (t, start t)) <$> ascii_states n nt steps).
  assert (Hs0 : ascii_state_ok n state state).
  { split; [done|]. split; [done|]. split; [|done].
    destruct state; apply same_except_arrays_refl. }
  assert (Hp0 : Forall (ascii_task_ok n state) p0).
  { apply Forall_forall. intros ti Hti.
    apply list_elem_of_lookup_1 in Hti as [k Hk]. subst p0.
    rewrite list_lookup_fmap in Hk.
    destruct (ascii_states n nt steps !! k) as [t|] eqn:Et; [|done].
    cbn in Hk. injection Hk as <-.
    apply lookup_ascii_states in Et as [Hst Hsp]; [|lia|lia].
    split; cbn [fst snd]; [lia|]. split; [lia|]. intros c Hc. lia. }
  assert (Hn32 : n < 2 ^ 32) by nia.
  destruct (ascii_schedule_ok n Hn32 state sched p0 state Hs0 Hp0)
    as (Hs1 & Hp1 & Hshape).
  destruct (ascii_schedule sched p0 state) as [p1 s1]. cbn [fst snd] in *.
  destruct (ascii_join_marks n Hn32 state p1 s1 Hs1 Hp1)
    as (Hs2 & _ & Hall).
  cbv zeta in *. split; [done|].
  intros c Hc.
  (* the task whose chunk holds [c] *)
  set (k := Z.to_nat (c / steps)).
  assert (Hq : 0 <= c / steps /\ c / steps * steps <= c
               /\ c < (c / steps + 1) * steps).
  { pose proof (Z.div_mod c steps ltac:(lia)).
    pose proof (Z.mod_pos_bound c steps ltac:(lia)).
    split; [apply Z.div_pos; lia|]. nia. }
  assert (Hk : c / steps < nt) by nia.
  assert (Hlook : exists t, ascii_states n nt steps !! k = Some t).
  { apply lookup_lt_is_Some_2. unfold ascii_states.
    rewrite length_fmap, length_seqZ. lia. }
  destruct Hlook as [t Ht].
  pose proof (lookup_ascii_states n nt steps k t Hsteps ltac:(lia) Ht)
    as [Hst Hsp].
  assert (Hp1k : ((fun ti : thread_state * Z => (start ti.1, stop ti.1)) <$> p1)
                   !! k = Some (start t, stop t)).
  { rewrite Hshape. subst p0. rewrite <- list_fmap_compose, list_lookup_fmap, Ht.
    reflexivity. }
  rewrite list_lookup_fmap in Hp1k.
  destruct (p1 !! k) as [[t1 i1]|] eqn:E1; [|done].
  cbn in Hp1k. injection Hp1k as Hst1 Hsp1.
  rewrite Forall_forall in Hall.
  apply (Hall (t1, i1)); [by eapply list_elem_of_lookup_2|].
  cbn [fst]. rewrite Hst1, Hsp1, Hst, Hsp. subst k.
  rewrite Z2Nat.id by lia. lia.
Qed.

(** X27. [rofi_view_create] marks every entry: whatever the interleaving
    of the chunk tasks, after the pass [lines_not_ascii] has one cell per
    entry of the mode and cell [i] holds [mode_is_not_ascii] of entry [i];
    [num_lines] is the number of entries of the mode and nothing else of
    the view changes. *)
Theorem create_marks_every_entry (sched : list nat) (state : RofiViewState) :
  let n := mode_get_num_entries (sw state) in
  0 <= n -> n + MAX 1 (n / 5000) < 2 ^ 32 ->
  let state' := rofi_view_create_lines_not_ascii sched state in
  num_lines state' = n
  /\ lines_not_ascii state' = mode_is_not_ascii (sw state) <$> seqZ 0 n
  /\ sw state' = sw state /\ line_map state' = line_map state
  /\ distance state' = distance state /\ text state' = text state
  /\ selected state' = selected state
  /\ filtered_lines state' = filtered_lines state.
Proof.
  intros n Hn Hov state'. subst state'.
  unfold rofi_view_create_lines_not_ascii. cbv zeta.
  cbn [num_lines sw set_num_lines set_lines_not_ascii]. fold n.
  set (s0 := set_lines_not_ascii (replicate (Z.to_nat n) 0)
               (set_num_lines n state)).
  destruct (Z.gtb_spec n 0) as [Hpos|Hzero].
  - destruct (ascii_chunk_sizes n Hn Hov) as (Hnt & Hsteps & Hcov).
    cbv zeta in Hnt, Hsteps, Hcov.
    destruct (ascii_chunks_spec sched s0 (MAX 1 (n / 5000))
                (u32 (n + MAX 1 (n / 5000)) / MAX 1 (n / 5000)))
      as (Hok & Hmarked); try done; try lia.
    { subst s0. cbn. rewrite length_replicate. lia. }
    cbv zeta in Hok, Hmarked.
    change (num_lines s0) with n in Hok, Hmarked.
    set (s1 := ascii_chunks sched s0 _ _) in *.
    destruct Hok as (Hsw & Hlen & Hfr & Hlm & Hd).
    destruct Hfr as (_ & _ & _ & _ & _ & _ & _ & _ & Htx & Hnl & Hsel & Hfl & _).
    cbn in Htx, Hnl, Hsel, Hfl.
    split; [done|]. split; [|done].
    apply list_eq. intros j. rewrite list_lookup_fmap.
    destruct (decide (j < Z.to_nat n)%nat) as [Hj|Hj].
    + rewrite (lookup_seqZ_lt 0 n j) by lia. cbn.
      destruct (lookup_lt_is_Some_2 (lines_not_ascii s1) j ltac:(lia))
        as [v Hv].
      rewrite Hv. f_equal.
      specialize (Hmarked (Z.of_nat j) ltac:(lia)).
      unfold ascii_marked, aget in Hmarked.
      destruct (Z.ltb_spec (Z.of_nat j) 0); [lia|].
      rewrite Nat2Z.id in Hmarked.
      rewrite (nth_lookup_Some _ _ _ _ Hv) in Hmarked.
      by rewrite Hmarked, Hsw.
    + rewrite lookup_ge_None_2 by lia.
      rewrite lookup_seqZ_ge by lia. reflexivity.
  - subst s0. replace n with 0 by lia. cbn. repeat split.
Qed.

(** X27 on the three entries, one task: no entry of the table is marked. *)
Lemma create_marks_every_entry_witness :
  0 <= mode_get_num_entries (sw empty_query)
  /\ mode_get_num_entries (sw empty_query)
     + MAX 1 (mode_get_num_entries (sw empty_query) / 5000) < 2 ^ 32
  /\ lines_not_ascii (rofi_view_create_lines_not_ascii [0; 0]%nat empty_query)
     = [0; 0; 0].
Proof.
  assert (H1 : 0 <= mode_get_num_entries (sw empty_query)) by evaluated.
  assert (H2 : mode_get_num_entries (sw empty_query)
               + MAX 1 (mode_get_num_entries (sw empty_query) / 5000) < 2 ^ 32)
    by evaluated.
  split; [assumption|]. split; [assumption|].
  destruct (create_marks_every_entry [0; 0]%nat empty_query H1 H2)
    as (_ & Hmarks & _).
  rewrite Hmarks. reflexivity.
Defined.
